(** * File-based test manager: a shallow embedding of the services and models

    The development follows the JavaScript sources of the repository:
    the Manifest Service (schema-type inference, validation envelope), the
    File System Service (directory scanning, discovery, scan cache), the
    file helpers (manifest merge), the error handlers (retry with backoff)
    and the TestReport / TestSession models (derived metrics). *)

From Stdlib Require Import ZArith List Lia Bool Ascii String DecimalString.
From Stdlib Require Import PrimFloat.
From Stdlib Require Uint63 FloatOps SpecFloat.
From stdpp Require Import base option strings gmap.
Import ListNotations.

Set Warnings "-register-all".

Local Open Scope string_scope.
Local Open Scope Z_scope.

(* ===================================================================== *)
(** ** JavaScript run-time conventions shared by all services *)

Module Js.

(** A thrown [Error]: the optional [code] of Node's system errors and the
    [message]. *)
Record JsError : Type := mkError { code : option string; message : string }.

Definition Error (msg : string) : JsError := mkError None msg.

(** The completion of a call: it returns a value or it throws. *)
Inductive outcome (A : Type) : Type :=
| Returns (a : A)
| Throws (e : JsError).
Arguments Returns {A} a.
Arguments Throws {A} e.

Definition bind {A B} (c : outcome A) (k : A -> outcome B) : outcome B :=
  match c with
  | Returns a => k a
  | Throws e => Throws e
  end.

(** [try { c } catch (error) { h error }] *)
Definition try_catch {A} (c : outcome A) (h : JsError -> outcome A) : outcome A :=
  match c with
  | Returns a => Returns a
  | Throws e => h e
  end.

(** [s.includes(sub)] *)
Fixpoint includes (s sub : string) : bool :=
  match s with
  | EmptyString => String.prefix sub s
  | String _ s' => String.prefix sub s || includes s' sub
  end.

Definition lower_ascii (c : ascii) : ascii :=
  let n := nat_of_ascii c in
  if ((65 <=? n) && (n <=? 90))%nat then ascii_of_nat (n + 32) else c.

(** [s.toLowerCase()] on the ASCII range *)
Fixpoint toLowerCase (s : string) : string :=
  match s with
  | EmptyString => EmptyString
  | String c s' => String (lower_ascii c) (toLowerCase s')
  end.

(** [s.charCodeAt(i)] for an index inside the string (0 stands for NaN) *)
Definition charCodeAt (s : string) (i : nat) : Z :=
  match String.get i s with
  | Some c => Z.of_nat (nat_of_ascii c)
  | None => 0
  end.

(** [s.slice(start, end)] for [0 <= start] *)
Definition slice (s : string) (start stop : Z) : string :=
  String.substring (Z.to_nat start) (Z.to_nat (stop - start)) s.

Definition strlen (s : string) : Z := Z.of_nat (String.length s).

(** The property names every plain object inherits from [Object.prototype]. *)
Definition Object_prototype : list string :=
  ["constructor"; "__defineGetter__"; "__defineSetter__"; "hasOwnProperty";
   "__lookupGetter__"; "__lookupSetter__"; "isPrototypeOf";
   "propertyIsEnumerable"; "toString"; "valueOf"; "__proto__"; "toLocaleString"].

Definition inherited (key : string) : bool :=
  existsb (String.eqb key) Object_prototype.

(** *** Numbers: IEEE 754 doubles *)

(** The double nearest to an integer below 2^63 in magnitude. *)
Definition toNumber (z : Z) : float :=
  if z <? 0 then PrimFloat.opp (PrimFloat.of_uint63 (Uint63.of_Z (- z)))
  else PrimFloat.of_uint63 (Uint63.of_Z z).

(** A number is falsy when it is [NaN], [0] or [-0]. *)
Definition truthy (x : float) : bool :=
  negb (PrimFloat.is_nan x || PrimFloat.is_zero x).

(** [x || 0] on numbers *)
Definition orZero (x : float) : float := if truthy x then x else 0%float.

(** [Math.round(x)]: the integer nearest to [x], ties towards +Infinity.
    A finite double is [m * 2^e]; with [0 <= e] it is an integer already,
    otherwise the rounding is computed exactly on integers. *)
Definition Math_round (x : float) : float :=
  match FloatOps.Prim2SF x with
  | SpecFloat.S754_finite s m e =>
    if 0 <=? e then x
    else
      let n := if s then Z.neg m else Z.pos m in
      let r := (2 * n + 2 ^ (- e)) / 2 ^ (1 - e) in
      if (r =? 0) && s then PrimFloat.neg_zero else toNumber r
  | _ => x
  end.

End Js.

Notation "'let!' x ':=' c 'in' k" := (Js.bind c (fun x => k))
  (at level 10, x name, c at level 100, k at level 200).

(* ===================================================================== *)
(** ** Node's [path] module (POSIX flavour): [extname] and [basename] *)

Module NodePath.
Import Js.

Record ExtState : Type := mkExt {
  startDot : Z; startPart : Z; ext_end : Z;
  ext_matchedSlash : bool; preDotState : Z }.

(** The backwards loop of [path.extname]; [n] is [i + 1]. *)
Fixpoint extname_loop (path : string) (n : nat) (st : ExtState) : ExtState :=
  match n with
  | O => st
  | S i =>
    let c := charCodeAt path i in
    if c =? 47 then
      if negb (ext_matchedSlash st)
      then mkExt (startDot st) (Z.of_nat i + 1) (ext_end st)
                 (ext_matchedSlash st) (preDotState st)
      else extname_loop path i st
    else
      let st1 :=
        if ext_end st =? -1
        then mkExt (startDot st) (startPart st) (Z.of_nat i + 1) false (preDotState st)
        else st in
      let st2 :=
        if c =? 46 then
          if startDot st1 =? -1
          then mkExt (Z.of_nat i) (startPart st1) (ext_end st1)
                     (ext_matchedSlash st1) (preDotState st1)
          else if negb (preDotState st1 =? 1)
          then mkExt (startDot st1) (startPart st1) (ext_end st1)
                     (ext_matchedSlash st1) 1
          else st1
        else if negb (startDot st1 =? -1)
        then mkExt (startDot st1) (startPart st1) (ext_end st1)
                   (ext_matchedSlash st1) (-1)
        else st1 in
      extname_loop path i st2
  end.

Definition extname (path : string) : string :=
  let st := extname_loop path (String.length path) (mkExt (-1) 0 (-1) true 0) in
  if (startDot st =? -1) || (ext_end st =? -1) || (preDotState st =? 0)
     || ((preDotState st =? 1) && (startDot st =? ext_end st - 1)
         && (startDot st =? startPart st + 1))
  then ""
  else slice path (startDot st) (ext_end st).

Record BaseState : Type := mkBase {
  b_start : Z; b_end : Z; b_matchedSlash : bool;
  extIdx : Z; firstNonSlashEnd : Z }.

(** The backwards loop of [path.basename(path, suffix)] with a suffix. *)
Fixpoint basename_suffix_loop (path suffix : string) (n : nat) (st : BaseState)
  : BaseState :=
  match n with
  | O => st
  | S i =>
    let c := charCodeAt path i in
    if c =? 47 then
      if negb (b_matchedSlash st)
      then mkBase (Z.of_nat i + 1) (b_end st) (b_matchedSlash st)
                  (extIdx st) (firstNonSlashEnd st)
      else basename_suffix_loop path suffix i st
    else
      let st1 :=
        if firstNonSlashEnd st =? -1
        then mkBase (b_start st) (b_end st) false (extIdx st) (Z.of_nat i + 1)
        else st in
      let st2 :=
        if 0 <=? extIdx st1 then
          if c =? charCodeAt suffix (Z.to_nat (extIdx st1)) then
            if extIdx st1 - 1 =? -1
            then mkBase (b_start st1) (Z.of_nat i) (b_matchedSlash st1)
                        (extIdx st1 - 1) (firstNonSlashEnd st1)
            else mkBase (b_start st1) (b_end st1) (b_matchedSlash st1)
                        (extIdx st1 - 1) (firstNonSlashEnd st1)
          else mkBase (b_start st1) (firstNonSlashEnd st1) (b_matchedSlash st1)
                      (-1) (firstNonSlashEnd st1)
        else st1 in
      basename_suffix_loop path suffix i st2
  end.

(** The backwards loop of [path.basename(path)] without a usable suffix. *)
Fixpoint basename_plain_loop (path : string) (n : nat) (st : BaseState) : BaseState :=
  match n with
  | O => st
  | S i =>
    if charCodeAt path i =? 47 then
      if negb (b_matchedSlash st)
      then mkBase (Z.of_nat i + 1) (b_end st) (b_matchedSlash st)
                  (extIdx st) (firstNonSlashEnd st)
      else basename_plain_loop path i st
    else if b_end st =? -1
    then basename_plain_loop path i
           (mkBase (b_start st) (Z.of_nat i + 1) false (extIdx st) (firstNonSlashEnd st))
    else basename_plain_loop path i st
  end.

Definition basename (path suffix : string) : string :=
  if (0 <? strlen suffix) && (strlen suffix <=? strlen path) then
    if String.eqb suffix path then ""
    else
      let st := basename_suffix_loop path suffix (String.length path)
                  (mkBase 0 (-1) true (strlen suffix - 1) (-1)) in
      let stop :=
        if b_start st =? b_end st then firstNonSlashEnd st
        else if b_end st =? -1 then strlen path
        else b_end st in
      slice path (b_start st) stop
  else
    let st := basename_plain_loop path (String.length path)
                (mkBase 0 (-1) true (-1) (-1)) in
    if b_end st =? -1 then "" else slice path (b_start st) (b_end st).

End NodePath.

(* ===================================================================== *)
(** ** The Manifest Service ([ManifestService] class) *)

Module ManifestService.
Import Js.

(** An Ajv error object; only its [message] is read. *)
Record ErrorObject : Type := mkErrorObject { eo_message : string }.

(** What a compiled validator reports: [true] with [errors === null], or
    [false] with the array of error objects. *)
Inductive verdict : Type :=
| Valid
| Invalid (errors : list ErrorObject).

(** The envelope returned by [validateManifest]. *)
Record Envelope (Data : Type) : Type := mkEnvelope {
  isValid : bool;
  data : option Data;
  errors : list string;
  filePath : string }.
Arguments mkEnvelope {Data}.
Arguments isValid {Data}.
Arguments data {Data}.
Arguments errors {Data}.
Arguments filePath {Data}.

Definition getFileExtension (filePath : string) : string :=
  toLowerCase (NodePath.extname filePath).

Definition isSupportedFormat (extension : string) : bool :=
  existsb (String.eqb extension) [".json"; ".yaml"; ".yml"].

(** The [if / else if] chain of [processManifestFiles] on the file name. *)
Definition inferSchemaType (filename : string) : string :=
  if includes filename "strategy" then "test-strategy"
  else if includes filename "plan" then "test-plan"
  else if includes filename "charter" then "test-charter"
  else if includes filename "session" then "test-session"
  else if includes filename "report" then "test-report"
  else if includes filename "suite" then "test-suite"
  else if includes filename "case" then "test-case"
  else if includes filename "status" then "test-status-report"
  else "project".

(** [path.basename(filePath, extension)] as computed in the batch loop. *)
Definition manifestFilename (filePath : string) : string :=
  NodePath.basename filePath (getFileExtension filePath).

Definition schemaTypeOf (filePath : string) : string :=
  inferSchemaType (manifestFilename filePath).

Section Service.
(** The parsed payload, the schema objects, and the services of the
    run-time the class calls: [fs.readFile], [JSON.parse], [yaml.load],
    the schema registry [this.schemas] and [this.ajv.compile]. *)
Variable Data : Type.
Variable Schema : Type.
Variable fs_readFile : string -> outcome string.
Variable JSON_parse : string -> outcome Data.
Variable yaml_load : string -> outcome Data.
Variable schemas : gmap string Schema.
Variable ajv_compile : Schema -> outcome (Data -> outcome verdict).

Definition readManifestFile (filePath : string) : outcome Data :=
  let extension := getFileExtension filePath in
  if negb (isSupportedFormat extension)
  then Throws (Error ("Unsupported file format: " ++ extension))
  else
    try_catch
      (let! content := fs_readFile filePath in
       if String.eqb extension ".json" then JSON_parse content
       else yaml_load content)
      (fun error =>
         if bool_decide (code error = Some "ENOENT")
         then Throws (Error ("File not found: " ++ filePath))
         else Throws error).

Definition failure (msg : string) (filePath : string) : Envelope Data :=
  mkEnvelope false None [msg] filePath.

Definition validateManifest (filePath schemaType : string)
  : outcome (Envelope Data) :=
  try_catch
    (let! data := readManifestFile filePath in
     match schemas !! schemaType with
     | None => Throws (Error ("Unknown schema type: " ++ schemaType))
     | Some schema =>
       let! validate := ajv_compile schema in
       let! v := validate data in
       match v with
       | Valid => Returns (mkEnvelope true (Some data) [] filePath)
       | Invalid errs =>
         Returns (mkEnvelope false None (map eo_message errs) filePath)
       end
     end)
    (fun error => Returns (failure (message error) filePath)).

Fixpoint processManifestFiles_from (results : list (Envelope Data))
         (filePaths : list string) : outcome (list (Envelope Data)) :=
  match filePaths with
  | [] => Returns results
  | filePath :: rest =>
    let! results' :=
      try_catch
        (let schemaType := schemaTypeOf filePath in
         let! result := validateManifest filePath schemaType in
         Returns (results ++ [result])%list)
        (fun error => Returns (results ++ [failure (message error) filePath])%list) in
    processManifestFiles_from results' rest
  end.

Definition processManifestFiles (filePaths : list string)
  : outcome (list (Envelope Data)) :=
  processManifestFiles_from [] filePaths.

End Service.

(** The inference rule in the words of the specification: a first-match
    substring search over the priority table, [project] by default. *)
Definition priority : list (string * string) :=
  [ ("strategy", "test-strategy"); ("plan", "test-plan");
    ("charter", "test-charter"); ("session", "test-session");
    ("report", "test-report"); ("suite", "test-suite");
    ("case", "test-case"); ("status", "test-status-report") ].

Definition first_match (filename : string) : string :=
  match find (fun kv => includes filename (fst kv)) priority with
  | Some kv => snd kv
  | None => "project"
  end.

End ManifestService.

(* ===================================================================== *)
(** ** The File System Service: scanning, discovery and the scan cache *)

Module FileSystemService.
Import Js.

Definition MANIFEST_EXTENSIONS : list string := [".json"; ".yaml"; ".yml"].

(** The keys of [MANIFEST_TYPE_PATTERNS]; the pattern of key [k] is the
    case-insensitive regular expression [/k/i]. *)
Definition MANIFEST_TYPES : list string :=
  ["project"; "strategy"; "plan"; "charter"; "session"; "report"; "suite";
   "case"; "status"].

Definition TypeError_test : JsError := Error "pattern.test is not a function".

(** [MANIFEST_TYPE_PATTERNS[type]] followed by [pattern && pattern.test(fileName)]:
    an own key of the table gives its pattern; a name the table inherits
    from [Object.prototype] gives a value that is truthy and has no [test],
    so the call throws; any other type gives [undefined]. *)
Definition matchesPattern (type fileName : string) : outcome bool :=
  if existsb (String.eqb type) MANIFEST_TYPES
  then Returns (includes (toLowerCase fileName) type)
  else if inherited type then Throws TypeError_test
  else Returns false.

Inductive kind : Type := IsDirectory | IsFile | IsOther.

(** What [fs.stat] reports about an entry. *)
Record Stats : Type := mkStats { st_kind : kind; st_size : Z; st_mtime : Z }.

Record FileInfo : Type := mkFileInfo {
  f_name : string; f_path : string; f_size : Z; f_mtime : Z; f_extension : string }.

Record DirInfo : Type := mkDirInfo {
  d_name : string; d_path : string; d_size : Z; d_mtime : Z }.

(** The [{ success: false, error, errorType, suggestions }] envelope. *)
Record FsFailure : Type := mkFsFailure {
  fs_error : string; fs_errorType : string; fs_suggestions : list string }.

(** The result of [scanDirectory]: the success envelope or the failure one. *)
Inductive ScanResult : Type :=
| ScanOk (path : string) (files : list FileInfo) (directories : list DirInfo)
         (subdirectories : list ScanResult) (totalFiles : Z)
         (maxDepthReached : bool)
| ScanFailed (e : FsFailure).

Definition success (r : ScanResult) : bool :=
  match r with ScanOk _ _ _ _ _ _ => true | ScanFailed _ => false end.

Definition files (r : ScanResult) : list FileInfo :=
  match r with ScanOk _ fs _ _ _ _ => fs | ScanFailed _ => [] end.

Definition subdirectories (r : ScanResult) : list ScanResult :=
  match r with ScanOk _ _ _ subs _ _ => subs | ScanFailed _ => [] end.

Definition totalFiles (r : ScanResult) : Z :=
  match r with ScanOk _ _ _ _ n _ => n | ScanFailed _ => 0 end.

Definition maxDepthReached (r : ScanResult) : bool :=
  match r with ScanOk _ _ _ _ _ b => b | ScanFailed _ => false end.

Definition has_code (error : JsError) (c : string) : bool :=
  bool_decide (code error = Some c) || includes (message error) c.

Definition handleFileSystemError (error : JsError) : FsFailure :=
  if has_code error "ENOENT" then
    mkFsFailure (message error) "file_not_found"
                ["Check file path"; "Verify file exists"]
  else if has_code error "EACCES" then
    mkFsFailure (message error) "permission_denied"
                ["Check file permissions"; "Run with appropriate privileges"]
  else if has_code error "ENOSPC" then
    mkFsFailure (message error) "disk_full"
                ["Free up disk space"; "Clear temporary files"]
  else if has_code error "EBUSY" then
    mkFsFailure (message error) "concurrent_access"
                ["File may be in use by another process"; "Try again later"]
  else
    mkFsFailure (message error) "file_system_error"
                ["Check system logs"; "Verify disk health"].

Record ScanOptions : Type := mkScanOptions {
  recursive : bool; extensions : list string; maxDepth : Z; currentDepth : Z }.

(** The destructuring defaults of [scanDirectory]. *)
Definition defaultScanOptions : ScanOptions :=
  mkScanOptions false MANIFEST_EXTENSIONS 10 0.

(** [{ ...options, currentDepth: currentDepth + 1 }] *)
Definition deeper (options : ScanOptions) : ScanOptions :=
  mkScanOptions (recursive options) (extensions options) (maxDepth options)
                (currentDepth options + 1).

(** The locals of one [scanDirectory] invocation. *)
Record ScanLocals : Type := mkLocals {
  l_files : list FileInfo; l_directories : list DirInfo;
  l_subdirectories : list ScanResult; l_totalFiles : Z;
  l_maxDepthReached : bool }.

Section Scanning.
(** The file system as the service sees it: [fs.readdir], [fs.stat] and
    [path.join].  It is a function of the path, so it may describe trees
    of any depth, including endless ones. *)
Variable fs_readdir : string -> outcome (list string).
Variable fs_stat : string -> outcome Stats.
Variable path_join : string -> string -> string.

(** The [for (const entry of entries)] loop.  [scan] is the recursive
    call; it answers [None] when the model's fuel is exhausted, and the
    loop answers [Some (Throws _)] when a call inside it throws. *)
Fixpoint scan_entries (scan : string -> ScanOptions -> option ScanResult)
         (directoryPath : string) (options : ScanOptions)
         (entries : list string) (st : ScanLocals)
  : option (outcome ScanLocals) :=
  match entries with
  | [] => Some (Returns st)
  | entry :: rest =>
    let fullPath := path_join directoryPath entry in
    match fs_stat fullPath with
    | Throws e => Some (Throws e)
    | Returns stats =>
      match st_kind stats with
      | IsDirectory =>
        let st1 := mkLocals (l_files st)
                     (l_directories st ++
                        [mkDirInfo entry fullPath (st_size stats) (st_mtime stats)])
                     (l_subdirectories st) (l_totalFiles st)
                     (l_maxDepthReached st) in
        if recursive options && (currentDepth options <? maxDepth options) then
          match scan fullPath (deeper options) with
          | None => None
          | Some subResult =>
            let st2 :=
              if success subResult then
                mkLocals (l_files st1) (l_directories st1)
                         (l_subdirectories st1 ++ [subResult])
                         (l_totalFiles st1 + totalFiles subResult)
                         (l_maxDepthReached st1 || maxDepthReached subResult)
              else st1 in
            scan_entries scan directoryPath options rest st2
          end
        else scan_entries scan directoryPath options rest st1
      | IsFile =>
        let ext := toLowerCase (NodePath.extname entry) in
        if existsb (String.eqb ext) (extensions options) then
          scan_entries scan directoryPath options rest
            (mkLocals (l_files st ++
                         [mkFileInfo entry fullPath (st_size stats)
                                     (st_mtime stats) ext])
                      (l_directories st) (l_subdirectories st)
                      (l_totalFiles st + 1) (l_maxDepthReached st))
        else scan_entries scan directoryPath options rest st
      | IsOther => scan_entries scan directoryPath options rest st
      end
    end
  end.

(** [scanDirectory] with an explicit bound on the number of nested
    invocations; [None] means the bound was too small. *)
Fixpoint scanDirectory_fuel (fuel : nat) (directoryPath : string)
         (options : ScanOptions) : option ScanResult :=
  match fuel with
  | O => None
  | S fuel' =>
    if maxDepth options <=? currentDepth options then
      Some (ScanOk directoryPath [] [] [] 0 true)
    else
      match fs_readdir directoryPath with
      | Throws e => Some (ScanFailed (handleFileSystemError e))
      | Returns entries =>
        match scan_entries (scanDirectory_fuel fuel') directoryPath options
                           entries (mkLocals [] [] [] 0 false) with
        | None => None
        | Some (Throws e) => Some (ScanFailed (handleFileSystemError e))
        | Some (Returns st) =>
          Some (ScanOk directoryPath (l_files st) (l_directories st)
                       (l_subdirectories st) (l_totalFiles st)
                       (l_maxDepthReached st))
        end
      end
  end.

(** The number of nested invocations the depth budget allows. *)
Definition depthBudget (options : ScanOptions) : nat :=
  S (Z.to_nat (maxDepth options - currentDepth options)).

Definition scanDirectory (directoryPath : string) (options : ScanOptions)
  : option ScanResult :=
  scanDirectory_fuel (depthBudget options) directoryPath options.

(** *** The directory levels, in the words of the specification *)

(** The entries of a directory with their [fs.stat], in listing order; it
    throws as the scan of that directory does. *)
Fixpoint statEntries (directoryPath : string) (entries : list string)
  : outcome (list (string * Stats)) :=
  match entries with
  | [] => Returns []
  | entry :: rest =>
    let! stats := fs_stat (path_join directoryPath entry) in
    let! more := statEntries directoryPath rest in
    Returns ((entry, stats) :: more)
  end.

Definition listing (directoryPath : string) : outcome (list (string * Stats)) :=
  let! entries := fs_readdir directoryPath in
  statEntries directoryPath entries.

Definition isManifestEntry (exts : list string) (es : string * Stats) : bool :=
  match st_kind (snd es) with
  | IsFile => existsb (String.eqb (toLowerCase (NodePath.extname (fst es)))) exts
  | _ => false
  end.

Definition isDirectoryEntry (es : string * Stats) : bool :=
  match st_kind (snd es) with IsDirectory => true | _ => false end.

(** The paths of the files with a wanted extension directly inside a
    directory. *)
Definition manifestPaths (exts : list string) (directoryPath : string)
           (l : list (string * Stats)) : list string :=
  map (fun es => path_join directoryPath (fst es)) (List.filter (isManifestEntry exts) l).

(** The paths of the directories directly inside a directory. *)
Definition subdirPaths (directoryPath : string) (l : list (string * Stats))
  : list string :=
  map (fun es => path_join directoryPath (fst es)) (List.filter isDirectoryEntry l).

(** The manifest files directly inside a directory; none when the directory
    cannot be listed. *)
Definition manifestFilesAt (exts : list string) (directoryPath : string)
  : list string :=
  match listing directoryPath with
  | Returns l => manifestPaths exts directoryPath l
  | Throws _ => []
  end.

(** The directories directly inside a directory; none when the directory
    cannot be listed. *)
Definition subdirsAt (directoryPath : string) : list string :=
  match listing directoryPath with
  | Returns l => subdirPaths directoryPath l
  | Throws _ => []
  end.

(** *** [validateManifestFile] and [discoverManifestFiles] *)

Variable Data : Type.
Variable fs_readFile : string -> outcome string.
Variable JSON_parse : string -> outcome Data.
Variable yaml_load : string -> outcome Data.
(** [typeof parsedData === 'object' && parsedData !== null] *)
Variable isObject : Data -> bool.

Record ManifestValidation : Type := mkValidation {
  mv_isValid : bool; mv_errors : list string }.

Definition validateManifestFile (filePath : string) : ManifestValidation :=
  match fs_readFile filePath with
  | Throws e => mkValidation false [message e]
  | Returns content =>
    let ext := toLowerCase (NodePath.extname filePath) in
    let parsed :=
      if String.eqb ext ".json" then Some (JSON_parse content)
      else if String.eqb ext ".yaml" || String.eqb ext ".yml"
      then Some (yaml_load content)
      else None in
    match parsed with
    | None => mkValidation false ["Unsupported file format"]
    | Some (Throws e) => mkValidation false [message e]
    | Some (Returns parsedData) =>
      if negb (isObject parsedData)
      then mkValidation false ["File must contain a valid object"]
      else mkValidation true []
    end
  end.

Record DiscoverOptions : Type := mkDiscoverOptions {
  o_recursive : bool; o_types : option (list string);
  o_validate : bool; o_extensions : list string }.

Definition defaultDiscoverOptions : DiscoverOptions :=
  mkDiscoverOptions false None false MANIFEST_EXTENSIONS.

Record Discovery : Type := mkDiscovery {
  dv_files : list string;
  dv_validFiles : option (list string);
  dv_invalidFiles : option (list (string * list string));
  dv_filteredByType : bool;
  dv_totalFound : Z }.

Inductive DiscoverResult : Type :=
| DiscoverOk (d : Discovery)
| DiscoverFailed (e : FsFailure).

(** [allFiles]: the paths of the root result, then those of each entry of
    its [subdirectories]. *)
Definition collectAllFiles (recursive : bool) (scanResult : ScanResult)
  : list string :=
  (map f_path (files scanResult) ++
   (if recursive
    then flat_map (fun subdir => map f_path (files subdir))
                  (subdirectories scanResult)
    else []))%list.

(** [types.some(type => ...)] on a file name *)
Fixpoint someMatches (types : list string) (fileName : string) : outcome bool :=
  match types with
  | [] => Returns false
  | type :: rest =>
    let! found := matchesPattern type fileName in
    if found then Returns true else someMatches rest fileName
  end.

Definition matchesType (types : list string) (filePath : string) : outcome bool :=
  someMatches types (NodePath.basename filePath (NodePath.extname filePath)).

(** The loop over [allFiles] under a [types] filter. *)
Fixpoint filterByType (types : list string) (allFiles files : list string)
  : outcome (list string) :=
  match allFiles with
  | [] => Returns files
  | filePath :: rest =>
    let! found := matchesType types filePath in
    filterByType types rest (if found then (files ++ [filePath])%list else files)
  end.

(** The success envelope for the [files] kept. *)
Definition discovered (validate : bool) (found : list string) (filteredByType : bool)
  : Discovery :=
  let validations := map (fun p => (p, validateManifestFile p)) found in
  let validFiles :=
    map fst (List.filter (fun pv => mv_isValid (snd pv)) validations) in
  let invalidFiles :=
    map (fun pv => (fst pv, mv_errors (snd pv)))
        (List.filter (fun pv => negb (mv_isValid (snd pv))) validations) in
  mkDiscovery found
              (if validate then Some validFiles else None)
              (if validate then Some invalidFiles else None)
              filteredByType (Z.of_nat (List.length found)).

Definition discoverManifestFiles (directoryPath : string)
           (options : DiscoverOptions) : option DiscoverResult :=
  match scanDirectory directoryPath
          (mkScanOptions (o_recursive options) (o_extensions options) 10 0) with
  | None => None
  | Some scanResult =>
    if negb (success scanResult) then
      match scanResult with
      | ScanFailed e => Some (DiscoverFailed e)
      | ScanOk _ _ _ _ _ _ => None
      end
    else
      let allFiles := collectAllFiles (o_recursive options) scanResult in
      match o_types options with
      | Some types =>
        match filterByType types allFiles [] with
        | Returns found =>
          Some (DiscoverOk (discovered (o_validate options) found true))
        | Throws error => Some (DiscoverFailed (handleFileSystemError error))
        end
      | None => Some (DiscoverOk (discovered (o_validate options) allFiles false))
      end
  end.

(** *** The scan cache *)

(** The module-level [directoryCache] and [cacheStats].  The counters are
    integers (exact as doubles below 2^53). *)
Record CacheState : Type := mkCache {
  directoryCache : gmap string ScanResult;
  hits : Z; misses : Z; cache_size : Z }.

Definition emptyCache : CacheState := mkCache ∅ 0 0 0.

Record OptimizeResult : Type := mkOptimize {
  optimized : bool; scanTime : float; cached : bool; opt_success : bool }.

(** [optimizeDirectoryScanning]; [elapsed] is the difference of the two
    [process.hrtime.bigint()] readings, in nanoseconds. *)
Definition optimizeDirectoryScanning (elapsed : Z) (directoryPath : string)
           (st : CacheState) : option (OptimizeResult * CacheState) :=
  let cacheKey := "scan-" ++ directoryPath in
  match directoryCache st !! cacheKey with
  | Some _ =>
    Some (mkOptimize true 0%float true true,
          mkCache (directoryCache st) (hits st + 1) (misses st) (cache_size st))
  | None =>
    match scanDirectory directoryPath
            (mkScanOptions true MANIFEST_EXTENSIONS 10 0) with
    | None => None
    | Some result =>
      let cache' := <[cacheKey := result]> (directoryCache st) in
      Some (mkOptimize true (PrimFloat.div (toNumber elapsed) 1000000%float)
                       false true,
            mkCache cache' (hits st) (misses st + 1)
                    (Z.of_nat (size cache')))
    end
  end.

Definition invalidateCache (cacheKey : string) (st : CacheState)
  : bool * CacheState :=
  let deleted := bool_decide (is_Some (directoryCache st !! cacheKey)) in
  let cache' := delete cacheKey (directoryCache st) in
  (deleted, mkCache cache' (hits st) (misses st) (Z.of_nat (size cache'))).

End Scanning.

(** The file paths a result records at its top. *)
Definition topPaths (r : ScanResult) : list string := map f_path (files r).

(** The file paths recorded at the top of each of a list of results. *)
Definition recordedPaths (subs : list ScanResult) : list string :=
  flat_map (fun sub => map f_path (files sub)) subs.

(** The file paths a result records one level down. *)
Definition nestedPaths (r : ScanResult) : list string :=
  recordedPaths (subdirectories r).

(** *** Two sample file systems *)

Definition demo_join (directoryPath entry : string) : string :=
  directoryPath ++ "/" ++ entry.

(** root/top.json, root/a/mid.yaml, root/a/b/deep.yml *)
Definition demo_readdir (p : string) : outcome (list string) :=
  if String.eqb p "root" then Returns ["top.json"; "a"]
  else if String.eqb p "root/a" then Returns ["mid.yaml"; "b"]
  else if String.eqb p "root/a/b" then Returns ["deep.yml"]
  else Throws (mkError (Some "ENOENT") ("ENOENT: no such file or directory, scandir " ++ p)).

Definition demo_stat (p : string) : outcome Stats :=
  if String.eqb p "root/a" || String.eqb p "root/a/b"
  then Returns (mkStats IsDirectory 4096 0)
  else Returns (mkStats IsFile 120 0).

(** root/top.json, root/a/mid.yaml and root/a/gone, a link whose target is
    missing: [fs.readdir] lists it and [fs.stat] throws on it. *)
Definition dangling_readdir (p : string) : outcome (list string) :=
  if String.eqb p "root" then Returns ["top.json"; "a"]
  else if String.eqb p "root/a" then Returns ["mid.yaml"; "gone"]
  else Throws (mkError (Some "ENOENT") ("ENOENT: no such file or directory, scandir " ++ p)).

Definition dangling_stat (p : string) : outcome Stats :=
  if String.eqb p "root/a/gone"
  then Throws (mkError (Some "ENOENT") ("ENOENT: no such file or directory, stat " ++ p))
  else if String.eqb p "root/a" then Returns (mkStats IsDirectory 4096 0)
  else Returns (mkStats IsFile 120 0).

(** A tree without a bottom: every directory holds one directory [d]. *)
Definition endless_readdir (p : string) : outcome (list string) := Returns ["d"].

Definition endless_stat (p : string) : outcome Stats :=
  Returns (mkStats IsDirectory 4096 0).

Record CacheStats : Type := mkCacheStats {
  cs_hits : Z; cs_misses : Z; cs_size : Z; hitRate : float }.

Definition getCacheStats (st : CacheState) : CacheStats :=
  mkCacheStats (hits st) (misses st) (cache_size st)
    (orZero (PrimFloat.div (toNumber (hits st))
                           (toNumber (hits st + misses st)))).

End FileSystemService.

(* ===================================================================== *)
(** ** The [TestReport] model: derived metrics *)

Module TestReport.
Import Js.

(** The values a metrics property can hold: a missing property reads as
    [undefined]. *)
Inductive value : Type :=
| VUndefined
| VNull
| VNumber (x : float).

Record Metrics : Type := mkMetrics {
  testCasesExecuted : value; defectsFound : value }.

(** [this.data]: [metrics] is [None] when it is missing or [null]. *)
Record t : Type := mkReport { metrics : option Metrics }.

Definition getMetrics (r : t) : option Metrics := metrics r.

Definition getTestCasesExecuted (r : t) : value :=
  match getMetrics r with
  | Some m => testCasesExecuted m
  | None => VNull
  end.

Definition getDefectsFound (r : t) : value :=
  match getMetrics r with
  | Some m => defectsFound m
  | None => VNull
  end.

(** [v === null] *)
Definition isNull (v : value) : bool :=
  match v with VNull => true | _ => false end.

(** [v === 0] *)
Definition isZero (v : value) : bool :=
  match v with VNumber x => PrimFloat.eqb x 0%float | _ => false end.

(** [ToNumber(v)] *)
Definition ToNumber (v : value) : float :=
  match v with
  | VUndefined => PrimFloat.nan
  | VNull => 0%float
  | VNumber x => x
  end.

(** [v || 0] *)
Definition orZeroValue (v : value) : value :=
  match v with
  | VNumber x => if truthy x then v else VNumber 0%float
  | _ => VNumber 0%float
  end.

Definition getPassRate (r : t) : value :=
  let executed := getTestCasesExecuted r in
  let defects := getDefectsFound r in
  if isNull executed || isZero executed then VNull
  else
    let passed := PrimFloat.sub (ToNumber executed) (ToNumber (orZeroValue defects)) in
    VNumber (Math_round (PrimFloat.mul (PrimFloat.div passed (ToNumber executed))
                                       100%float)).

Definition getDefectDensity (r : t) : value :=
  let executed := getTestCasesExecuted r in
  let defects := getDefectsFound r in
  if isNull executed || isZero executed then VNull
  else VNumber (PrimFloat.div (ToNumber (orZeroValue defects)) (ToNumber executed)).

(** [Number.isNaN] on a returned value *)
Definition isNaNValue (v : value) : bool :=
  match v with VNumber x => PrimFloat.is_nan x | _ => false end.

Definition withMetrics (executed defects : value) : t :=
  mkReport (Some (mkMetrics executed defects)).

End TestReport.

(* ===================================================================== *)
(** ** The [TestSession] model: duration from start and end times *)

Module TestSession.
Import Js.

(** What [startTime] / [endTime] can hold. *)
Inductive field : Type :=
| FUndefined
| FNull
| FString (s : string)
| FNumber (n : Z).

Record t : Type := mkSession { startTime : field; endTime : field }.

Definition getStartTime (s : t) : field := startTime s.
Definition getEndTime (s : t) : field := endTime s.

(** [!v] *)
Definition falsy (v : field) : bool :=
  match v with
  | FUndefined | FNull => true
  | FString s => String.eqb s ""
  | FNumber n => n =? 0
  end.

(** [timeStr.split(':')] *)
Fixpoint split (sep : ascii) (s : string) : list string :=
  match s with
  | EmptyString => [EmptyString]
  | String c s' =>
    if Ascii.eqb c sep then EmptyString :: split sep s'
    else match split sep s' with
         | [] => [String c EmptyString]
         | p :: ps => String c p :: ps
         end
  end.

Definition isWhiteSpace (c : ascii) : bool :=
  let n := nat_of_ascii c in
  ((9 <=? n) && (n <=? 13))%nat || (n =? 32)%nat.

Fixpoint trimStart (s : string) : string :=
  match s with
  | String c s' => if isWhiteSpace c then trimStart s' else s
  | EmptyString => EmptyString
  end.

Definition digitValue (c : ascii) : option Z :=
  let n := nat_of_ascii c in
  if ((48 <=? n) && (n <=? 57))%nat then Some (Z.of_nat n - 48) else None.

(** The longest prefix of decimal digits, as an integer; [None] when the
    prefix is empty. *)
Fixpoint parseDigits (s : string) (acc : option Z) : option Z :=
  match s with
  | EmptyString => acc
  | String c s' =>
    match digitValue c with
    | Some d => parseDigits s' (Some (10 * default 0 acc + d))
    | None => acc
    end
  end.

(** [parseInt(s, 10)] on ASCII text; [None] is [NaN].  The integer is exact
    below 2^53. *)
Definition parseInt (s : string) : option Z :=
  match trimStart s with
  | String "-" rest => option_map Z.opp (parseDigits rest None)
  | String "+" rest => parseDigits rest None
  | body => parseDigits body None
  end.

(** The largest time value of a valid [Date]. *)
Definition maxTimeValue : Z := 8640000000000000.

(** [date = new Date(); date.setHours(hours, minutes, seconds, 0)] where
    [today] is the time value of the local midnight of the current
    calendar date (no daylight-saving shift within the day).  [None] is
    an invalid date. *)
Definition setHours (today hours minutes seconds : Z) : option Z :=
  let tv := today + hours * 3600000 + minutes * 60000 + seconds * 1000 in
  if Z.abs tv <=? maxTimeValue then Some tv else None.

(** [_parseTime]: [None] is [null], [Some d] a [Date] with time value [d]. *)
Definition _parseTime (today : Z) (timeStr : field) : option (option Z) :=
  match timeStr with
  | FString str =>
    if String.eqb str "" then None
    else
      match split ":" str with
      | [p0; p1; p2] =>
        match parseInt p0, parseInt p1, parseInt p2 with
        | Some hours, Some minutes, Some seconds =>
          Some (setHours today hours minutes seconds)
        | _, _, _ => None
        end
      | _ => None
      end
  | _ => None
  end.

(** What [calculateDurationFromTimes] returns. *)
Inductive duration : Type :=
| Null
| NaN
| Minutes (n : Z).

(** [Math.round(diffMs / (1000 * 60))] on an integer number of
    milliseconds: ties go towards +Infinity. *)
Definition roundToMinutes (diffMs : Z) : Z := (diffMs + 30000) / 60000.

Definition calculateDurationFromTimes (today : Z) (s : t) : duration :=
  let startTime := getStartTime s in
  let endTime := getEndTime s in
  if falsy startTime || falsy endTime then Null
  else
    match _parseTime today startTime, _parseTime today endTime with
    | Some start, Some stop =>
      match start, stop with
      | Some startMs, Some endMs => Minutes (roundToMinutes (endMs - startMs))
      | _, _ => NaN
      end
    | _, _ => Null
    end.

(** The hours, minutes and seconds [_parseTime] reads from a field, when it
    reads any. *)
Definition parsedComponents (v : field) : option (Z * Z * Z) :=
  match v with
  | FString str =>
    match split ":" str with
    | [p0; p1; p2] =>
      match parseInt p0, parseInt p1, parseInt p2 with
      | Some hours, Some minutes, Some seconds => Some (hours, minutes, seconds)
      | _, _, _ => None
      end
    | _ => None
    end
  | _ => None
  end.

(** The time of day in milliseconds. *)
Definition msOfDay (hms : Z * Z * Z) : Z :=
  let '(hours, minutes, seconds) := hms in
  hours * 3600000 + minutes * 60000 + seconds * 1000.

(** The date set to that time of day on the current date is a valid one. *)
Definition validOn (today : Z) (hms : Z * Z * Z) : bool :=
  Z.abs (today + msOfDay hms) <=? maxTimeValue.

(** A component is numeric, in the words of the specification, when it is
    a non-empty run of decimal digits. *)
Definition isDigit (c : ascii) : bool :=
  match digitValue c with Some _ => true | None => false end.

Fixpoint allDigits (s : string) : bool :=
  match s with
  | EmptyString => true
  | String c s' => isDigit c && allDigits s'
  end.

Definition numeric (s : string) : bool :=
  negb (String.eqb s "") && allDigits s.

(** A time string is well formed, in the words of the specification, when
    it has three colon-separated numeric components. *)
Definition wellFormed (v : field) : bool :=
  match v with
  | FString str =>
    match split ":" str with
    | [p0; p1; p2] => numeric p0 && numeric p1 && numeric p2
    | _ => false
    end
  | _ => false
  end.

End TestSession.

(* ===================================================================== *)
(** ** The file helpers: [mergeManifestData] *)

Module FileHelpers.
Import Js.

(** Manifest data as [JSON.parse] / [yaml.load] produce it.  An object is
    the list of its own properties in insertion order. *)
Inductive json : Type :=
| JNull
| JBool (b : bool)
| JNum (x : float)
| JStr (s : string)
| JArr (items : list json)
| JObj (fields : list (string * json)).

(** [typeof v === 'object'] *)
Definition typeofObject (v : json) : bool :=
  match v with JNull | JArr _ | JObj _ => true | _ => false end.

(** [Array.isArray(v)] *)
Definition isArray (v : json) : bool :=
  match v with JArr _ => true | _ => false end.

(** The truthiness of a value. *)
Definition truthyValue (v : json) : bool :=
  match v with
  | JNull => false
  | JBool b => b
  | JNum x => truthy x
  | JStr s => negb (String.eqb s "")
  | JArr _ | JObj _ => true
  end.

(** [obj[key]] on own properties; [None] is [undefined]. *)
Fixpoint get (key : string) (fields : list (string * json)) : option json :=
  match fields with
  | [] => None
  | (k, v) :: rest => if String.eqb k key then Some v else get key rest
  end.

(** [obj[key] = value]: an existing property keeps its place, a new one is
    added last. *)
Fixpoint set (key : string) (value : json) (fields : list (string * json))
  : list (string * json) :=
  match fields with
  | [] => [(key, value)]
  | (k, v) :: rest =>
    if String.eqb k key then (k, value) :: rest else (k, v) :: set key value rest
  end.

Definition indexKey (i : nat) : string := NilZero.string_of_uint (Nat.to_uint i).

Fixpoint indexed (i : nat) (items : list json) : list (string * json) :=
  match items with
  | [] => []
  | v :: rest => (indexKey i, v) :: indexed (S i) rest
  end.

Fixpoint chars (i : nat) (s : string) : list (string * json) :=
  match s with
  | EmptyString => []
  | String c s' => (indexKey i, JStr (String c EmptyString)) :: chars (S i) s'
  end.

(** [{ ...v }]: the own enumerable properties of [v]. *)
Definition spread (v : json) : list (string * json) :=
  match v with
  | JObj fields => fields
  | JArr items => indexed 0 items
  | JStr s => chars 0 s
  | _ => []
  end.

(** The test guarding the recursive call, on [result[key]] and [value]. *)
Definition mergesInto (current : option json) (value : json) : bool :=
  match current with
  | Some cur =>
    truthyValue cur && typeofObject cur && typeofObject value && negb (isArray value)
  | None => false
  end.

Definition TypeError_entries : JsError :=
  Error "Cannot convert undefined or null to object".

(** The prototype of an object: the objects of its prototype chain, nearest
    first, and whether the chain ends in [Object.prototype] ([rooted]) or
    in [null]. *)
Record Proto : Type := mkProto { layers : list json; rooted : bool }.

(** The prototype of an object literal and of parsed data. *)
Definition plainProto : Proto := mkProto [] true.

(** The data property [key] of the nearest object of a chain that has
    it. *)
Fixpoint inheritedValue (key : string) (chain : list json) : option json :=
  match chain with
  | [] => None
  | layer :: rest =>
    match get key (spread layer) with
    | Some v => Some v
    | None => inheritedValue key rest
    end
  end.

(** [result[key]]: an own property, else the property of the nearest
    prototype that has it, else for [__proto__] what the accessor of
    [Object.prototype] returns: the prototype itself, [Object.prototype]
    reading as the object without enumerable properties that it is.  A
    method inherited from [Object.prototype] or [Array.prototype] and the
    [length] of an array are not objects: they read as [None], which the
    guard treats as it treats them. *)
Definition readProperty (key : string) (result : list (string * json))
           (proto : Proto) : option json :=
  match get key result with
  | Some v => Some v
  | None =>
    match inheritedValue key (layers proto) with
    | Some v => Some v
    | None =>
      if String.eqb key "__proto__" && rooted proto
      then Some (match layers proto with
                 | layer :: _ => layer
                 | [] => JObj []
                 end)
      else None
    end
  end.

(** [result[key] = value], where [valueProto] is the prototype of [value]:
    the own property is set or created, except that [__proto__], when no
    data property of that name is found, goes to the accessor of
    [Object.prototype], which makes an object or [null] the prototype of
    [result], ignores any other value, and creates no property. *)
Definition writeProperty (key : string) (value : json) (valueProto : Proto)
           (result : list (string * json)) (proto : Proto)
  : list (string * json) * Proto :=
  if String.eqb key "__proto__" then
    match get key result, inheritedValue key (layers proto) with
    | None, None =>
      if rooted proto then
        match value with
        | JNull => (result, mkProto [] false)
        | JObj _ | JArr _ =>
          (result, mkProto (value :: layers valueProto) (rooted valueProto))
        | _ => (result, proto)
        end
      else (set key value result, proto)
    | _, _ => (set key value result, proto)
    end
  else (set key value result, proto).

(** The object [mergeManifestData] builds: its own properties and its
    prototype. *)
Fixpoint mergeResult (baseData additionalData : json) {struct additionalData}
  : outcome (list (string * json) * Proto) :=
  match additionalData with
  | JNull => Throws TypeError_entries
  | JObj fields =>
    (fix over_entries (entries : list (string * json))
         (result : list (string * json)) (proto : Proto) {struct entries}
       : outcome (list (string * json) * Proto) :=
       match entries with
       | [] => Returns (result, proto)
       | (key, value) :: rest =>
         if mergesInto (readProperty key result proto) value then
           let! merged :=
             mergeResult (default JNull (readProperty key result proto)) value in
           let written :=
             writeProperty key (JObj (fst merged)) (snd merged) result proto in
           over_entries rest (fst written) (snd written)
         else
           let written := writeProperty key value plainProto result proto in
           over_entries rest (fst written) (snd written)
       end) fields (spread baseData) plainProto
  | JArr items =>
    (fix over_items (i : nat) (entries : list json)
         (result : list (string * json)) (proto : Proto) {struct entries}
       : outcome (list (string * json) * Proto) :=
       match entries with
       | [] => Returns (result, proto)
       | value :: rest =>
         if mergesInto (readProperty (indexKey i) result proto) value then
           let! merged :=
             mergeResult (default JNull (readProperty (indexKey i) result proto))
                         value in
           let written :=
             writeProperty (indexKey i) (JObj (fst merged)) (snd merged) result proto in
           over_items (S i) rest (fst written) (snd written)
         else
           let written := writeProperty (indexKey i) value plainProto result proto in
           over_items (S i) rest (fst written) (snd written)
       end) 0%nat items (spread baseData) plainProto
  | JStr s =>
    Returns (fold_left (fun result kv => set (fst kv) (snd kv) result)
                       (chars 0 s) (spread baseData), plainProto)
  | JBool _ | JNum _ => Returns (spread baseData, plainProto)
  end.

(** [mergeManifestData(baseData, additionalData)]: the own properties of
    the object it returns. *)
Definition mergeManifestData (baseData additionalData : json) : outcome json :=
  let! merged := mergeResult baseData additionalData in
  Returns (JObj (fst merged)).

(** The [for ... of Object.entries(additionalData)] loop on a plain object,
    as a function of its own. *)
Fixpoint mergeEntries (entries result : list (string * json)) (proto : Proto)
  : outcome (list (string * json) * Proto) :=
  match entries with
  | [] => Returns (result, proto)
  | (key, value) :: rest =>
    if mergesInto (readProperty key result proto) value then
      let! merged :=
        mergeResult (default JNull (readProperty key result proto)) value in
      let written :=
        writeProperty key (JObj (fst merged)) (snd merged) result proto in
      mergeEntries rest (fst written) (snd written)
    else
      let written := writeProperty key value plainProto result proto in
      mergeEntries rest (fst written) (snd written)
  end.

End FileHelpers.

(* ===================================================================== *)
(** ** The error handlers: [retryOperation] *)

Module ErrorHandlers.
Import Js.

Record RetryOptions : Type := mkRetryOptions { maxRetries : Z; baseDelay : Z }.

(** The destructuring defaults of [retryOperation]. *)
Definition defaultRetryOptions : RetryOptions := mkRetryOptions 3 1000.

(** What the caller observes while the promise is pending. *)
Inductive event : Type :=
| Invoked
| Slept (delay : Z).

Inductive RetryResult (R : Type) : Type :=
| RetrySuccess (result : R) (attempts : Z)
| RetryFailure (errorType : string) (error : string) (attempts : Z).
Arguments RetrySuccess {R}.
Arguments RetryFailure {R}.

Section Retry.
(** The operation: it may keep a state of its own between invocations. *)
Variable R : Type.
Variable S : Type.
Variable operation : S -> outcome R * S.

(** The value returned after the loop; reading [lastError.message] throws
    when no attempt was made. *)
Definition exhausted (options : RetryOptions) (lastError : option JsError)
  : outcome (RetryResult R) :=
  match lastError with
  | Some e => Returns (RetryFailure "max_retries_exceeded" (message e)
                                    (maxRetries options))
  | None => Throws (Error "Cannot read properties of undefined (reading 'message')")
  end.

(** The [for (attempt = 1; attempt <= maxRetries; attempt++)] loop from
    [attempt] on; [None] means the model's fuel was exhausted. *)
Fixpoint retry_from (fuel : nat) (options : RetryOptions) (attempt : Z)
         (lastError : option JsError) (st : S) (trace : list event)
  : option (outcome (RetryResult R) * S * list event) :=
  if attempt <=? maxRetries options then
    match fuel with
    | O => None
    | Datatypes.S fuel' =>
      match operation st with
      | (Returns result, st') =>
        Some (Returns (RetrySuccess result attempt), st', (trace ++ [Invoked])%list)
      | (Throws error, st') =>
        if attempt =? maxRetries options then
          Some (exhausted options (Some error), st', (trace ++ [Invoked])%list)
        else
          let delay := baseDelay options * 2 ^ (attempt - 1) in
          retry_from fuel' options (attempt + 1) (Some error) st'
                     (trace ++ [Invoked; Slept delay])%list
      end
    end
  else Some (exhausted options lastError, st, trace).

Definition retryOperation (options : RetryOptions) (st : S)
  : option (outcome (RetryResult R) * S * list event) :=
  retry_from (Z.to_nat (maxRetries options)) options 1 None st [].

(** The operation throws on each of the next [n] invocations. *)
Fixpoint failsFor (n : nat) (st : S) : Prop :=
  match n with
  | O => True
  | Datatypes.S n' =>
    match operation st with
    | (Throws _, st') => failsFor n' st'
    | (Returns _, _) => False
    end
  end.

(** The operation throws whenever it is invoked. *)
Definition alwaysThrows : Prop :=
  forall st, exists e st', operation st = (Throws e, st').

(** The state of the operation after [n] invocations. *)
Fixpoint stateAfter (n : nat) (st : S) : S :=
  match n with
  | O => st
  | Datatypes.S n' => stateAfter n' (snd (operation st))
  end.

End Retry.

(** The events of [n] failed attempts, each followed by its delay, and of one
    more attempt, the first being attempt number [attempt]. *)
Fixpoint attemptsTrace (baseDelay : Z) (attempt : Z) (n : nat) : list event :=
  match n with
  | O => [Invoked]
  | Datatypes.S n' =>
    Invoked :: Slept (baseDelay * 2 ^ (attempt - 1))
            :: attemptsTrace baseDelay (attempt + 1) n'
  end.

Definition invocations (trace : list event) : nat :=
  List.length (List.filter (fun e => match e with Invoked => true | _ => false end) trace).

Definition delays (trace : list event) : list Z :=
  flat_map (fun e => match e with Slept d => [d] | Invoked => [] end) trace.

(** The delays the specification announces before attempts [2 .. n]:
    [baseDelay * 2^(k-1)] after attempt [k]. *)
Definition backoff (baseDelay : Z) (n : nat) : list Z :=
  map (fun k => baseDelay * 2 ^ (Z.of_nat k - 1)) (seq 1 (n - 1)).

End ErrorHandlers.

(* ===================================================================== *)
(** ** The Manifest Service: synchronous validation *)

Module ManifestServiceSync.
Import Js ManifestService.

Section Service.
Variable Data : Type.
Variable Schema : Type.
Variable schemas : gmap string Schema.
Variable ajv_compile : Schema -> outcome (Data -> outcome verdict).

(** [validateData(data, schemaType)]: the result is [{ isValid, errors }]. *)
Definition validateData (data : Data) (schemaType : string)
  : outcome (bool * list string) :=
  match schemas !! schemaType with
  | None => Throws (Error ("Unknown schema type: " ++ schemaType))
  | Some schema =>
    let! validate := ajv_compile schema in
    let! v := validate data in
    match v with
    | Valid => Returns (true, [])
    | Invalid errs => Returns (false, map eo_message errs)
    end
  end.

End Service.

End ManifestServiceSync.

(* ===================================================================== *)
(** ** Walking a directory for manifest files: [ManifestService.discoverManifestFiles],
       and [listManifestFiles] / [findManifestFiles] of the file helpers *)

Module ManifestWalk.
Import Js.

(** A directory entry as [fs.readdir(_, { withFileTypes: true })] gives it. *)
Record Dirent : Type := mkDirent { name : string; isFile : bool; isDirectory : bool }.

(** [getManifestFileType]: [None] is [null]. *)
Definition getManifestFileType (filePath : string) : option string :=
  let ext := toLowerCase (NodePath.extname filePath) in
  if String.eqb ext ".json" then Some "json"
  else if String.eqb ext ".yaml" then Some "yaml"
  else if String.eqb ext ".yml" then Some "yml"
  else None.

Definition isManifestFile (filePath : string) : bool :=
  match getManifestFileType filePath with Some _ => true | None => false end.

Section Walk.
Variable fs_readdir : string -> outcome (list Dirent).
Variable path_join : string -> string -> string.

(** [listManifestFiles] *)
Definition listManifestFiles (directoryPath : string) : outcome (list string) :=
  let! items := fs_readdir directoryPath in
  Returns
    (fold_left
       (fun manifestFiles item =>
          if isFile item then
            let itemPath := path_join directoryPath (name item) in
            if isManifestFile itemPath then (manifestFiles ++ [itemPath])%list
            else manifestFiles
          else manifestFiles)
       items []).

(** The [for (const item of items)] loop shared by the two recursive walks;
    [accepts] is the test on the item's path and [walk] the recursive call,
    which answers [None] when the model's fuel is exhausted. *)
Fixpoint walk_items (accepts : string -> bool)
         (walk : string -> option (outcome (list string)))
         (directoryPath : string) (recursive : bool) (items : list Dirent)
         (manifestFiles : list string) : option (outcome (list string)) :=
  match items with
  | [] => Some (Returns manifestFiles)
  | item :: rest =>
    let itemPath := path_join directoryPath (name item) in
    if isFile item then
      walk_items accepts walk directoryPath recursive rest
                 (if accepts itemPath then (manifestFiles ++ [itemPath])%list
                  else manifestFiles)
    else if isDirectory item && recursive then
      match walk itemPath with
      | None => None
      | Some (Throws e) => Some (Throws e)
      | Some (Returns subFiles) =>
        walk_items accepts walk directoryPath recursive rest
                   (manifestFiles ++ subFiles)%list
      end
    else walk_items accepts walk directoryPath recursive rest manifestFiles
  end.

(** [findManifestFiles(directoryPath, { recursive })] of the file helpers;
    the recursive call passes [recursive: true]. *)
Fixpoint findManifestFiles_fuel (fuel : nat) (directoryPath : string)
         (recursive : bool) : option (outcome (list string)) :=
  match fuel with
  | O => None
  | S fuel' =>
    match fs_readdir directoryPath with
    | Throws e => Some (Throws e)
    | Returns items =>
      walk_items isManifestFile (fun p => findManifestFiles_fuel fuel' p true)
                 directoryPath recursive items []
    end
  end.

(** The [catch] of [ManifestService.discoverManifestFiles]. *)
Definition directoryNotFound (directoryPath : string) (error : JsError) : JsError :=
  if bool_decide (code error = Some "ENOENT")
  then Error ("Directory not found: " ++ directoryPath)
  else error.

(** [ManifestService.discoverManifestFiles(directoryPath, { recursive })] *)
Fixpoint discoverManifestFiles_fuel (fuel : nat) (directoryPath : string)
         (recursive : bool) : option (outcome (list string)) :=
  match fuel with
  | O => None
  | S fuel' =>
    match fs_readdir directoryPath with
    | Throws e => Some (Throws (directoryNotFound directoryPath e))
    | Returns items =>
      match walk_items
              (fun itemPath =>
                 ManifestService.isSupportedFormat
                   (ManifestService.getFileExtension itemPath))
              (fun p => discoverManifestFiles_fuel fuel' p true)
              directoryPath recursive items [] with
      | None => None
      | Some (Throws e) => Some (Throws (directoryNotFound directoryPath e))
      | Some (Returns manifestFiles) => Some (Returns manifestFiles)
      end
    end
  end.

End Walk.

(** A tree without a bottom: every directory holds one directory [d]. *)
Definition endless_dirents (p : string) : outcome (list Dirent) :=
  Returns [mkDirent "d" false true].

End ManifestWalk.

(* ===================================================================== *)
(** ** YAML support: [detectYamlFormat] *)

Module YamlSupport.
Import Js.

(** [s.startsWith(prefix)] *)
Definition startsWith (s prefix : string) : bool := String.prefix prefix s.

(** The string of one double quote character. *)
Definition doubleQuote : string := String (ascii_of_nat 34) EmptyString.

(** [detectYamlFormat(filePath, content)]; a [None] argument is a missing,
    [null] or empty one, a [None] result is [null].  [content.trim()] is
    read through its first character only. *)
Definition detectYamlFormat (filePath content : option string) : option string :=
  let byExtension :=
    match filePath with
    | Some p =>
      let ext := toLowerCase (NodePath.extname p) in
      if String.eqb ext ".yaml" || String.eqb ext ".yml" then Some "yaml"
      else if String.eqb ext ".json" then Some "json"
      else None
    | None => None
    end in
  match byExtension with
  | Some format => Some format
  | None =>
    match content with
    | Some c =>
      if includes c "---" || includes c "..." then Some "yaml"
      else if startsWith (TestSession.trimStart c) "{"
              || startsWith (TestSession.trimStart c) "["
      then Some "json"
      else if includes c ":" && negb (includes c doubleQuote) && negb (includes c "{")
      then Some "yaml"
      else None
    | None => None
    end
  end.

End YamlSupport.

(* ===================================================================== *)
(** ** The File System Service: directory reports, grouping, watchers *)

Module DirectoryReports.
Import Js FileSystemService.

(** A count as JavaScript computes it: an integer, or [NaN] once an
    [undefined] has been added in. *)
Inductive count : Type :=
| NotANumber
| Count (n : Z).

(** [a + b] on counts *)
Definition plus (a b : count) : count :=
  match a, b with
  | Count x, Count y => Count (x + y)
  | _, _ => NotANumber
  end.

Definition directories (r : ScanResult) : list DirInfo :=
  match r with ScanOk _ _ ds _ _ _ => ds | ScanFailed _ => [] end.

(** [sub.totalDirectories] read from a scan result, which has no such
    property: [undefined], that is [NaN] under [+]. *)
Definition sub_totalDirectories (sub : ScanResult) : count := NotANumber.

(** The number of file records in a result and in all the results nested
    in it. *)
Fixpoint recordedFiles (r : ScanResult) : Z :=
  match r with
  | ScanOk _ fs _ subs _ _ =>
    Z.of_nat (List.length fs)
    + (fix total (l : list ScanResult) : Z :=
         match l with
         | [] => 0
         | sub :: rest => recordedFiles sub + total rest
         end) subs
  | ScanFailed _ => 0
  end.

(** The number of file records in a list of results. *)
Definition recordedIn (subs : list ScanResult) : Z :=
  fold_right Z.add 0 (map recordedFiles subs).

(** The paths of the directories a result records at its top. *)
Definition directoryPaths (r : ScanResult) : list string :=
  map d_path (directories r).

Definition handleDirectoryError (error : JsError) : FsFailure :=
  if bool_decide (code error = Some "ENOENT") then
    mkFsFailure (message error) "directory_not_found"
                ["Check directory path"; "Verify directory exists"]
  else if bool_decide (code error = Some "EACCES") then
    mkFsFailure (message error) "permission_denied"
                ["Check permissions"; "Run with appropriate privileges"]
  else
    mkFsFailure (message error) "directory_error"
                ["Check directory path"; "Verify permissions"].

(** The [TypeError] of reading [.length] of [undefined]. *)
Definition TypeError_length : JsError :=
  Error "Cannot read properties of undefined (reading 'length')".

Record Structure : Type := mkStructure {
  s_path : string;
  s_files : list FileInfo;
  s_directories : list DirInfo;
  s_subdirectories : list ScanResult;
  s_totalFiles : Z;
  s_totalDirectories : count;
  s_maxDepth : option Z }.

Inductive StructureResult : Type :=
| StructureOk (structure : Structure)
| StructureFailed (e : FsFailure).

Record DirectoryStats : Type := mkDirectoryStats {
  ds_size : Z; ds_files : Z; ds_directories : Z; ds_lastModified : Z }.

Inductive StatsResult : Type :=
| StatsOk (stats : DirectoryStats)
| StatsFailed (e : FsFailure).

Section Reports.
Variable fs_readdir : string -> outcome (list string).
Variable fs_stat : string -> outcome Stats.
Variable path_join : string -> string -> string.

(** [getDirectoryStructure(directoryPath, { recursive, maxDepth })] *)
Definition getDirectoryStructure (directoryPath : string) (recursive : bool)
           (maxDepth : Z) : option StructureResult :=
  match scanDirectory fs_readdir fs_stat path_join directoryPath
          (mkScanOptions recursive MANIFEST_EXTENSIONS maxDepth 0) with
  | None => None
  | Some (ScanFailed e) => Some (StructureFailed e)
  | Some (ScanOk _ fs ds subs total reached) =>
    Some (StructureOk
            (mkStructure directoryPath fs ds subs total
               (plus (Count (Z.of_nat (List.length ds)))
                     (fold_left (fun sum sub => plus sum (sub_totalDirectories sub))
                                subs (Count 0)))
               (if reached then Some maxDepth else None)))
  end.

(** [getDirectoryStats(directoryPath)] *)
Definition getDirectoryStats (directoryPath : string) : option StatsResult :=
  match fs_stat directoryPath with
  | Throws e => Some (StatsFailed (handleDirectoryError e))
  | Returns stats =>
    match scanDirectory fs_readdir fs_stat path_join directoryPath
            (mkScanOptions true MANIFEST_EXTENSIONS 10 0) with
    | None => None
    | Some (ScanFailed _) => Some (StatsFailed (handleDirectoryError TypeError_length))
    | Some (ScanOk _ _ ds subs total _) =>
      Some (StatsOk
              (mkDirectoryStats (st_size stats) total
                 (Z.of_nat (List.length ds)
                  + fold_left (fun sum sub => sum + Z.of_nat (List.length (directories sub)))
                              subs 0)
                 (st_mtime stats)))
    end
  end.

End Reports.

(** *** Grouping by type *)

(** The first key of [MANIFEST_TYPE_PATTERNS] whose pattern matches. *)
Definition firstType (fileName : string) : option string :=
  find (fun type => includes (toLowerCase fileName) type) MANIFEST_TYPES.

(** [groups[type]]; [None] is [undefined]. *)
Fixpoint group (type : string) (groups : list (string * list string))
  : option (list string) :=
  match groups with
  | [] => None
  | (t, paths) :: rest => if String.eqb t type then Some paths else group type rest
  end.

(** [if (!groups[type]) groups[type] = []; groups[type].push(filePath)] *)
Fixpoint pushInto (type filePath : string) (groups : list (string * list string))
  : list (string * list string) :=
  match groups with
  | [] => [(type, [filePath])]
  | (t, paths) :: rest =>
    if String.eqb t type then (t, (paths ++ [filePath])%list) :: rest
    else (t, paths) :: pushInto type filePath rest
  end.

Definition typeOfPath (filePath : string) : option string :=
  firstType (NodePath.basename filePath (NodePath.extname filePath)).

(** The loop of [groupManifestFiles] over the discovered files. *)
Definition groupFiles (files : list string) : list (string * list string) :=
  fold_left
    (fun groups filePath =>
       match typeOfPath filePath with
       | Some type => pushInto type filePath groups
       | None => groups
       end)
    files [].

Record Grouping : Type := mkGrouping {
  groups : list (string * list string); totalGroups : Z }.

Inductive GroupResult : Type :=
| GroupOk (g : Grouping)
| GroupFailed (e : FsFailure).

Section Grouping.
Variable fs_readdir : string -> outcome (list string).
Variable fs_stat : string -> outcome Stats.
Variable path_join : string -> string -> string.
Variable Data : Type.
Variable fs_readFile : string -> outcome string.
Variable JSON_parse : string -> outcome Data.
Variable yaml_load : string -> outcome Data.
Variable isObject : Data -> bool.

(** [groupManifestFiles(directoryPath)] *)
Definition groupManifestFiles (directoryPath : string) : option GroupResult :=
  match discoverManifestFiles fs_readdir fs_stat path_join Data fs_readFile
          JSON_parse yaml_load isObject directoryPath
          (mkDiscoverOptions true None false MANIFEST_EXTENSIONS) with
  | None => None
  | Some (DiscoverFailed e) => Some (GroupFailed e)
  | Some (DiscoverOk d) =>
    let gs := groupFiles (dv_files d) in
    Some (GroupOk (mkGrouping gs (Z.of_nat (List.length gs))))
  end.

End Grouping.

(** The file's first matching type is [type]. *)
Definition hasType (type filePath : string) : bool :=
  match typeOfPath filePath with
  | Some t => String.eqb t type
  | None => false
  end.

(** The schema type the Manifest Service infers for a group's type. *)
Definition schemaOfType (type : option string) : string :=
  match type with
  | None => "project"
  | Some t => if String.eqb t "status" then "test-status-report" else "test-" ++ t
  end.

(** *** Sequences of cache operations *)

Inductive cacheOp : Type :=
| Optimize (elapsed : Z) (directoryPath : string)
| Invalidate (cacheKey : string).

Definition isOptimize (op : cacheOp) : bool :=
  match op with Optimize _ _ => true | Invalidate _ => false end.

Section CacheRuns.
Variable fs_readdir : string -> outcome (list string).
Variable fs_stat : string -> outcome Stats.
Variable path_join : string -> string -> string.

(** The calls of [optimizeDirectoryScanning] and [invalidateCache] in
    order, from a given state of the cache. *)
Fixpoint runCache (ops : list cacheOp) (st : CacheState) : option CacheState :=
  match ops with
  | [] => Some st
  | Optimize elapsed directoryPath :: rest =>
    match optimizeDirectoryScanning fs_readdir fs_stat path_join
            elapsed directoryPath st with
    | None => None
    | Some (_, st') => runCache rest st'
    end
  | Invalidate cacheKey :: rest => runCache rest (snd (invalidateCache cacheKey st))
  end.

End CacheRuns.

(** What every state of the cache reached after [calls] scanning calls
    satisfies. *)
Definition cacheInvariant (calls : Z) (st : CacheState) : Prop :=
  cache_size st = Z.of_nat (size (directoryCache st))
  /\ hits st + misses st = calls
  /\ 0 <= hits st
  /\ Z.of_nat (size (directoryCache st)) <= misses st.

(** *** Watchers *)

(** A registered chokidar watcher: whether its [close()] rejects, and what
    [getWatched()] answers. *)
Record Watcher : Type := mkWatcher {
  closeError : option JsError; watched : list string }.

Definition handleWatchError (error : JsError) : FsFailure :=
  mkFsFailure (message error) "watch_error"
              ["Check directory path"; "Verify permissions"; "Restart the service"].

Inductive StopResult : Type :=
| Stopped (watcherId : string)
| WatcherNotFound
| StopFailed (e : FsFailure).

Definition stopWatching (watcherId : string) (watchers : gmap string Watcher)
  : StopResult * gmap string Watcher :=
  match watchers !! watcherId with
  | None => (WatcherNotFound, watchers)
  | Some watcher =>
    match closeError watcher with
    | Some e => (StopFailed (handleWatchError e), watchers)
    | None => (Stopped watcherId, delete watcherId watchers)
    end
  end.

Inductive WatcherStatus : Type :=
| StatusActive (watchedPaths : list string)
| StatusNotFound.

Definition getWatcherStatus (watcherId : string) (watchers : gmap string Watcher)
  : WatcherStatus :=
  match watchers !! watcherId with
  | None => StatusNotFound
  | Some watcher => StatusActive (watched watcher)
  end.

(** [pauseWatching] / [resumeWatching]: only the [success] flag depends on
    the registry, which is left as it was. *)
Definition pauseWatching (watcherId : string) (watchers : gmap string Watcher)
  : bool * gmap string Watcher :=
  (bool_decide (is_Some (watchers !! watcherId)), watchers).

Definition closes (w : Watcher) : bool :=
  match closeError w with None => true | Some _ => false end.

(** [cleanupWatchers]: the number of watchers closed, and the registry
    after [watchers.clear()]. *)
Definition cleanupWatchers (watchers : gmap string Watcher)
  : Z * gmap string Watcher :=
  (Z.of_nat (List.length (List.filter (fun kw => closes (snd kw)) (map_to_list watchers))),
   ∅).

End DirectoryReports.

(* ===================================================================== *)
(** ** Property access on plain objects *)

Module JsObject.
Import FileHelpers.

(** The property names every plain object inherits from [Object.prototype]. *)
Definition Object_prototype : list string := Js.Object_prototype.

Definition inherited (key : string) : bool := Js.inherited key.

(** [key in obj] *)
Definition hasProperty (key : string) (obj : list (string * json)) : bool :=
  match get key obj with Some _ => true | None => inherited key end.

(** [obj[key] = value] on a plain object, as far as its own properties go:
    [__proto__] is an accessor and the assignment creates no own property
    (it replaces the prototype, which [inherited] does not follow). *)
Definition assign (key : string) (value : json) (obj : list (string * json))
  : list (string * json) :=
  if String.eqb key "__proto__" then obj else set key value obj.

End JsObject.

(* ===================================================================== *)
(** ** The file helpers: [diffManifestData], backup and restore *)

Module ManifestDiff.
Import Js FileHelpers JsObject.

Record Diff : Type := mkDiff {
  added : list (string * json);
  modified : list (string * json);
  removed : list (string * json) }.

Section Diff.
(** [JSON.stringify] on manifest values *)
Variable JSON_stringify : json -> string.

(** [JSON.stringify(obj[key])]: an inherited method gives [undefined], the
    inherited [__proto__] is the empty prototype object. *)
Definition stringifiedAt (key : string) (obj : list (string * json)) : option string :=
  match get key obj with
  | Some value => Some (JSON_stringify value)
  | None => if String.eqb key "__proto__" then Some "{}" else None
  end.

(** [a !== b] on the results of [JSON.stringify] *)
Definition differs (a b : option string) : bool :=
  match a, b with
  | Some x, Some y => negb (String.eqb x y)
  | None, None => false
  | _, _ => true
  end.

(** The first loop, over [Object.entries(modifiedData)]. *)
Fixpoint diffEntries (originalData entries added modified : list (string * json))
  : list (string * json) * list (string * json) :=
  match entries with
  | [] => (added, modified)
  | (key, value) :: rest =>
    if negb (hasProperty key originalData)
    then diffEntries originalData rest (assign key value added) modified
    else if differs (stringifiedAt key originalData) (Some (JSON_stringify value))
    then diffEntries originalData rest added (assign key value modified)
    else diffEntries originalData rest added modified
  end.

(** The second loop, over [Object.keys(originalData)]; [entries] are the
    own properties still to visit. *)
Fixpoint diffKeys (originalData modifiedData entries removed : list (string * json))
  : list (string * json) :=
  match entries with
  | [] => removed
  | (key, _) :: rest =>
    if negb (hasProperty key modifiedData)
    then diffKeys originalData modifiedData rest
                  (match get key originalData with
                   | Some original => assign key original removed
                   | None => removed
                   end)
    else diffKeys originalData modifiedData rest removed
  end.

Definition diffManifestData (originalData modifiedData : list (string * json)) : Diff :=
  let '(added, modified) := diffEntries originalData modifiedData [] [] in
  mkDiff added modified (diffKeys originalData modifiedData originalData []).

End Diff.

(** *** Backups *)

(** [timestamp.replace(/[:.]/g, '-')] *)
Fixpoint dashed (s : string) : string :=
  match s with
  | EmptyString => EmptyString
  | String c s' =>
    String (if Ascii.eqb c ":" || Ascii.eqb c "." then "-"%char else c) (dashed s')
  end.

(** The files of the disk: the content at each path. *)
Abbreviation Disk := (gmap string string).

(** [fs.copy(source, destination)] between files. *)
Definition fs_copy (source destination : string) (disk : Disk) : outcome Disk :=
  match disk !! source with
  | Some content => Returns (<[destination := content]> disk)
  | None => Throws (mkError (Some "ENOENT")
                            ("ENOENT: no such file or directory, stat '" ++ source ++ "'"))
  end.

(** [backupManifestFile(filePath)]; [now] is [new Date().toISOString()]. *)
Definition backupManifestFile (now filePath : string) (disk : Disk)
  : outcome (string * Disk) :=
  let backupPath := filePath ++ ".backup." ++ dashed now in
  try_catch
    (let! disk' := fs_copy filePath backupPath disk in Returns (backupPath, disk'))
    (fun error =>
       Throws (Error ("Failed to backup file " ++ filePath ++ ": " ++ message error))).

(** [restoreManifestFile(backupPath, originalPath)] *)
Definition restoreManifestFile (backupPath originalPath : string) (disk : Disk)
  : outcome Disk :=
  try_catch
    (fs_copy backupPath originalPath disk)
    (fun error =>
       Throws (Error ("Failed to restore file from " ++ backupPath ++ ": "
                      ++ message error))).

End ManifestDiff.

(* ===================================================================== *)
(** ** The error handlers: schema compatibility and sanitizing *)

Module Sanitizing.
Import Js FileHelpers.

(** [list.includes(field)] *)
Definition includesField (fields : list string) (field : string) : bool :=
  existsb (String.eqb field) fields.

Record Compatibility : Type := mkCompatibility {
  compatible : bool; breakingChanges : list string; migrationRequired : bool }.

(** [validateSchemaCompatibility]; the arguments are the [required] lists of
    the two schemas, [[]] when a schema has none. *)
Definition validateSchemaCompatibility (oldRequired newRequired : list string)
  : Compatibility :=
  let addedFields :=
    map (fun field => "Added required field: " ++ field)
        (List.filter (fun field => negb (includesField oldRequired field)) newRequired) in
  let removedFields :=
    map (fun field => "Removed required field: " ++ field)
        (List.filter (fun field => negb (includesField newRequired field)) oldRequired) in
  let breakingChanges := (addedFields ++ removedFields)%list in
  mkCompatibility (Nat.eqb (List.length breakingChanges) 0) breakingChanges
                  (Nat.ltb 0 (List.length breakingChanges)).

(** *** [sanitizeString] *)

Definition isWordChar (c : ascii) : bool :=
  let n := nat_of_ascii c in
  ((48 <=? n) && (n <=? 57) || (65 <=? n) && (n <=? 90)
   || (97 <=? n) && (n <=? 122) || (n =? 95))%nat.

(** The index of the first place where [pattern] occurs in [s], letter case
    ignored. *)
Fixpoint indexOfNoCase (pattern s : string) : option nat :=
  if String.prefix pattern (toLowerCase s) then Some 0%nat
  else match s with
       | EmptyString => None
       | String _ s' => option_map S (indexOfNoCase pattern s')
       end.

(** [s] starts with [<script] followed by a word boundary. *)
Definition opensScript (s : string) : bool :=
  String.prefix "<script" (toLowerCase s)
  && match String.get 7 s with
     | Some c => negb (isWordChar c)
     | None => true
     end.

(** The length of the match of the script pattern at the start of [s]: the
    opening, then text whose [<] do not begin a closing [</script>], then
    the closing; so through the first [</script>] after the opening. *)
Definition scriptMatch (s : string) : option nat :=
  if opensScript s then
    option_map (fun i => (7 + i + 9)%nat)
               (indexOfNoCase "</script>" (String.substring 7 (String.length s - 7) s))
  else None.

(** The replace of every match of the script pattern by the empty string;
    [skip] is the number of
    characters of the current match still to be dropped. *)
Fixpoint stripScripts_from (skip : nat) (s : string) : string :=
  match s with
  | EmptyString => EmptyString
  | String c rest =>
    match skip with
    | S n => stripScripts_from n rest
    | O =>
      match scriptMatch s with
      | Some len => stripScripts_from (len - 1) rest
      | None => String c (stripScripts_from 0 rest)
      end
    end
  end.

(** The index of the first [>] of [s]. *)
Fixpoint indexOfGt (s : string) : option nat :=
  match s with
  | EmptyString => None
  | String c s' => if Ascii.eqb c ">" then Some 0%nat else option_map S (indexOfGt s')
  end.

(** [s.replace(/<[^>]*>/g, '')] *)
Fixpoint stripTags_from (skip : nat) (s : string) : string :=
  match s with
  | EmptyString => EmptyString
  | String c rest =>
    match skip with
    | S n => stripTags_from n rest
    | O =>
      if Ascii.eqb c "<" then
        match indexOfGt rest with
        | Some i => stripTags_from (S i) rest
        | None => String c (stripTags_from 0 rest)
        end
      else String c (stripTags_from 0 rest)
    end
  end.

(** [s.trimEnd()] on ASCII white space *)
Fixpoint trimEnd (s : string) : string :=
  match s with
  | EmptyString => EmptyString
  | String c rest =>
    match trimEnd rest with
    | EmptyString => if TestSession.isWhiteSpace c then EmptyString
                     else String c EmptyString
    | kept => String c kept
    end
  end.

(** [s.trim()] *)
Definition trim (s : string) : string := trimEnd (TestSession.trimStart s).

Definition sanitizeString (str : string) : string :=
  trim (stripTags_from 0 (stripScripts_from 0 str)).

(** A [>] occurs in [s]. *)
Definition containsGt (s : string) : bool :=
  match indexOfGt s with Some _ => true | None => false end.

(** A [<] occurs in [s] with a [>] somewhere after it: the text holds a
    tag. *)
Fixpoint holdsTag (s : string) : bool :=
  match s with
  | EmptyString => false
  | String c rest => (Ascii.eqb c "<" && containsGt rest) || holdsTag rest
  end.

(** *** [sanitizeManifestData] *)

Record Sanitized : Type := mkSanitized {
  sanitized : list (string * json);
  removedFields : list string;
  sanitizedCount : Z;
  removedCount : Z }.

(** The value kept for an allowed property. *)
Definition cleaned (value : json) : json :=
  match value with
  | JStr s => JStr (sanitizeString s)
  | _ => value
  end.

(** The loop over [Object.entries(data)]. *)
Fixpoint sanitizeEntries (allowedProperties : list string)
         (entries : list (string * json))
         (sanitized : list (string * json)) (removedFields : list string)
  : list (string * json) * list string :=
  match entries with
  | [] => (sanitized, removedFields)
  | (key, value) :: rest =>
    if includesField allowedProperties key
    then sanitizeEntries allowedProperties rest
                         (JsObject.assign key (cleaned value) sanitized) removedFields
    else sanitizeEntries allowedProperties rest sanitized (removedFields ++ [key])%list
  end.

(** [sanitizeManifestData(data, schema)]; [properties] is the list of the
    keys of [schema.properties], [None] when the schema has none. *)
Definition sanitizeManifestData (data : list (string * json))
           (properties : option (list string)) : Sanitized :=
  let allowedProperties := default [] properties in
  let '(sanitized, removedFields) := sanitizeEntries allowedProperties data [] [] in
  mkSanitized sanitized removedFields
              (Z.of_nat (List.length sanitized)) (Z.of_nat (List.length removedFields)).

End Sanitizing.



(* ===================================================================== *)
(** ** The models *)

(** *** [BaseModel]: the data object and the required fields *)

Module BaseModel.
Import Js FileHelpers JsObject.

(** [has(key)]: [key in this.data] *)
Definition has (key : string) (data : list (string * json)) : bool :=
  hasProperty key data.

(** [set(key, value)]: [this.data[key] = value] *)
Definition set (key : string) (value : json) (data : list (string * json))
  : list (string * json) :=
  assign key value data.

(** [update(updates)]: [Object.assign(this.data, updates)] *)
Definition update (updates data : list (string * json)) : list (string * json) :=
  fold_left (fun data entry => assign (fst entry) (snd entry) data) updates data.

(** [required] is [schema.required]; [None] when the model has no schema or
    the schema no [required]. *)
Definition hasRequiredFields (required : option (list string))
           (data : list (string * json)) : bool :=
  match required with
  | None => true
  | Some fields => forallb (fun field => has field data) fields
  end.

Definition getMissingRequiredFields (required : option (list string))
           (data : list (string * json)) : list string :=
  match required with
  | None => []
  | Some fields => List.filter (fun field => negb (has field data)) fields
  end.

(** [!!v] on what a getter returns; [None] is [undefined]. *)
Definition truthyProperty (v : option json) : bool :=
  match v with
  | Some value => truthyValue value
  | None => false
  end.

(** [array.indexOf(x)]; [None] is [-1]. *)
Fixpoint indexOf (x : string) (items : list string) : option nat :=
  match items with
  | [] => None
  | y :: rest => if String.eqb y x then Some 0%nat else option_map S (indexOf x rest)
  end.

(** [array.splice(index, 1)] for an index within the array. *)
Fixpoint splice {A : Type} (index : nat) (items : list A) : list A :=
  match items, index with
  | [], _ => []
  | _ :: rest, O => rest
  | y :: rest, S i => y :: splice i rest
  end.

(** The array without the first occurrence of [x]. *)
Fixpoint removeFirst (x : string) (items : list string) : list string :=
  match items with
  | [] => []
  | y :: rest => if String.eqb y x then rest else y :: removeFirst x rest
  end.

End BaseModel.

(** *** [TestCharter] *)

Module TestCharter.
Import Js FileHelpers BaseModel.

(** The properties of [this.data] the methods below read; [timebox] is a
    number, [null] or missing, [documentReferences] an array of strings or
    missing. *)
Record t : Type := mkCharter {
  tester : option json;
  timebox : TestReport.value;
  scope : option json;
  mission : option json;
  documentReferences : option (list string) }.

Definition getTester (c : t) : option json := tester c.
Definition getTimebox (c : t) : TestReport.value := timebox c.
Definition getScope (c : t) : option json := scope c.
Definition getMission (c : t) : option json := mission c.

(** [this.get('documentReferences') || []] *)
Definition getDocumentReferences (c : t) : list string :=
  default [] (documentReferences c).

Definition setDocumentReferences (references : list string) (c : t) : t :=
  mkCharter (tester c) (timebox c) (scope c) (mission c) (Some references).

Definition addDocumentReference (url : string) (c : t) : t :=
  let references := getDocumentReferences c in
  if negb (Sanitizing.includesField references url)
  then setDocumentReferences (references ++ [url])%list c
  else c.

Definition removeDocumentReference (url : string) (c : t) : t :=
  let references := getDocumentReferences c in
  match indexOf url references with
  | Some index => setDocumentReferences (splice index references) c
  | None => c
  end.

(** [getTimebox() !== null && getTimebox() > 0] *)
Definition hasTimebox (c : t) : bool :=
  match getTimebox c with
  | TestReport.VNumber x => PrimFloat.ltb 0%float x
  | TestReport.VUndefined | TestReport.VNull => false
  end.

Definition hasTester (c : t) : bool := truthyProperty (getTester c).
Definition hasScope (c : t) : bool := truthyProperty (getScope c).

(** [hasTester() && hasTimebox() && hasScope() && getMission()]: the first
    falsy operand, or the last one. *)
Definition isReadyForExecution (c : t) : option json :=
  if negb (hasTester c) then Some (JBool false)
  else if negb (hasTimebox c) then Some (JBool false)
  else if negb (hasScope c) then Some (JBool false)
  else getMission c.

Definition getMissingExecutionElements (c : t) : list string :=
  ((if negb (hasTester c) then ["tester"] else [])
   ++ (if negb (hasTimebox c) then ["timebox"] else [])
   ++ (if negb (hasScope c) then ["scope"] else [])
   ++ (if negb (truthyProperty (getMission c)) then ["mission"] else []))%list.

End TestCharter.

(** *** [TestReport]: findings and completion *)

Module TestReportFindings.
Import Js FileHelpers BaseModel.

(** A finding, with the two properties the counts read: each one a string,
    or missing. *)
Record Finding : Type := mkFinding {
  severity : option string; status : option string }.

Record t : Type := mkReport {
  author : option json;
  date : option json;
  title : option json;
  summary : option json;
  findings : option (list Finding) }.

(** [this.get('findings') || []] *)
Definition getFindings (r : t) : list Finding := default [] (findings r).

Definition setFindings (items : list Finding) (r : t) : t :=
  mkReport (author r) (date r) (title r) (summary r) (Some items).

Definition addFinding (finding : Finding) (r : t) : t :=
  setFindings (getFindings r ++ [finding])%list r.

Definition removeFinding (index : Z) (r : t) : t :=
  let items := getFindings r in
  if (0 <=? index) && (index <? Z.of_nat (List.length items))
  then setFindings (splice (Z.to_nat index) items) r
  else r.

(** [finding.severity === severity] *)
Definition sameAs (expected : string) (actual : option string) : bool :=
  match actual with
  | Some s => String.eqb s expected
  | None => false
  end.

Definition getFindingsBySeverity (level : string) (r : t) : list Finding :=
  List.filter (fun finding => sameAs level (severity finding)) (getFindings r).

Definition getFindingsByStatus (state : string) (r : t) : list Finding :=
  List.filter (fun finding => sameAs state (status finding)) (getFindings r).

Definition getTotalFindingsCount (r : t) : Z := Z.of_nat (List.length (getFindings r)).

(** A [counts] object of four counters, by name. *)
Definition Counts : Type := list (string * Z).

(** [counts.hasOwnProperty(name)]; a missing property asks for the name
    [undefined], which no counter has. *)
Definition hasOwnProperty (name : option string) (counts : Counts) : bool :=
  match name with
  | Some s => existsb (fun entry => String.eqb (fst entry) s) counts
  | None => false
  end.

(** [counts[name]++] on a counter the object has. *)
Fixpoint increment (name : string) (counts : Counts) : Counts :=
  match counts with
  | [] => []
  | (key, n) :: rest =>
    if String.eqb key name then (key, n + 1) :: rest
    else (key, n) :: increment name rest
  end.

Definition countInto (read : Finding -> option string) (counts : Counts)
           (items : list Finding) : Counts :=
  fold_left (fun counts finding =>
               if hasOwnProperty (read finding) counts
               then increment (default "" (read finding)) counts
               else counts)
            items counts.

Definition getFindingsCountBySeverity (r : t) : Counts :=
  countInto severity [("low", 0); ("medium", 0); ("high", 0); ("critical", 0)]
            (getFindings r).

Definition getFindingsCountByStatus (r : t) : Counts :=
  countInto status [("open", 0); ("closed", 0); ("reopened", 0); ("deferred", 0)]
            (getFindings r).

(** [counts[name]] *)
Fixpoint counter (name : string) (counts : Counts) : option Z :=
  match counts with
  | [] => None
  | (key, n) :: rest => if String.eqb key name then Some n else counter name rest
  end.

Definition hasAuthor (r : t) : bool := truthyProperty (author r).
Definition hasDate (r : t) : bool := truthyProperty (date r).
Definition getTitle (r : t) : option json := title r.
Definition getSummary (r : t) : option json := summary r.

(** [hasAuthor() && hasDate() && getTitle() && getSummary()] *)
Definition isComplete (r : t) : option json :=
  if negb (hasAuthor r) then Some (JBool false)
  else if negb (hasDate r) then Some (JBool false)
  else if negb (truthyProperty (getTitle r)) then getTitle r
  else getSummary r.

Definition getMissingCompletionElements (r : t) : list string :=
  ((if negb (hasAuthor r) then ["author"] else [])
   ++ (if negb (hasDate r) then ["date"] else [])
   ++ (if negb (truthyProperty (getTitle r)) then ["title"] else [])
   ++ (if negb (truthyProperty (getSummary r)) then ["summary"] else []))%list.

End TestReportFindings.

(** *** [TestSession]: the stored duration *)

Module TestSessionDuration.
Import Js.

(** [this.data.duration]: missing, or what [setDuration] stored. *)
Inductive stored : Type :=
| Missing
| Stored (d : TestSession.duration).

Record t : Type := mkSession { times : TestSession.t; duration : stored }.

Definition getDuration (s : t) : stored := duration s.

Definition setDuration (d : TestSession.duration) (s : t) : t :=
  mkSession (times s) (Stored d).

(** [calculatedDuration !== null] *)
Definition notNull (d : TestSession.duration) : bool :=
  match d with TestSession.Null => false | _ => true end.

Definition autoCalculateDuration (today : Z) (s : t) : t :=
  let calculatedDuration := TestSession.calculateDurationFromTimes today (times s) in
  if notNull calculatedDuration then setDuration calculatedDuration s else s.

(** [getDuration() !== null && getDuration() > 0] *)
Definition hasDuration (s : t) : bool :=
  match getDuration s with
  | Stored (TestSession.Minutes n) => 0 <? n
  | _ => false
  end.

End TestSessionDuration.

(* ===================================================================== *)
(** ** YAML support: dangerous tags *)

Module YamlSecurity.
Import Js.

Definition dangerousTags : list string :=
  ["python/object/apply"; "python/object"; "python/name"; "python/module";
   "python/function"; "python/args"; "python/state"].

(** The class [\s] on ASCII text. *)
Definition isSpace (c : ascii) : bool := TestSession.isWhiteSpace c.

(** [s.replace(new RegExp(`!!${tag}[^\\s]*`, 'g'), '')]: a match starts
    where [!!tag] does and runs to the next white space; [inside] tells
    that the text read lies in a match. *)
Fixpoint removeTagged (tag : string) (inside : bool) (s : string) : string :=
  match s with
  | EmptyString => EmptyString
  | String c rest =>
    if inside then
      if isSpace c then String c (removeTagged tag false rest)
      else removeTagged tag true rest
    else if String.prefix ("!!" ++ tag) s then removeTagged tag true rest
         else String c (removeTagged tag false rest)
  end.

(** The loop of [sanitizeYamlContent] over the tags still to visit. *)
Fixpoint sanitizeTags (content : string) (tags : list string)
         (sanitized : string) (removedTags : list string) : string * list string :=
  match tags with
  | [] => (sanitized, removedTags)
  | tag :: rest =>
    if includes content tag
    then sanitizeTags content rest (removeTagged tag false sanitized)
                      (removedTags ++ [tag])%list
    else sanitizeTags content rest sanitized removedTags
  end.

Record Sanitization : Type := mkSanitization {
  sanitized : string; removedTags : list string }.

Definition sanitizeYamlContent (content : string) : Sanitization :=
  let '(sanitized, removedTags) := sanitizeTags content dangerousTags content [] in
  mkSanitization sanitized removedTags.

Record Security : Type := mkSecurity { isSafe : bool; unsafeTags : list string }.

Definition validateYamlSecurity (content : string) : Security :=
  let unsafeTags := List.filter (includes content) dangerousTags in
  mkSecurity (Nat.eqb (List.length unsafeTags) 0) unsafeTags.

(** No character of [s] is white space. *)
Fixpoint noSpace (s : string) : bool :=
  match s with
  | EmptyString => true
  | String c rest => negb (isSpace c) && noSpace rest
  end.

End YamlSecurity.

(* ===================================================================== *)
(** ** Directory trees under the recursive walks *)

Module ManifestTree.
Import Js ManifestWalk.

(** What a directory holds: files, directories with their own content, and
    entries that are neither. *)
Inductive Tree : Type :=
| TFile (entry : string)
| TDir (entry : string) (children : list Tree)
| TOther (entry : string).

Definition dirent (t : Tree) : Dirent :=
  match t with
  | TFile entry => mkDirent entry true false
  | TDir entry _ => mkDirent entry false true
  | TOther entry => mkDirent entry false false
  end.

(** The number of directory levels of a tree. *)
Fixpoint levels (t : Tree) : nat :=
  match t with
  | TDir _ children =>
    S (fold_right (fun child deepest => Nat.max (levels child) deepest) 0%nat children)
  | _ => 0%nat
  end.

Section Tree.
Variable fs_readdir : string -> outcome (list Dirent).
Variable path_join : string -> string -> string.

(** The disk holds the tree [t] at [directoryPath]: reading a directory of
    the tree gives its children, in order. *)
Fixpoint laidOut (directoryPath : string) (t : Tree) : Prop :=
  match t with
  | TDir _ children =>
    fs_readdir directoryPath = Returns (map dirent children)
    /\ fold_right
         (fun child others =>
            match child with
            | TDir entry _ => laidOut (path_join directoryPath entry) child
            | _ => True
            end /\ others)
         True children
  | _ => True
  end.

(** The manifest files of the tree, each directory in the order of its
    entries, a sub-directory's files at the place of the sub-directory. *)
Fixpoint manifestsIn (directoryPath : string) (t : Tree) : list string :=
  match t with
  | TDir _ children =>
    flat_map
      (fun child =>
         match child with
         | TFile entry =>
           if isManifestFile (path_join directoryPath entry)
           then [path_join directoryPath entry] else []
         | TDir entry _ => manifestsIn (path_join directoryPath entry) child
         | TOther _ => []
         end)
      children
  | _ => []
  end.

End Tree.

(** /r/a/x.txt, /r/a/b/deep.json, /r/a/b/c/deeper.yml *)
Definition nested : Tree :=
  TDir "r" [TDir "a" [TFile "x.txt";
                      TDir "b" [TFile "deep.json"; TDir "c" [TFile "deeper.yml"]]]].

Definition nested_readdir (p : string) : outcome (list Dirent) :=
  if String.eqb p "/r" then Returns [mkDirent "a" false true]
  else if String.eqb p "/r/a"
       then Returns [mkDirent "x.txt" true false; mkDirent "b" false true]
  else if String.eqb p "/r/a/b"
       then Returns [mkDirent "deep.json" true false; mkDirent "c" false true]
  else if String.eqb p "/r/a/b/c" then Returns [mkDirent "deeper.yml" true false]
  else Throws (mkError (Some "ENOENT") "ENOENT: no such file or directory").

End ManifestTree.

(* ===================================================================== *)
(** ** The error handlers: the context of a parse error *)

Module ErrorContext.
Import Js.

(** [str.substring(n)] *)
Definition dropChars (n : nat) (s : string) : string :=
  String.substring n (String.length s - n) s.

(** [extractLineNumber]: the first place of the message where [line ] is
    followed by a digit, and the integer its digits spell; [None] is
    [null]. *)
Fixpoint extractLineNumber (errorMessage : string) : option Z :=
  match errorMessage with
  | EmptyString => None
  | String _ rest =>
    if String.prefix "line " errorMessage then
      match TestSession.parseDigits (dropChars 5 errorMessage) None with
      | Some lineNumber => Some lineNumber
      | None => extractLineNumber rest
      end
    else extractLineNumber rest
  end.

(** [array.slice(start, stop)] for [0 <= start] *)
Definition sliceLines (items : list string) (start stop : Z) : list string :=
  firstn (Z.to_nat (stop - start)) (skipn (Z.to_nat start) items).

Record Context : Type := mkContext {
  line : string; lineNumber : Z; surroundingLines : list string }.

(** [content.split('\n')] *)
Definition linesOf (content : string) : list string :=
  TestSession.split "010"%char content.

(** [getErrorContext(content, errorMessage)]; [None] is [null]. *)
Definition getErrorContext (content errorMessage : string) : option Context :=
  let lines := linesOf content in
  match extractLineNumber errorMessage with
  | Some lineNumber =>
    if negb (lineNumber =? 0) && (lineNumber <=? Z.of_nat (List.length lines))
    then Some (mkContext (nth (Z.to_nat (lineNumber - 1)) lines EmptyString)
                         lineNumber
                         (sliceLines lines (Z.max 0 (lineNumber - 3)) (lineNumber + 2)))
    else None
  | None => None
  end.

End ErrorContext.

(* ===================================================================== *)
(** * Properties *)

(** ** Manifest Service *)

Section ManifestServiceFacts.
Import Js ManifestService.

Variable Data : Type.
Variable Schema : Type.
Variable fs_readFile : string -> outcome string.
Variable JSON_parse : string -> outcome Data.
Variable yaml_load : string -> outcome Data.
Variable schemas : gmap string Schema.
Variable ajv_compile : Schema -> outcome (Data -> outcome verdict).

#[local] Abbreviation readManifestFile :=
  (readManifestFile Data fs_readFile JSON_parse yaml_load).
#[local] Abbreviation validateManifest :=
  (validateManifest Data Schema fs_readFile JSON_parse yaml_load schemas ajv_compile).
#[local] Abbreviation processManifestFiles_from :=
  (processManifestFiles_from Data Schema fs_readFile JSON_parse yaml_load schemas
                             ajv_compile).
#[local] Abbreviation processManifestFiles :=
  (processManifestFiles Data Schema fs_readFile JSON_parse yaml_load schemas
                        ajv_compile).

(** The handler of [validateManifest] returns, so the call does. *)
Lemma validateManifest_returns (filePath schemaType : string) :
  exists env, validateManifest filePath schemaType = Returns env.
Proof.
  unfold ManifestService.validateManifest.
  destruct (readManifestFile filePath) as [d|e]; cbn; [|eauto].
  destruct (schemas !! schemaType) as [schema|]; cbn; [|eauto].
  destruct (ajv_compile schema) as [validate|e]; cbn; [|eauto].
  destruct (validate d) as [[|errs]|e]; cbn; eauto.
Qed.

(** The [if / else if] chain is the first-match search over the priority
    table. *)
Lemma inferSchemaType_first_match (filename : string) :
  inferSchemaType filename = first_match filename.
Proof.
  unfold inferSchemaType, first_match, priority; cbn [find fst snd].
  repeat (destruct (includes filename _); [reflexivity|]).
  reflexivity.
Qed.

Lemma processManifestFiles_from_spec (filePaths : list string) :
  forall results,
  exists added,
    processManifestFiles_from results filePaths = Returns (results ++ added)%list
    /\ Forall2 (fun fp env =>
                  validateManifest fp (first_match (manifestFilename fp)) = Returns env)
               filePaths added.
Proof.
  induction filePaths as [|fp rest IH]; intros results.
  - exists []. split; [cbn; now rewrite app_nil_r | constructor].
  - cbn [ManifestService.processManifestFiles_from].
    destruct (validateManifest_returns fp (schemaTypeOf fp)) as [env Henv].
    rewrite Henv. cbn [bind try_catch].
    destruct (IH (results ++ [env])%list) as [added [Hrun Hall]].
    exists (env :: added). split.
    + rewrite Hrun. now rewrite <- app_assoc.
    + constructor; [|exact Hall].
      unfold schemaTypeOf in Henv.
      now rewrite inferSchemaType_first_match in Henv.
Qed.

(** C1 (as amended).  For every list of file paths, [processManifestFiles]
    returns, in input order, the envelope of validating each file against
    the schema type found by the first-match substring search over
    strategy, plan, charter, session, report, suite, case, status on the
    file's basename, [project] when nothing matches.  For project1.json,
    strategy1.yaml, charter-final.yml and status-report.json the inferred
    types are project, test-strategy, test-charter and test-report:
    "report" precedes "status" in the search. *)
Theorem processManifestFiles_infers_by_priority (filePaths : list string) :
  (exists results,
      processManifestFiles filePaths = Returns results
      /\ Forall2 (fun fp env =>
                    validateManifest fp (first_match (manifestFilename fp))
                    = Returns env)
                 filePaths results)
  /\ map schemaTypeOf
        ["project1.json"; "strategy1.yaml"; "charter-final.yml"; "status-report.json"]
     = ["project"; "test-strategy"; "test-charter"; "test-report"].
Proof.
  split; [|reflexivity].
  destruct (processManifestFiles_from_spec filePaths []) as [added [Hrun Hall]].
  exists added. split; [exact Hrun | exact Hall].
Qed.

(** C3.  For every file path and schema type, [validateManifest] returns
    an envelope and never throws; the envelope carries the triggering
    [filePath]; a failure of the read or parse is reported as
    [{ isValid: false, data: null, errors: [message], filePath }], an
    unknown schema type likewise with the "Unknown schema type" message;
    and [data] holds the parsed payload only when the validation
    succeeded. *)
Theorem validateManifest_never_throws (filePath schemaType : string) :
  exists env,
    validateManifest filePath schemaType = Returns env
    /\ ManifestService.filePath env = filePath
    /\ match readManifestFile filePath with
       | Throws e => env = mkEnvelope false None [message e] filePath
       | Returns d =>
         match schemas !! schemaType with
         | None =>
           env = mkEnvelope false None
                            ["Unknown schema type: " ++ schemaType] filePath
         | Some _ =>
           (isValid env = true /\ data env = Some d /\ errors env = [])
           \/ (isValid env = false /\ data env = None)
         end
       end.
Proof.
  unfold ManifestService.validateManifest.
  destruct (readManifestFile filePath) as [d|e]; cbn; [|eauto].
  destruct (schemas !! schemaType) as [schema|]; cbn; [|eauto].
  destruct (ajv_compile schema) as [validate|e]; cbn;
    [|eexists; repeat split; right; split; reflexivity].
  destruct (validate d) as [[|errs]|e]; cbn; eexists; repeat split;
    solve [left; repeat split | right; split; reflexivity].
Qed.

End ManifestServiceFacts.

(** C1, as stated: the inferred type of status-report.json is not
    test-status-report. *)
Lemma status_report_is_not_inferred_as_status :
  map ManifestService.schemaTypeOf
      ["project1.json"; "strategy1.yaml"; "charter-final.yml"; "status-report.json"]
  <> ["project"; "test-strategy"; "test-charter"; "test-status-report"].
Proof. vm_compute. discriminate. Qed.

(** ** File System Service *)

Section FileSystemFacts.
Import Js FileSystemService.

Variable fs_readdir : string -> outcome (list string).
Variable fs_stat : string -> outcome Stats.
Variable path_join : string -> string -> string.

#[local] Abbreviation scan_entries := (scan_entries fs_stat path_join).
#[local] Abbreviation scanDirectory_fuel :=
  (scanDirectory_fuel fs_readdir fs_stat path_join).
#[local] Abbreviation scanDirectory := (scanDirectory fs_readdir fs_stat path_join).

(** The loop finishes whenever the recursive calls it makes do. *)
Lemma scan_entries_total (scan : string -> ScanOptions -> option ScanResult)
      (directoryPath : string) (options : ScanOptions) :
  (recursive options && (currentDepth options <? maxDepth options) = true ->
   forall p, exists r, scan p (deeper options) = Some r) ->
  forall entries st, exists out,
      scan_entries scan directoryPath options entries st = Some out.
Proof.
  intros Hscan entries.
  induction entries as [|entry rest IH]; intros st; cbn [FileSystemService.scan_entries].
  - eauto.
  - destruct (fs_stat (path_join directoryPath entry)) as [stats|e]; [|eauto].
    destruct (st_kind stats).
    + destruct (recursive options && (currentDepth options <? maxDepth options))
        eqn:Hrec; [|apply IH].
      destruct (Hscan eq_refl (path_join directoryPath entry)) as [r Hr].
      rewrite Hr. apply IH.
    + destruct (existsb _ _); apply IH.
    + apply IH.
Qed.

(** Every invocation returns once the fuel exceeds the depth still allowed. *)
Lemma scanDirectory_fuel_total (fuel : nat) :
  forall directoryPath options,
    (Z.to_nat (maxDepth options - currentDepth options) < fuel)%nat ->
    exists r, scanDirectory_fuel fuel directoryPath options = Some r.
Proof.
  induction fuel as [|fuel IH]; intros directoryPath options Hfuel; [lia|].
  cbn [FileSystemService.scanDirectory_fuel].
  destruct (maxDepth options <=? currentDepth options) eqn:Hceil; [eauto|].
  destruct (fs_readdir directoryPath) as [entries|e]; [|eauto].
  destruct (scan_entries_total (scanDirectory_fuel fuel) directoryPath options)
    with (entries := entries) (st := mkLocals [] [] [] 0 false) as [out Hout].
  - intros _ p. apply IH. cbn. apply Z.leb_gt in Hceil. lia.
  - rewrite Hout. destruct out; eauto.
Qed.

(** More fuel never changes an answer. *)
Lemma scan_entries_mono (scan1 scan2 : string -> ScanOptions -> option ScanResult)
      (directoryPath : string) (options : ScanOptions) :
  (forall p o r, scan1 p o = Some r -> scan2 p o = Some r) ->
  forall entries st out,
    scan_entries scan1 directoryPath options entries st = Some out ->
    scan_entries scan2 directoryPath options entries st = Some out.
Proof.
  intros Hscan entries.
  induction entries as [|entry rest IH]; intros st out;
    cbn [FileSystemService.scan_entries]; [auto|].
  destruct (fs_stat (path_join directoryPath entry)) as [stats|e]; [|auto].
  destruct (st_kind stats).
  - destruct (recursive options && (currentDepth options <? maxDepth options));
      [|apply IH].
    destruct (scan1 (path_join directoryPath entry) (deeper options)) as [r|] eqn:Hr;
      [|discriminate].
    rewrite (Hscan _ _ _ Hr). apply IH.
  - destruct (existsb _ _); apply IH.
  - apply IH.
Qed.

Lemma scanDirectory_fuel_mono (fuel : nat) :
  forall fuel' directoryPath options r,
    (fuel <= fuel')%nat ->
    scanDirectory_fuel fuel directoryPath options = Some r ->
    scanDirectory_fuel fuel' directoryPath options = Some r.
Proof.
  induction fuel as [|fuel IH]; intros fuel' directoryPath options r Hle;
    [discriminate|].
  destruct fuel' as [|fuel']; [lia|].
  cbn [FileSystemService.scanDirectory_fuel].
  destruct (maxDepth options <=? currentDepth options); [auto|].
  destruct (fs_readdir directoryPath) as [entries|e]; [|auto].
  destruct (scan_entries (scanDirectory_fuel fuel) directoryPath options entries _)
    as [out|] eqn:Hout; [|discriminate].
  rewrite (scan_entries_mono (scanDirectory_fuel fuel) (scanDirectory_fuel fuel')
             directoryPath options) with (out := out); [auto| |exact Hout].
  intros p o r'. apply IH. lia.
Qed.

(** The loop keeps the flag equal to the disjunction of the flags of the
    recorded sub-results. *)
Lemma scan_entries_flag (scan : string -> ScanOptions -> option ScanResult)
      (directoryPath : string) (options : ScanOptions) :
  forall entries st st',
    scan_entries scan directoryPath options entries st = Some (Returns st') ->
    l_maxDepthReached st = existsb maxDepthReached (l_subdirectories st) ->
    l_maxDepthReached st' = existsb maxDepthReached (l_subdirectories st').
Proof.
  intros entries.
  induction entries as [|entry rest IH]; intros st st';
    cbn [FileSystemService.scan_entries].
  - intros [= <-]. auto.
  - destruct (fs_stat (path_join directoryPath entry)) as [stats|e]; [|discriminate].
    destruct (st_kind stats).
    + destruct (recursive options && (currentDepth options <? maxDepth options)).
      * destruct (scan (path_join directoryPath entry) (deeper options)) as [r|];
          [|discriminate].
        intros Hrun Hinv. apply (IH _ _ Hrun).
        destruct (success r); cbn; [|exact Hinv].
        rewrite existsb_app, Hinv. cbn. now rewrite orb_false_r.
      * intros Hrun Hinv. apply (IH _ _ Hrun). exact Hinv.
    + destruct (existsb _ _); intros Hrun Hinv; apply (IH _ _ Hrun); exact Hinv.
    + intros Hrun Hinv. apply (IH _ _ Hrun). exact Hinv.
Qed.

(** Every recorded sub-result is the answer of a recursive call one level
    deeper. *)
Lemma scan_entries_subresults (scan : string -> ScanOptions -> option ScanResult)
      (directoryPath : string) (options : ScanOptions) :
  forall entries st st',
    scan_entries scan directoryPath options entries st = Some (Returns st') ->
    Forall (fun sub => exists p, scan p (deeper options) = Some sub)
           (l_subdirectories st) ->
    Forall (fun sub => exists p, scan p (deeper options) = Some sub)
           (l_subdirectories st').
Proof.
  intros entries.
  induction entries as [|entry rest IH]; intros st st';
    cbn [FileSystemService.scan_entries].
  - intros [= <-]. auto.
  - destruct (fs_stat (path_join directoryPath entry)) as [stats|e]; [|discriminate].
    destruct (st_kind stats).
    + destruct (recursive options && (currentDepth options <? maxDepth options)).
      * destruct (scan (path_join directoryPath entry) (deeper options)) as [r|] eqn:Hr;
          [|discriminate].
        intros Hrun Hinv. apply (IH _ _ Hrun).
        destruct (success r); cbn; [|exact Hinv].
        apply Forall_app. split; [exact Hinv|].
        constructor; [eauto|constructor].
      * intros Hrun Hinv. apply (IH _ _ Hrun). exact Hinv.
    + destruct (existsb _ _); intros Hrun Hinv; apply (IH _ _ Hrun); exact Hinv.
    + intros Hrun Hinv. apply (IH _ _ Hrun). exact Hinv.
Qed.

Lemma depthBudget_deeper (options : ScanOptions) :
  (maxDepth options <=? currentDepth options) = false ->
  depthBudget options = S (depthBudget (deeper options)).
Proof.
  intros Hceil. apply Z.leb_gt in Hceil. unfold depthBudget, deeper. cbn. lia.
Qed.


#[local] Abbreviation statEntries := (statEntries fs_stat path_join).
#[local] Abbreviation listing := (listing fs_readdir fs_stat path_join).
#[local] Abbreviation manifestPaths := (manifestPaths path_join).
#[local] Abbreviation subdirPaths := (subdirPaths path_join).
#[local] Abbreviation manifestFilesAt := (manifestFilesAt fs_readdir fs_stat path_join).

#[local] Abbreviation subdirsAt := (subdirsAt fs_readdir fs_stat path_join).

Lemma manifestPaths_cons (exts : list string) (directoryPath entry : string)
      (stats : Stats) (l : list (string * Stats)) :
  manifestPaths exts directoryPath ((entry, stats) :: l)
  = if isManifestEntry exts (entry, stats)
    then path_join directoryPath entry :: manifestPaths exts directoryPath l
    else manifestPaths exts directoryPath l.
Proof.
  unfold FileSystemService.manifestPaths. cbn [List.filter].
  now destruct (isManifestEntry exts (entry, stats)).
Qed.

Lemma subdirPaths_cons (directoryPath entry : string) (stats : Stats)
      (l : list (string * Stats)) :
  subdirPaths directoryPath ((entry, stats) :: l)
  = if isDirectoryEntry (entry, stats)
    then path_join directoryPath entry :: subdirPaths directoryPath l
    else subdirPaths directoryPath l.
Proof.
  unfold FileSystemService.subdirPaths. cbn [List.filter].
  now destruct (isDirectoryEntry (entry, stats)).
Qed.

Section Readings.
(** A reading [g] of the recorded sub-results that finds nothing in a failed
    one. *)
Variable X : Type.
Variable g : ScanResult -> list X.
Hypothesis g_failed : forall e, g (ScanFailed e) = [].

(** What one run of the loop adds, read off the listing of the directory:
    the manifest files of this level, and the reading of the answer of the
    recursive call on each subdirectory. *)
Lemma scan_entries_listing (scan : string -> ScanOptions -> option ScanResult)
      (directoryPath : string) (options : ScanOptions) :
  recursive options && (currentDepth options <? maxDepth options) = true ->
  forall entries st out,
    scan_entries scan directoryPath options entries st = Some out ->
    match statEntries directoryPath entries with
    | Throws e => out = Throws e
    | Returns l =>
      exists st',
        out = Returns st'
        /\ map f_path (l_files st')
           = (map f_path (l_files st)
              ++ manifestPaths (extensions options) directoryPath l)%list
        /\ flat_map g (l_subdirectories st')
           = (flat_map g (l_subdirectories st)
              ++ flat_map (fun d => match scan d (deeper options) with
                                    | Some r => g r
                                    | None => []
                                    end)
                          (subdirPaths directoryPath l))%list
    end.
Proof.
  intros Hrec entries.
  induction entries as [|entry rest IH]; intros st out;
    cbn [FileSystemService.scan_entries FileSystemService.statEntries].
  - intros [= <-]. exists st. cbn. now rewrite !app_nil_r.
  - destruct (fs_stat (path_join directoryPath entry)) as [stats|e] eqn:Hstat;
      cbn [bind]; [|now intros [= <-]].
    destruct (st_kind stats) eqn:Hkind.
    + rewrite Hrec.
      destruct (scan (path_join directoryPath entry) (deeper options)) as [r|] eqn:Hr;
        [|discriminate].
      intros Hrun. specialize (IH _ _ Hrun).
      destruct (statEntries directoryPath rest) as [l|e]; cbn [bind]; [|exact IH].
      destruct IH as [st' [-> [Hfiles Hsubs]]].
      exists st'. split; [reflexivity|].
      rewrite manifestPaths_cons, subdirPaths_cons.
      unfold isManifestEntry, isDirectoryEntry. cbn [fst snd]. rewrite Hkind.
      split.
      * rewrite Hfiles. now destruct (success r).
      * rewrite Hsubs. cbn [flat_map]. rewrite Hr.
        destruct (success r) eqn:Hok; cbn [l_subdirectories].
        -- rewrite flat_map_app. cbn [flat_map].
           now rewrite app_nil_r, <- app_assoc.
        -- destruct r as [| e]; [discriminate|]. now rewrite g_failed.
    + destruct (existsb _ (extensions options)) eqn:Hext; intros Hrun;
        specialize (IH _ _ Hrun);
        (destruct (statEntries directoryPath rest) as [l|e]; cbn [bind]; [|exact IH]);
        destruct IH as [st' [-> [Hfiles Hsubs]]];
        exists st'; (split; [reflexivity|]);
        rewrite manifestPaths_cons, subdirPaths_cons;
        unfold isManifestEntry, isDirectoryEntry; cbn [fst snd]; rewrite Hkind, ?Hext;
        (split; [|exact Hsubs]).
      * rewrite Hfiles. cbn [l_files]. rewrite map_app. cbn [map f_path].
        now rewrite <- app_assoc.
      * exact Hfiles.
    + intros Hrun. specialize (IH _ _ Hrun).
      destruct (statEntries directoryPath rest) as [l|e]; cbn [bind]; [|exact IH].
      rewrite manifestPaths_cons, subdirPaths_cons.
      unfold isManifestEntry, isDirectoryEntry. cbn [fst snd]. rewrite Hkind.
      exact IH.
Qed.

(** One level of a recursive scan below the ceiling, read off the listing. *)
Lemma scanDirectory_fuel_level (fuel : nat) (directoryPath : string)
      (options : ScanOptions) :
  recursive options = true ->
  currentDepth options < maxDepth options ->
  (Z.to_nat (maxDepth options - currentDepth options) < S fuel)%nat ->
  exists r,
    scanDirectory_fuel (S fuel) directoryPath options = Some r
    /\ match listing directoryPath with
       | Throws e => r = ScanFailed (handleFileSystemError e)
       | Returns l =>
         success r = true
         /\ map f_path (files r) = manifestPaths (extensions options) directoryPath l
         /\ flat_map g (subdirectories r)
            = flat_map (fun d => match scanDirectory_fuel fuel d (deeper options) with
                                 | Some sub => g sub
                                 | None => []
                                 end)
                       (subdirPaths directoryPath l)
       end.
Proof.
  intros Hrec Hdepth Hfuel.
  destruct (scanDirectory_fuel_total (S fuel) directoryPath options Hfuel) as [r Hr].
  exists r. split; [exact Hr|].
  cbn [FileSystemService.scanDirectory_fuel] in Hr.
  replace (maxDepth options <=? currentDepth options) with false in Hr
    by (symmetry; apply Z.leb_gt; lia).
  unfold FileSystemService.listing.
  destruct (fs_readdir directoryPath) as [entries|e]; cbn [bind];
    [|now injection Hr as <-].
  destruct (scan_entries _ directoryPath options entries _) as [out|] eqn:Hrun;
    [|discriminate].
  apply scan_entries_listing in Hrun;
    [|rewrite Hrec; cbn; apply Z.ltb_lt; lia].
  destruct (statEntries directoryPath entries) as [l|e].
  - destruct Hrun as [st' [-> [Hfiles Hsubs]]]. injection Hr as <-. cbn.
    repeat split; assumption.
  - subst out. now injection Hr as <-.
Qed.

End Readings.

Lemma topPaths_failed (e : FsFailure) : topPaths (ScanFailed e) = [].
Proof. reflexivity. Qed.

Lemma nestedPaths_failed (e : FsFailure) : nestedPaths (ScanFailed e) = [].
Proof. reflexivity. Qed.

Lemma recordedPaths_nested (subs : list ScanResult) :
  recordedPaths (flat_map subdirectories subs) = flat_map nestedPaths subs.
Proof.
  unfold nestedPaths, recordedPaths.
  induction subs as [|sub subs IH]; [reflexivity|].
  cbn [flat_map]. now rewrite flat_map_app, IH.
Qed.

(** What a recursive call below the ceiling records at its top for a
    directory: the manifest files directly inside it. *)
Lemma level_files (fuel : nat) (d : string) (options : ScanOptions) :
  recursive options = true ->
  currentDepth options < maxDepth options ->
  (Z.to_nat (maxDepth options - currentDepth options) < S fuel)%nat ->
  match scanDirectory_fuel (S fuel) d options with
  | Some sub => topPaths sub
  | None => []
  end = manifestFilesAt (extensions options) d.
Proof.
  intros Hrec Hdepth Hfuel.
  destruct (scanDirectory_fuel_level string topPaths topPaths_failed fuel d options)
    as [r [Hr Hshape]]; try assumption.
  rewrite Hr. unfold FileSystemService.manifestFilesAt.
  destruct (listing d) as [l|e].
  - now destruct Hshape as [_ [Hfiles _]].
  - now subst r.
Qed.

(** What it records one level further down: the manifest files directly
    inside each subdirectory of the directory. *)
Lemma level_nested (fuel : nat) (d : string) (options : ScanOptions) :
  recursive options = true ->
  currentDepth options + 1 < maxDepth options ->
  (Z.to_nat (maxDepth options - currentDepth options) < S (S fuel))%nat ->
  match scanDirectory_fuel (S (S fuel)) d options with
  | Some sub => nestedPaths sub
  | None => []
  end = flat_map (manifestFilesAt (extensions options)) (subdirsAt d).
Proof.
  intros Hrec Hdepth Hfuel.
  destruct (scanDirectory_fuel_level string topPaths topPaths_failed (S fuel) d options)
    as [r [Hr Hshape]]; try assumption; [lia|].
  rewrite Hr. unfold FileSystemService.subdirsAt.
  destruct (listing d) as [l|e].
  - destruct Hshape as [_ [_ Hsubs]]. unfold nestedPaths, recordedPaths.
    fold topPaths. rewrite Hsubs.
    apply flat_map_ext. intros d'.
    apply (level_files fuel d' (deeper options)); cbn; try assumption; lia.
  - now subst r.
Qed.

Variable Data : Type.
Variable fs_readFile : string -> outcome string.
Variable JSON_parse : string -> outcome Data.
Variable yaml_load : string -> outcome Data.
Variable isObject : Data -> bool.

#[local] Abbreviation discoverManifestFiles :=
  (discoverManifestFiles fs_readdir fs_stat path_join Data fs_readFile JSON_parse
                         yaml_load isObject).


End FileSystemFacts.


(** ** The scan cache *)

Section CacheFacts.
Import Js FileSystemService.

Variable fs_readdir : string -> outcome (list string).
Variable fs_stat : string -> outcome Stats.
Variable path_join : string -> string -> string.

#[local] Abbreviation optimizeDirectoryScanning :=
  (optimizeDirectoryScanning fs_readdir fs_stat path_join).

Lemma orZero_not_nan (x : float) : PrimFloat.is_nan (orZero x) = false.
Proof.
  unfold orZero, truthy.
  destruct (PrimFloat.is_nan x) eqn:Hnan, (PrimFloat.is_zero x) eqn:Hzero;
    cbn [orb negb]; try reflexivity.
  exact Hnan.
Qed.

(** C9.  [getCacheStats] reports as [hitRate] the quotient
    [hits / (hits + misses)] whenever that quotient is a non-zero number and
    [0] otherwise, so the rate is never [NaN] and is [0] when no lookup has
    occurred.  From the empty cache with zero counters, two calls of
    [optimizeDirectoryScanning] on the same path report [cached: false] and
    then [cached: true], after which [hits = 1], [misses = 1] and the hit
    rate is [0.5]. *)
Theorem getCacheStats_hitRate_guarded :
  (forall st,
      let quotient := PrimFloat.div (toNumber (hits st))
                                    (toNumber (hits st + misses st)) in
      hitRate (getCacheStats st) = (if truthy quotient then quotient else 0%float)
      /\ PrimFloat.is_nan (hitRate (getCacheStats st)) = false)
  /\ (forall st, hits st = 0 -> misses st = 0 ->
                 hitRate (getCacheStats st) = 0%float)
  /\ (forall directoryPath elapsed1 elapsed2,
         exists r1 st1 r2 st2,
           optimizeDirectoryScanning elapsed1 directoryPath emptyCache = Some (r1, st1)
           /\ cached r1 = false
           /\ optimizeDirectoryScanning elapsed2 directoryPath st1 = Some (r2, st2)
           /\ cached r2 = true
           /\ cs_hits (getCacheStats st2) = 1
           /\ cs_misses (getCacheStats st2) = 1
           /\ hitRate (getCacheStats st2) = 0.5%float).
Proof.
  split; [|split].
  - intros st. cbn zeta. split; [reflexivity|apply orZero_not_nan].
  - intros st Hh Hm. unfold getCacheStats. cbn [hitRate]. rewrite Hh, Hm.
    reflexivity.
  - intros directoryPath elapsed1 elapsed2.
    unfold FileSystemService.optimizeDirectoryScanning.
    cbn [directoryCache emptyCache hits misses cache_size].
    rewrite lookup_empty.
    destruct (scanDirectory_fuel_total fs_readdir fs_stat path_join
                (depthBudget (mkScanOptions true MANIFEST_EXTENSIONS 10 0))
                directoryPath (mkScanOptions true MANIFEST_EXTENSIONS 10 0))
      as [result Hresult]; [unfold depthBudget; lia|].
    unfold scanDirectory. rewrite Hresult.
    do 4 eexists. split; [reflexivity|]. split; [reflexivity|].
    cbn [directoryCache]. rewrite lookup_insert_eq.
    split; [reflexivity|]. repeat split.
Qed.

End CacheFacts.

(** ** Error handlers: retry with exponential backoff *)

Section RetryFacts.
Import Js ErrorHandlers.

Variable R : Type.
Variable St : Type.
Variable operation : St -> outcome R * St.

#[local] Abbreviation retry_from := (retry_from R St operation).
#[local] Abbreviation retryOperation := (retryOperation R St operation).
#[local] Abbreviation failsFor := (failsFor R St operation).
#[local] Abbreviation stateAfter := (stateAfter R St operation).
#[local] Abbreviation alwaysThrows := (alwaysThrows R St operation).

Lemma invocations_attemptsTrace (b attempt : Z) (n : nat) :
  invocations (attemptsTrace b attempt n) = S n.
Proof.
  revert attempt. induction n as [|n IH]; intros attempt; [reflexivity|].
  unfold invocations in *. cbn. now rewrite IH.
Qed.

Lemma delays_attemptsTrace (b : Z) (n : nat) :
  forall i, delays (attemptsTrace b (Z.of_nat i) n)
            = map (fun k => b * 2 ^ (Z.of_nat k - 1)) (seq i n).
Proof.
  induction n as [|n IH]; intros i; [reflexivity|].
  cbn. f_equal. replace (Z.of_nat i + 1) with (Z.of_nat (S i)) by lia. apply IH.
Qed.

Lemma delays_attemptsTrace_backoff (b : Z) (n : nat) :
  delays (attemptsTrace b 1 n) = backoff b (S n).
Proof.
  unfold backoff. replace (S n - 1)%nat with n by lia.
  apply (delays_attemptsTrace b n 1).
Qed.

(** One iteration of the loop. *)
Lemma retry_from_step (fuel : nat) (options : RetryOptions) (attempt : Z)
      (lastError : option JsError) (st : St) (trace : list event) :
  attempt <= maxRetries options ->
  retry_from (S fuel) options attempt lastError st trace
  = match operation st with
    | (Returns result, st') =>
      Some (Returns (RetrySuccess result attempt), st', (trace ++ [Invoked])%list)
    | (Throws error, st') =>
      if attempt =? maxRetries options then
        Some (exhausted R options (Some error), st', (trace ++ [Invoked])%list)
      else
        retry_from fuel options (attempt + 1) (Some error) st'
                   (trace ++ [Invoked; Slept (baseDelay options * 2 ^ (attempt - 1))])%list
    end.
Proof.
  intros Hle. apply Z.leb_le in Hle.
  change (retry_from (S fuel) options attempt lastError st trace)
    with (if attempt <=? maxRetries options then
            match operation st with
            | (Returns result, st') =>
              Some (Returns (RetrySuccess result attempt), st', (trace ++ [Invoked])%list)
            | (Throws error, st') =>
              if attempt =? maxRetries options then
                Some (exhausted R options (Some error), st', (trace ++ [Invoked])%list)
              else
                retry_from fuel options (attempt + 1) (Some error) st'
                  (trace ++ [Invoked; Slept (baseDelay options * 2 ^ (attempt - 1))])%list
            end
          else Some (exhausted R options lastError, st, trace)).
  now rewrite Hle.
Qed.

(** An operation that keeps throwing uses up the attempts that are left. *)
Lemma retry_from_exhausts (options : RetryOptions) :
  alwaysThrows ->
  forall n attempt lastError st trace,
    attempt + Z.of_nat n = maxRetries options ->
    exists e st',
      retry_from (S n) options attempt lastError st trace
      = Some (Returns (RetryFailure "max_retries_exceeded" (message e)
                                    (maxRetries options)),
              st', (trace ++ attemptsTrace (baseDelay options) attempt n)%list).
Proof.
  intros Hthrows n.
  induction n as [|n IH]; intros attempt lastError st trace Hleft;
    (rewrite retry_from_step by lia);
    destruct (Hthrows st) as [e [st' ->]].
  - replace (attempt =? maxRetries options) with true
      by (symmetry; apply Z.eqb_eq; lia).
    exists e, st'. reflexivity.
  - replace (attempt =? maxRetries options) with false
      by (symmetry; apply Z.eqb_neq; lia).
    destruct (IH (attempt + 1) (Some e) st'
                 (trace ++ [Invoked; Slept (baseDelay options * 2 ^ (attempt - 1))])%list)
      as [e' [st'' Hrun]]; [lia|].
    exists e', st''. rewrite Hrun. cbn [attemptsTrace].
    now rewrite <- app_assoc.
Qed.

(** An operation that throws [n] times and then returns is invoked [n + 1]
    times and reports that attempt number. *)
Lemma retry_from_succeeds (options : RetryOptions) (n : nat) :
  forall fuel attempt lastError st trace result st',
    (n < fuel)%nat ->
    attempt + Z.of_nat n <= maxRetries options ->
    failsFor n st ->
    operation (stateAfter n st) = (Returns result, st') ->
    retry_from fuel options attempt lastError st trace
    = Some (Returns (RetrySuccess result (attempt + Z.of_nat n)), st',
            (trace ++ attemptsTrace (baseDelay options) attempt n)%list).
Proof.
  induction n as [|n IH]; intros fuel attempt lastError st trace result st'
                                 Hfuel Hleft Hfails Hok;
    (destruct fuel as [|fuel]; [lia|]);
    (rewrite retry_from_step by lia).
  - cbn in Hok. rewrite Hok. now rewrite Z.add_0_r.
  - cbn [ErrorHandlers.failsFor ErrorHandlers.stateAfter] in Hfails, Hok.
    destruct (operation st) as [[r|e] st1]; [contradiction|].
    replace (attempt =? maxRetries options) with false
      by (symmetry; apply Z.eqb_neq; lia).
    cbn [snd] in Hok.
    rewrite (IH fuel (attempt + 1) (Some e) st1 _ result st'); try assumption; try lia.
    cbn [attemptsTrace]. rewrite <- app_assoc.
    replace (attempt + 1 + Z.of_nat n) with (attempt + Z.of_nat (S n)) by lia.
    reflexivity.
Qed.

(** C8.  An operation that always throws, retried with [maxRetries: 2], is
    invoked exactly twice and the result is
    [{ success: false, errorType: "max_retries_exceeded", attempts: 2 }].
    For any [maxRetries >= 1] an operation that always throws is invoked
    [maxRetries] times, and one that first returns at attempt [k] is invoked
    [k] times and the result carries [attempts = k]; in both cases the delay
    slept after failed attempt [n] is [baseDelay * 2^(n-1)].  The defaults
    are [maxRetries = 3] and [baseDelay = 1000]. *)
Theorem retryOperation_backoff_and_exhaustion :
  (alwaysThrows ->
   forall baseDelay st,
   exists msg st' trace,
     retryOperation (mkRetryOptions 2 baseDelay) st
     = Some (Returns (RetryFailure "max_retries_exceeded" msg 2), st', trace)
     /\ invocations trace = 2%nat)
  /\ (alwaysThrows ->
      forall options st,
        1 <= maxRetries options ->
        exists msg st' trace,
          retryOperation options st
          = Some (Returns (RetryFailure "max_retries_exceeded" msg
                                        (maxRetries options)), st', trace)
          /\ invocations trace = Z.to_nat (maxRetries options)
          /\ delays trace
             = backoff (baseDelay options) (Z.to_nat (maxRetries options)))
  /\ (forall options st k result st',
         (1 <= k)%nat ->
         Z.of_nat k <= maxRetries options ->
         failsFor (k - 1) st ->
         operation (stateAfter (k - 1) st) = (Returns result, st') ->
         exists trace,
           retryOperation options st
           = Some (Returns (RetrySuccess result (Z.of_nat k)), st', trace)
           /\ invocations trace = k
           /\ delays trace = backoff (baseDelay options) k)
  /\ defaultRetryOptions = mkRetryOptions 3 1000.
Proof.
  assert (Hexhaust :
            alwaysThrows ->
            forall options st,
              1 <= maxRetries options ->
              exists msg st' trace,
                retryOperation options st
                = Some (Returns (RetryFailure "max_retries_exceeded" msg
                                              (maxRetries options)), st', trace)
                /\ invocations trace = Z.to_nat (maxRetries options)
                /\ delays trace
                   = backoff (baseDelay options) (Z.to_nat (maxRetries options))).
  { intros Hthrows options st Hmax.
    unfold ErrorHandlers.retryOperation.
    destruct (Z.to_nat (maxRetries options)) as [|n] eqn:Hn; [lia|].
    destruct (retry_from_exhausts options Hthrows n 1 None st []) as [e [st' Hrun]];
      [lia|].
    exists (message e), st', (attemptsTrace (baseDelay options) 1 n).
    split; [exact Hrun|]. split.
    - apply invocations_attemptsTrace.
    - apply delays_attemptsTrace_backoff. }
  split; [|split; [exact Hexhaust|split; [|reflexivity]]].
  - intros Hthrows baseDelay st.
    destruct (Hexhaust Hthrows (mkRetryOptions 2 baseDelay) st) as
        [msg [st' [trace [Hrun [Hinv _]]]]]; [cbn; lia|].
    exists msg, st', trace. split; [exact Hrun|exact Hinv].
  - intros options st k result st' Hk Hmax Hfails Hok.
    unfold ErrorHandlers.retryOperation.
    exists (attemptsTrace (baseDelay options) 1 (k - 1)).
    rewrite (retry_from_succeeds options (k - 1) _ 1 None st [] result st');
      try assumption; try lia.
    replace (1 + Z.of_nat (k - 1)) with (Z.of_nat k) by lia.
    split; [reflexivity|]. split.
    + rewrite invocations_attemptsTrace. lia.
    + rewrite delays_attemptsTrace_backoff. f_equal. lia.
Qed.

End RetryFacts.

(** ** TestReport: derived metrics *)

(** C2 (the code departs from it).  A report whose [metrics] object lacks
    [testCasesExecuted] reads it as [undefined], which passes the
    [=== null] and [=== 0] guards: [getPassRate] and [getDefectDensity]
    then return [NaN], not [null]. *)
Theorem getPassRate_is_NaN_without_testCasesExecuted :
  TestReport.getTestCasesExecuted
    (TestReport.withMetrics TestReport.VUndefined (TestReport.VNumber 5))
  = TestReport.VUndefined
  /\ TestReport.isNaNValue
       (TestReport.getPassRate
          (TestReport.withMetrics TestReport.VUndefined (TestReport.VNumber 5)))
     = true
  /\ TestReport.isNaNValue
       (TestReport.getDefectDensity
          (TestReport.withMetrics TestReport.VUndefined (TestReport.VNumber 5)))
     = true
  /\ TestReport.isNaNValue
       (TestReport.getPassRate
          (TestReport.withMetrics TestReport.VUndefined TestReport.VUndefined))
     = true.
Proof. repeat split; vm_compute; reflexivity. Qed.

(** The guards of the derived metrics: without a [metrics] object, or with
    [testCasesExecuted] equal to [null], [0] or [-0], both getters return
    [null] whatever [defectsFound] holds; and 50 executed with 5 defects give
    a pass rate of 90 and a defect density of 0.1. *)
Lemma report_metrics_guards (defects : TestReport.value) :
  TestReport.getPassRate (TestReport.mkReport None) = TestReport.VNull
  /\ TestReport.getDefectDensity (TestReport.mkReport None) = TestReport.VNull
  /\ Forall (fun executed =>
               TestReport.getPassRate (TestReport.withMetrics executed defects)
               = TestReport.VNull
               /\ TestReport.getDefectDensity (TestReport.withMetrics executed defects)
                  = TestReport.VNull)
            [TestReport.VNull; TestReport.VNumber 0; TestReport.VNumber PrimFloat.neg_zero]
  /\ TestReport.getPassRate
       (TestReport.withMetrics (TestReport.VNumber 50) (TestReport.VNumber 5))
     = TestReport.VNumber 90
  /\ TestReport.getDefectDensity
       (TestReport.withMetrics (TestReport.VNumber 50) (TestReport.VNumber 5))
     = TestReport.VNumber (PrimFloat.div 1 10).
Proof.
  split; [reflexivity|]. split; [reflexivity|]. split.
  - repeat constructor.
  - split; vm_compute; reflexivity.
Qed.

(** In double precision the pass rate is the rounding of
    [(passed / executed) * 100]: with 200 executed and 171 defects that
    product is just below 14.5 and rounds to 14, while [100 * 29 / 200] is
    14.5 and rounds to 15. *)
Lemma pass_rate_rounds_the_computed_product :
  TestReport.getPassRate
    (TestReport.withMetrics (TestReport.VNumber 200) (TestReport.VNumber 171))
  = TestReport.VNumber 14
  /\ Js.Math_round (PrimFloat.div (PrimFloat.mul 100 29) 200) = 15%float.
Proof. split; vm_compute; reflexivity. Qed.

(** ** TestSession: duration from times *)

Lemma roundToMinutes_nearest (diffMs : Z) :
  60000 * TestSession.roundToMinutes diffMs - 30000 <= diffMs
  < 60000 * TestSession.roundToMinutes diffMs + 30000.
Proof.
  unfold TestSession.roundToMinutes.
  pose proof (Z.div_mod (diffMs + 30000) 60000 ltac:(lia)) as Hdiv.
  pose proof (Z.mod_pos_bound (diffMs + 30000) 60000 ltac:(lia)) as Hmod.
  lia.
Qed.

Lemma falsy_parsedComponents (v : TestSession.field) :
  TestSession.falsy v = true -> TestSession.parsedComponents v = None.
Proof.
  destruct v as [| |str|n]; cbn; try reflexivity.
  intros Hempty. apply String.eqb_eq in Hempty. now subst str.
Qed.

Lemma _parseTime_parsedComponents (today : Z) (v : TestSession.field) :
  TestSession.falsy v = false ->
  TestSession._parseTime today v
  = option_map (fun hms => let '(h, m, sec) := hms in TestSession.setHours today h m sec)
               (TestSession.parsedComponents v).
Proof.
  destruct v as [| |str|n]; cbn; try reflexivity.
  intros ->.
  destruct (TestSession.split ":" str) as [|p0 [|p1 [|p2 [|p3 rest]]]]; try reflexivity.
  destruct (TestSession.parseInt p0), (TestSession.parseInt p1),
    (TestSession.parseInt p2); reflexivity.
Qed.

Lemma parseDigits_started (s : string) :
  forall acc, exists z, TestSession.parseDigits s (Some acc) = Some z.
Proof.
  induction s as [|c s IH]; intros acc; cbn; [eauto|].
  destruct (TestSession.digitValue c); eauto.
Qed.

(** [parseInt] reads an integer from every component the specification
    calls numeric. *)
Lemma numeric_parseInt (p : string) :
  TestSession.numeric p = true -> exists z, TestSession.parseInt p = Some z.
Proof.
  destruct p as [|c rest]; [discriminate|].
  unfold TestSession.numeric. cbn [String.eqb negb andb TestSession.allDigits].
  intros Hnum. apply andb_prop in Hnum as [Hc _].
  destruct c as [[] [] [] [] [] [] [] []];
    try (exfalso; vm_compute in Hc; discriminate Hc);
    unfold TestSession.parseInt; cbn; apply parseDigits_started.
Qed.

Lemma wellFormed_parsedComponents (v : TestSession.field) :
  TestSession.wellFormed v = true ->
  exists hms, TestSession.parsedComponents v = Some hms.
Proof.
  destruct v as [| |str|n]; cbn; try discriminate.
  destruct (TestSession.split ":" str) as [|p0 [|p1 [|p2 [|p3 rest]]]];
    try discriminate.
  intros Hwf. apply andb_prop in Hwf as [Hwf H2]. apply andb_prop in Hwf as [H0 H1].
  destruct (numeric_parseInt _ H0) as [h ->].
  destruct (numeric_parseInt _ H1) as [m ->].
  destruct (numeric_parseInt _ H2) as [sec ->].
  eauto.
Qed.

(** The duration depends on the two fields through the components
    [_parseTime] reads from them. *)
Lemma calculateDurationFromTimes_components (today : Z) (s : TestSession.t) :
  TestSession.calculateDurationFromTimes today s
  = match TestSession.parsedComponents (TestSession.startTime s),
          TestSession.parsedComponents (TestSession.endTime s) with
    | Some start, Some stop =>
      if TestSession.validOn today start && TestSession.validOn today stop
      then TestSession.Minutes
             (TestSession.roundToMinutes
                (TestSession.msOfDay stop - TestSession.msOfDay start))
      else TestSession.NaN
    | _, _ => TestSession.Null
    end.
Proof.
  unfold TestSession.calculateDurationFromTimes,
    TestSession.getStartTime, TestSession.getEndTime.
  destruct s as [startTime endTime]; cbn [TestSession.startTime TestSession.endTime].
  destruct (TestSession.falsy startTime) eqn:Hs; cbn [orb].
  { now rewrite (falsy_parsedComponents _ Hs). }
  destruct (TestSession.falsy endTime) eqn:He.
  { rewrite (falsy_parsedComponents _ He).
    now destruct (TestSession.parsedComponents startTime). }
  rewrite !_parseTime_parsedComponents by assumption.
  destruct (TestSession.parsedComponents startTime) as [[[h1 m1] s1]|];
    [|reflexivity].
  destruct (TestSession.parsedComponents endTime) as [[[h2 m2] s2]|];
    [|reflexivity].
  cbn [option_map]. unfold TestSession.setHours, TestSession.validOn,
                    TestSession.msOfDay.
  rewrite !Z.add_assoc.
  destruct (Z.abs (today + h1 * 3600000 + m1 * 60000 + s1 * 1000)
            <=? TestSession.maxTimeValue);
    destruct (Z.abs (today + h2 * 3600000 + m2 * 60000 + s2 * 1000)
              <=? TestSession.maxTimeValue); cbn [andb]; try reflexivity.
  do 2 f_equal. lia.
Qed.

(** What [calculateDurationFromTimes] computes.  It returns [null] when
    either time is missing or falsy, is not a string, does not split into
    exactly three colon-separated parts, or has a part of which
    [parseInt(_, 10)] reads no integer; otherwise, both dates being valid,
    it returns the difference of the two times of day in milliseconds
    rounded to the nearest minute, whatever the current date.
    Times made of three runs of digits are among those read.
    "10:00:00" to "11:30:00" gives 90 and a missing [endTime] gives [null]. *)
Theorem calculateDurationFromTimes_by_components (today : Z) (s : TestSession.t) :
  TestSession.calculateDurationFromTimes today s
  = match TestSession.parsedComponents (TestSession.startTime s),
          TestSession.parsedComponents (TestSession.endTime s) with
    | Some start, Some stop =>
      if TestSession.validOn today start && TestSession.validOn today stop
      then TestSession.Minutes
             (TestSession.roundToMinutes
                (TestSession.msOfDay stop - TestSession.msOfDay start))
      else TestSession.NaN
    | _, _ => TestSession.Null
    end
  /\ (forall v, TestSession.wellFormed v = true ->
                 exists hms, TestSession.parsedComponents v = Some hms)
  /\ (forall diffMs,
         60000 * TestSession.roundToMinutes diffMs - 30000 <= diffMs
         < 60000 * TestSession.roundToMinutes diffMs + 30000)
  /\ TestSession.calculateDurationFromTimes today
       (TestSession.mkSession (TestSession.FString "10:00:00")
                              (TestSession.FString "11:30:00"))
     = (if TestSession.validOn today (10, 0, 0) && TestSession.validOn today (11, 30, 0)
        then TestSession.Minutes 90 else TestSession.NaN)
  /\ TestSession.calculateDurationFromTimes today
       (TestSession.mkSession (TestSession.FString "10:00:00") TestSession.FUndefined)
     = TestSession.Null.
Proof.
  split; [apply calculateDurationFromTimes_components|].
  split; [exact wellFormed_parsedComponents|].
  split; [exact roundToMinutes_nearest|].
  split; [|reflexivity].
  rewrite calculateDurationFromTimes_components.
  cbn [TestSession.startTime TestSession.endTime].
  replace (TestSession.parsedComponents (TestSession.FString "10:00:00"))
    with (Some (10, 0, 0)) by (vm_compute; reflexivity).
  replace (TestSession.parsedComponents (TestSession.FString "11:30:00"))
    with (Some (11, 30, 0)) by (vm_compute; reflexivity).
  reflexivity.
Qed.

(** C5 (the code departs from it).  The end time "11:30:00x" has a
    component that is not numeric, and the duration from "10:00:00" is 90,
    not [null]: [parseInt] reads the digits before the [x] and the [isNaN]
    guard of [_parseTime] lets the component pass. *)
Lemma trailing_text_in_a_component_is_accepted :
  TestSession.wellFormed (TestSession.FString "11:30:00x") = false
  /\ TestSession.calculateDurationFromTimes 0
       (TestSession.mkSession (TestSession.FString "10:00:00")
                              (TestSession.FString "11:30:00x"))
     = TestSession.Minutes 90.
Proof. split; vm_compute; reflexivity. Qed.

(** ** File helpers: merging manifest data *)

(** C6 (the code departs from it).  Where the extra value is [null] and the
    base value an object, the merge throws instead of replacing the value;
    where the base value is an array and the extra value a plain object, the
    array's indices are merged with the object's keys instead of being
    replaced. *)
Theorem mergeManifestData_null_and_array_operands :
  FileHelpers.mergeManifestData
    (FileHelpers.JObj [("a", FileHelpers.JObj [("x", FileHelpers.JNum 1)])])
    (FileHelpers.JObj [("a", FileHelpers.JNull)])
  = Js.Throws FileHelpers.TypeError_entries
  /\ FileHelpers.mergeManifestData
       (FileHelpers.JObj
          [("a", FileHelpers.JArr [FileHelpers.JNum 1; FileHelpers.JNum 2])])
       (FileHelpers.JObj [("a", FileHelpers.JObj [("y", FileHelpers.JNum 2)])])
     = Js.Returns
         (FileHelpers.JObj
            [("a", FileHelpers.JObj [("0", FileHelpers.JNum 1);
                                     ("1", FileHelpers.JNum 2);
                                     ("y", FileHelpers.JNum 2)])]).
Proof. split; vm_compute; reflexivity. Qed.

(** The two merges of the specification's examples. *)
Lemma mergeManifestData_examples :
  FileHelpers.mergeManifestData
    (FileHelpers.JObj [("a", FileHelpers.JObj [("x", FileHelpers.JNum 1)])])
    (FileHelpers.JObj [("a", FileHelpers.JObj [("y", FileHelpers.JNum 2)])])
  = Js.Returns
      (FileHelpers.JObj
         [("a", FileHelpers.JObj [("x", FileHelpers.JNum 1);
                                  ("y", FileHelpers.JNum 2)])])
  /\ FileHelpers.mergeManifestData
       (FileHelpers.JObj
          [("a", FileHelpers.JArr [FileHelpers.JNum 1; FileHelpers.JNum 2])])
       (FileHelpers.JObj [("a", FileHelpers.JArr [FileHelpers.JNum 3])])
     = Js.Returns
         (FileHelpers.JObj [("a", FileHelpers.JArr [FileHelpers.JNum 3])]).
Proof. split; vm_compute; reflexivity. Qed.

(** A witness of the retry properties: an operation that counts its
    invocations and always throws. *)
Lemma retryOperation_always_failing_witness :
  exists msg st' trace,
    ErrorHandlers.retryOperation nat nat
      (fun n => (Js.Throws (Js.Error "Permanent failure"), S n))
      (ErrorHandlers.mkRetryOptions 2 1000) 0%nat
    = Some (Js.Returns (ErrorHandlers.RetryFailure "max_retries_exceeded" msg 2),
            st', trace)
    /\ ErrorHandlers.invocations trace = 2%nat.
Proof.
  apply (proj1 (retryOperation_backoff_and_exhaustion nat nat
                  (fun n => (Js.Throws (Js.Error "Permanent failure"), S n)))).
  intros st. do 2 eexists. reflexivity.
Defined.

Section MergeFacts.
Import Js FileHelpers.

Lemma mergeResult_object (baseData : json) (fields : list (string * json)) :
  mergeResult baseData (JObj fields) = mergeEntries fields (spread baseData) plainProto.
Proof.
  cbn [mergeResult].
  match goal with
  | |- ?loop fields (spread baseData) plainProto = _ =>
    assert (Hloop : forall entries result proto,
               loop entries result proto = mergeEntries entries result proto)
  end.
  { induction entries as [|[key value] rest IH]; intros result proto; [reflexivity|].
    cbn [mergeEntries].
    destruct (mergesInto (readProperty key result proto) value).
    - destruct (mergeResult (default JNull (readProperty key result proto)) value);
        cbn [bind]; [apply IH|reflexivity].
    - apply IH. }
  apply Hloop.
Qed.

Lemma get_set_same (key : string) (value : json) (fields : list (string * json)) :
  get key (set key value fields) = Some value.
Proof.
  induction fields as [|[k v] rest IH]; cbn.
  - now rewrite String.eqb_refl.
  - destruct (String.eqb k key) eqn:Hk; cbn; now rewrite Hk.
Qed.

Lemma get_set_other (key key' : string) (value : json)
      (fields : list (string * json)) :
  key <> key' -> get key (set key' value fields) = get key fields.
Proof.
  intros Hne.
  induction fields as [|[k v] rest IH]; cbn.
  - destruct (String.eqb key' key) eqn:Hk; [|reflexivity].
    apply String.eqb_eq in Hk. congruence.
  - destruct (String.eqb k key') eqn:Hk'; cbn.
    + apply String.eqb_eq in Hk'. subst k.
      destruct (String.eqb key' key) eqn:Hk; [|reflexivity].
      apply String.eqb_eq in Hk. congruence.
    + destruct (String.eqb k key); [reflexivity|exact IH].
Qed.

Lemma get_None_not_key (key : string) (fields : list (string * json)) :
  get key fields = None -> ~ In key (map fst fields).
Proof.
  induction fields as [|[k v] rest IH]; cbn; [tauto|].
  destruct (String.eqb k key) eqn:Hk; [discriminate|].
  apply String.eqb_neq in Hk. intros Hget [Heq|Hin]; [congruence|].
  now apply IH.
Qed.

Lemma not_key_get_None (key : string) (fields : list (string * json)) :
  ~ In key (map fst fields) -> get key fields = None.
Proof.
  induction fields as [|[k v] rest IH]; cbn; [reflexivity|].
  intros Hnot. destruct (String.eqb k key) eqn:Hk.
  - apply String.eqb_eq in Hk. tauto.
  - apply IH. tauto.
Qed.

(** Under [Object.prototype] a property that is not [__proto__] is read
    and written on the own properties. *)
Lemma readProperty_plain (key : string) (result : list (string * json)) :
  key <> "__proto__" -> readProperty key result plainProto = get key result.
Proof.
  intros Hkey. unfold readProperty. destruct (get key result); [reflexivity|].
  cbn. apply String.eqb_neq in Hkey. now rewrite Hkey.
Qed.

Lemma writeProperty_plain (key : string) (value : json) (valueProto : Proto)
      (result : list (string * json)) :
  key <> "__proto__" ->
  writeProperty key value valueProto result plainProto
  = (set key value result, plainProto).
Proof.
  intros Hkey. unfold writeProperty. apply String.eqb_neq in Hkey. now rewrite Hkey.
Qed.

(** What the loop leaves at each key, for entries with distinct keys, none
    of them [__proto__]. *)
Lemma mergeEntries_lookup (entries : list (string * json)) :
  List.NoDup (map fst entries) ->
  ~ In "__proto__" (map fst entries) ->
  forall result merged,
    mergeEntries entries result plainProto = Returns merged ->
    snd merged = plainProto
    /\ forall key,
        match get key entries with
        | None => get key (fst merged) = get key result
        | Some value =>
          if mergesInto (get key result) value
          then exists m,
              mergeManifestData (default JNull (get key result)) value = Returns m
              /\ get key (fst merged) = Some m
          else get key (fst merged) = Some value
        end.
Proof.
  induction entries as [|[k v] rest IH]; intros Hnodup Hproto result merged;
    cbn [mergeEntries].
  - intros [= <-]. split; [reflexivity|]. intros key. reflexivity.
  - cbn [map fst] in Hnodup, Hproto.
    apply NoDup_cons_iff in Hnodup as [Hfresh Hnodup].
    assert (Hk : k <> "__proto__") by (intros ->; apply Hproto; now left).
    assert (Hproto' : ~ In "__proto__" (map fst rest))
      by (intros Hin; apply Hproto; now right).
    assert (Hrest : get k rest = None) by now apply not_key_get_None.
    rewrite (readProperty_plain k result Hk).
    destruct (mergesInto (get k result) v) eqn:Hguard.
    + destruct (mergeResult (default JNull (get k result)) v) as [m|e] eqn:Hm;
        cbn [bind]; [|discriminate].
      rewrite (writeProperty_plain k _ _ result Hk). cbn [fst snd].
      intros Hrun. destruct (IH Hnodup Hproto' _ _ Hrun) as [Hplain Hkeys].
      split; [exact Hplain|]. intros key. cbn [get].
      destruct (String.eqb k key) eqn:Hkey.
      * apply String.eqb_eq in Hkey. subst key. rewrite Hguard.
        exists (JObj (fst m)). split.
        -- unfold mergeManifestData. now rewrite Hm.
        -- specialize (Hkeys k). rewrite Hrest in Hkeys.
           now rewrite Hkeys, get_set_same.
      * apply String.eqb_neq in Hkey. specialize (Hkeys key).
        rewrite (get_set_other key k) in Hkeys by congruence. exact Hkeys.
    + rewrite (writeProperty_plain k _ _ result Hk). cbn [fst snd].
      intros Hrun. destruct (IH Hnodup Hproto' _ _ Hrun) as [Hplain Hkeys].
      split; [exact Hplain|]. intros key. cbn [get].
      destruct (String.eqb k key) eqn:Hkey.
      * apply String.eqb_eq in Hkey. subst key. rewrite Hguard.
        specialize (Hkeys k). rewrite Hrest in Hkeys.
        now rewrite Hkeys, get_set_same.
      * apply String.eqb_neq in Hkey. specialize (Hkeys key).
        rewrite (get_set_other key k) in Hkeys by congruence. exact Hkeys.
Qed.

(** Merging two plain objects whose extra keys are distinct and none of
    them [__proto__], when it returns: a key absent from the extra object
    keeps the base value; a key whose values are plain objects on both
    sides holds their recursive merge; a key whose extra value is an array,
    a string, a number or a boolean holds the extra value, arrays being
    replaced whole. *)
Lemma mergeManifestData_plain_objects
      (base extra : list (string * json)) (merged : json) :
  List.NoDup (map fst extra) ->
  ~ In "__proto__" (map fst extra) ->
  mergeManifestData (JObj base) (JObj extra) = Returns merged ->
  exists fields,
    merged = JObj fields
    /\ (forall key, get key extra = None -> get key fields = get key base)
    /\ (forall key cur value,
           get key base = Some (JObj cur) -> get key extra = Some (JObj value) ->
           exists m, mergeManifestData (JObj cur) (JObj value) = Returns m
                     /\ get key fields = Some m)
    /\ (forall key value,
           get key extra = Some value -> typeofObject value = false ->
           get key fields = Some value)
    /\ (forall key items,
           get key extra = Some (JArr items) -> get key fields = Some (JArr items)).
Proof.
  intros Hnodup Hproto Hrun. unfold mergeManifestData in Hrun.
  rewrite mergeResult_object in Hrun. cbn [spread] in Hrun.
  destruct (mergeEntries extra base plainProto) as [result|e] eqn:Hloop;
    cbn [bind] in Hrun; [|discriminate].
  injection Hrun as <-.
  destruct (mergeEntries_lookup extra Hnodup Hproto base result Hloop) as [_ Hkeys].
  exists (fst result). split; [reflexivity|]. repeat split.
  - intros key Hnone. specialize (Hkeys key). now rewrite Hnone in Hkeys.
  - intros key cur value Hbase Hextra. specialize (Hkeys key).
    rewrite Hextra, Hbase in Hkeys. exact Hkeys.
  - intros key value Hextra Htype. specialize (Hkeys key). rewrite Hextra in Hkeys.
    replace (mergesInto (get key base) value) with false in Hkeys; [exact Hkeys|].
    unfold mergesInto. destruct (get key base); [|reflexivity].
    rewrite Htype. now rewrite andb_false_r.
  - intros key items Hextra. specialize (Hkeys key). rewrite Hextra in Hkeys.
    replace (mergesInto (get key base) (JArr items)) with false in Hkeys;
      [exact Hkeys|].
    unfold mergesInto. destruct (get key base); [|reflexivity].
    cbn. now rewrite andb_false_r.
Qed.

End MergeFacts.

(** A witness of the merge properties: the recursive merge of the
    specification's first example. *)
Lemma mergeManifestData_plain_objects_witness :
  exists fields,
    FileHelpers.JObj
      [("a", FileHelpers.JObj [("x", FileHelpers.JNum 1); ("y", FileHelpers.JNum 2)])]
    = FileHelpers.JObj fields
    /\ (forall key,
           FileHelpers.get key [("a", FileHelpers.JObj [("y", FileHelpers.JNum 2)])]
           = None ->
           FileHelpers.get key fields
           = FileHelpers.get key [("a", FileHelpers.JObj [("x", FileHelpers.JNum 1)])]).
Proof.
  destruct (mergeManifestData_plain_objects
              [("a", FileHelpers.JObj [("x", FileHelpers.JNum 1)])]
              [("a", FileHelpers.JObj [("y", FileHelpers.JNum 2)])]
              (FileHelpers.JObj
                 [("a", FileHelpers.JObj [("x", FileHelpers.JNum 1);
                                          ("y", FileHelpers.JNum 2)])]))
    as [fields [Heq [Hkeep _]]].
  - repeat constructor. cbn. tauto.
  - cbn. intuition discriminate.
  - vm_compute. reflexivity.
  - exists fields. split; [exact Heq|exact Hkeep].
Defined.

(** ** Manifest Service: batches and synchronous validation *)

Section ManifestBatchFacts.
Import Js ManifestService.

Variable Data : Type.
Variable Schema : Type.
Variable fs_readFile : string -> outcome string.
Variable JSON_parse : string -> outcome Data.
Variable yaml_load : string -> outcome Data.
Variable schemas : gmap string Schema.
Variable ajv_compile : Schema -> outcome (Data -> outcome verdict).

Lemma validateManifest_filePath (filePath schemaType : string) (env : Envelope Data) :
  validateManifest Data Schema fs_readFile JSON_parse yaml_load schemas ajv_compile
                   filePath schemaType = Returns env ->
  ManifestService.filePath env = filePath.
Proof.
  unfold validateManifest.
  destruct (readManifestFile Data fs_readFile JSON_parse yaml_load filePath) as [d|e];
    cbn; [|now intros [= <-]].
  destruct (schemas !! schemaType) as [schema|]; cbn; [|now intros [= <-]].
  destruct (ajv_compile schema) as [validate|e]; cbn; [|now intros [= <-]].
  destruct (validate d) as [[|errs]|e]; cbn; now intros [= <-].
Qed.

(** A batch never aborts: [processManifestFiles] returns one envelope per
    input path, in input order, each carrying its path. *)
Theorem processManifestFiles_one_envelope_per_path (filePaths : list string) :
  exists results,
    processManifestFiles Data Schema fs_readFile JSON_parse yaml_load schemas
                         ajv_compile filePaths = Returns results
    /\ map ManifestService.filePath results = filePaths.
Proof.
  destruct (processManifestFiles_from_spec Data Schema fs_readFile JSON_parse yaml_load
              schemas ajv_compile filePaths []) as [added [Hrun Hall]].
  exists added. split; [exact Hrun|].
  clear Hrun. induction Hall as [|fp env fps envs Henv _ IH]; [reflexivity|].
  cbn [map]. rewrite IH. f_equal. exact (validateManifest_filePath _ _ _ Henv).
Qed.

(** [validateData] throws for an unknown schema type where
    [validateManifest] reports; on the data read from a file the verdict and
    the messages of [validateManifest] are those of [validateData], and what
    [validateData] throws is reported as the single message of a failure
    envelope. *)
Theorem validateManifest_reports_what_validateData_decides
        (filePath schemaType : string) :
  match readManifestFile Data fs_readFile JSON_parse yaml_load filePath with
  | Throws e =>
    validateManifest Data Schema fs_readFile JSON_parse yaml_load schemas ajv_compile
                     filePath schemaType
    = Returns (mkEnvelope false None [message e] filePath)
  | Returns d =>
    match ManifestServiceSync.validateData Data Schema schemas ajv_compile d schemaType with
    | Returns (isValid, errors) =>
      validateManifest Data Schema fs_readFile JSON_parse yaml_load schemas ajv_compile
                       filePath schemaType
      = Returns (mkEnvelope isValid (if isValid then Some d else None) errors filePath)
    | Throws e =>
      validateManifest Data Schema fs_readFile JSON_parse yaml_load schemas ajv_compile
                       filePath schemaType
      = Returns (mkEnvelope false None [message e] filePath)
    end
  end
  /\ (schemas !! schemaType = None ->
      forall d,
        ManifestServiceSync.validateData Data Schema schemas ajv_compile d schemaType
        = Throws (Error ("Unknown schema type: " ++ schemaType))).
Proof.
  split.
  - unfold validateManifest, ManifestServiceSync.validateData.
    destruct (readManifestFile Data fs_readFile JSON_parse yaml_load filePath) as [d|e];
      cbn; [|reflexivity].
    destruct (schemas !! schemaType) as [schema|]; cbn; [|reflexivity].
    destruct (ajv_compile schema) as [validate|e]; cbn; [|reflexivity].
    destruct (validate d) as [[|errs]|e]; reflexivity.
  - intros Hnone d. unfold ManifestServiceSync.validateData. now rewrite Hnone.
Qed.

End ManifestBatchFacts.

(** ** Walking directories for manifest files *)

Section ManifestWalkFacts.
Import Js ManifestWalk.

Variable fs_readdir : string -> outcome (list Dirent).
Variable path_join : string -> string -> string.

(** The file helpers, the Manifest Service and the File System Service
    accept the same extensions. *)
Lemma isManifestFile_isSupportedFormat (filePath : string) :
  isManifestFile filePath
  = ManifestService.isSupportedFormat (ManifestService.getFileExtension filePath).
Proof.
  unfold isManifestFile, getManifestFileType, ManifestService.isSupportedFormat,
    ManifestService.getFileExtension.
  cbn [existsb]. rewrite orb_false_r.
  rewrite (String.eqb_sym _ ".json"), (String.eqb_sym _ ".yaml"),
    (String.eqb_sym _ ".yml").
  destruct (String.eqb ".json" _); [reflexivity|].
  destruct (String.eqb ".yaml" _); [reflexivity|].
  destruct (String.eqb ".yml" _); reflexivity.
Qed.

Lemma walk_items_agree
      (walk1 walk2 : string -> option (outcome (list string)))
      (directoryPath : string) (recursive : bool) :
  (forall p,
      match walk1 p with
      | None => walk2 p = None
      | Some (Returns l) => walk2 p = Some (Returns l)
      | Some (Throws e) => exists e', walk2 p = Some (Throws e')
      end) ->
  forall items acc,
    match walk_items path_join isManifestFile walk1 directoryPath recursive items acc with
    | None =>
      walk_items path_join
        (fun itemPath => ManifestService.isSupportedFormat
                           (ManifestService.getFileExtension itemPath))
        walk2 directoryPath recursive items acc = None
    | Some (Returns l) =>
      walk_items path_join
        (fun itemPath => ManifestService.isSupportedFormat
                           (ManifestService.getFileExtension itemPath))
        walk2 directoryPath recursive items acc = Some (Returns l)
    | Some (Throws e) =>
      exists e',
        walk_items path_join
          (fun itemPath => ManifestService.isSupportedFormat
                             (ManifestService.getFileExtension itemPath))
          walk2 directoryPath recursive items acc = Some (Throws e')
    end.
Proof.
  intros Hwalk items.
  induction items as [|item rest IH]; intros acc; cbn [walk_items]; [reflexivity|].
  destruct (isFile item).
  - rewrite <- isManifestFile_isSupportedFormat. apply IH.
  - destruct (isDirectory item && recursive); [|apply IH].
    specialize (Hwalk (path_join directoryPath (name item))).
    destruct (walk1 (path_join directoryPath (name item))) as [[l|e]|].
    + rewrite Hwalk. apply IH.
    + destruct Hwalk as [e' ->]. eauto.
    + now rewrite Hwalk.
Qed.

(** The two recursive walks of the repository agree: whenever
    [findManifestFiles] of the file helpers returns a list,
    [ManifestService.discoverManifestFiles] returns the same list; when one
    throws, so does the other; and neither returns without the other. *)
Theorem findManifestFiles_agrees_with_discoverManifestFiles (fuel : nat) :
  forall directoryPath recursive,
    match findManifestFiles_fuel fs_readdir path_join fuel directoryPath recursive with
    | None =>
      discoverManifestFiles_fuel fs_readdir path_join fuel directoryPath recursive = None
    | Some (Returns l) =>
      discoverManifestFiles_fuel fs_readdir path_join fuel directoryPath recursive
      = Some (Returns l)
    | Some (Throws e) =>
      exists e',
        discoverManifestFiles_fuel fs_readdir path_join fuel directoryPath recursive
        = Some (Throws e')
    end.
Proof.
  induction fuel as [|fuel IH]; intros directoryPath recursive; [reflexivity|].
  cbn [findManifestFiles_fuel discoverManifestFiles_fuel].
  destruct (fs_readdir directoryPath) as [items|e]; [|eauto].
  pose proof (walk_items_agree
                (fun p => findManifestFiles_fuel fs_readdir path_join fuel p true)
                (fun p => discoverManifestFiles_fuel fs_readdir path_join fuel p true)
                directoryPath recursive (fun p => IH p true) items []) as Hloop.
  destruct (walk_items path_join isManifestFile _ directoryPath recursive items [])
    as [[l|e]|].
  - now rewrite Hloop.
  - destruct Hloop as [e' ->]. eauto.
  - now rewrite Hloop.
Qed.

Lemma fold_left_walk_items (accepts : string -> bool)
      (walk : string -> option (outcome (list string)))
      (directoryPath : string) (items : list Dirent) :
  forall acc,
    walk_items path_join accepts walk directoryPath false items acc
    = Some (Returns
              (fold_left
                 (fun manifestFiles item =>
                    if isFile item then
                      let itemPath := path_join directoryPath (name item) in
                      if accepts itemPath then (manifestFiles ++ [itemPath])%list
                      else manifestFiles
                    else manifestFiles)
                 items acc)).
Proof.
  induction items as [|item rest IH]; intros acc; cbn [walk_items fold_left];
    [reflexivity|].
  destruct (isFile item); [apply IH|].
  rewrite andb_false_r. apply IH.
Qed.

(** Without [recursive], one invocation suffices and [findManifestFiles] is
    [listManifestFiles]: same list, same thrown error. *)
Theorem findManifestFiles_flat_is_listManifestFiles (directoryPath : string) (fuel : nat) :
  findManifestFiles_fuel fs_readdir path_join (S fuel) directoryPath false
  = Some (listManifestFiles fs_readdir path_join directoryPath).
Proof.
  cbn [findManifestFiles_fuel]. unfold listManifestFiles.
  destruct (fs_readdir directoryPath) as [items|e]; cbn [bind]; [|reflexivity].
  apply fold_left_walk_items.
Qed.

End ManifestWalkFacts.

(** The recursive walks have no depth bound: on the tree without a bottom
    no number of nested invocations lets [findManifestFiles] or
    [ManifestService.discoverManifestFiles] return or throw, whatever the
    directory they start from. *)
Theorem recursive_walks_have_no_depth_bound (path_join : string -> string -> string)
        (fuel : nat) (directoryPath : string) :
  ManifestWalk.findManifestFiles_fuel ManifestWalk.endless_dirents path_join
    fuel directoryPath true = None
  /\ ManifestWalk.discoverManifestFiles_fuel ManifestWalk.endless_dirents path_join
       fuel directoryPath true = None.
Proof.
  revert directoryPath.
  induction fuel as [|fuel IH]; intros directoryPath; [split; reflexivity|].
  cbn. destruct (IH (path_join directoryPath "d")) as [-> ->]. split; reflexivity.
Qed.

(** ** Recognising manifest files *)

(** Every service recognises a manifest file by the same test on the
    lower-cased extension: [isManifestFile] holds exactly for [.json],
    [.yaml] and [.yml], the type reported by [getManifestFileType] is that
    extension without its dot, and [detectYamlFormat] then answers from the
    extension alone, whatever the content. *)
Theorem manifest_extension_decides (filePath : string) (content : option string) :
  ManifestWalk.isManifestFile filePath
  = existsb (String.eqb (Js.toLowerCase (NodePath.extname filePath)))
            FileSystemService.MANIFEST_EXTENSIONS
  /\ match ManifestWalk.getManifestFileType filePath with
     | Some type =>
       Js.toLowerCase (NodePath.extname filePath) = "." ++ type
       /\ YamlSupport.detectYamlFormat (Some filePath) content
          = Some (if String.eqb type "json" then "json" else "yaml")
     | None =>
       YamlSupport.detectYamlFormat (Some filePath) content
       = YamlSupport.detectYamlFormat None content
     end.
Proof.
  unfold ManifestWalk.isManifestFile, ManifestWalk.getManifestFileType,
    YamlSupport.detectYamlFormat, FileSystemService.MANIFEST_EXTENSIONS.
  cbn [existsb]. rewrite orb_false_r.
  destruct (String.eqb (Js.toLowerCase (NodePath.extname filePath)) ".json") eqn:Hjson.
  { apply String.eqb_eq in Hjson. rewrite Hjson. repeat split. }
  destruct (String.eqb (Js.toLowerCase (NodePath.extname filePath)) ".yaml") eqn:Hyaml.
  { apply String.eqb_eq in Hyaml. rewrite Hyaml. repeat split. }
  destruct (String.eqb (Js.toLowerCase (NodePath.extname filePath)) ".yml") eqn:Hyml.
  { apply String.eqb_eq in Hyml. rewrite Hyml. repeat split. }
  split; reflexivity.
Qed.

(** ** File System Service: what a scan result counts *)

Section ScanCountFacts.
Import Js FileSystemService DirectoryReports.

Variable fs_readdir : string -> outcome (list string).
Variable fs_stat : string -> outcome Stats.
Variable path_join : string -> string -> string.

Lemma recordedFiles_ScanOk (p : string) (fs : list FileInfo) (ds : list DirInfo)
      (subs : list ScanResult) (n : Z) (b : bool) :
  recordedFiles (ScanOk p fs ds subs n b)
  = Z.of_nat (List.length fs) + recordedIn subs.
Proof.
  cbn [recordedFiles]. f_equal. unfold recordedIn.
  induction subs as [|sub subs IH]; [reflexivity|].
  cbn [map fold_right]. now rewrite IH.
Qed.

Lemma recordedIn_app (xs ys : list ScanResult) :
  recordedIn (xs ++ ys) = recordedIn xs + recordedIn ys.
Proof.
  unfold recordedIn. induction xs as [|x xs IH]; cbn; [reflexivity|].
  rewrite IH. lia.
Qed.

Lemma scan_entries_count (scan : string -> ScanOptions -> option ScanResult)
      (directoryPath : string) (options : ScanOptions) :
  (forall p o r, scan p o = Some r -> totalFiles r = recordedFiles r) ->
  forall entries st st',
    scan_entries fs_stat path_join scan directoryPath options entries st
    = Some (Returns st') ->
    l_totalFiles st = Z.of_nat (List.length (l_files st)) + recordedIn (l_subdirectories st) ->
    l_totalFiles st'
    = Z.of_nat (List.length (l_files st')) + recordedIn (l_subdirectories st').
Proof.
  intros Hscan entries.
  induction entries as [|entry rest IH]; intros st st';
    cbn [FileSystemService.scan_entries].
  - intros [= <-]. auto.
  - destruct (fs_stat (path_join directoryPath entry)) as [stats|e]; [|discriminate].
    destruct (st_kind stats).
    + destruct (recursive options && (currentDepth options <? maxDepth options)).
      * destruct (scan (path_join directoryPath entry) (deeper options)) as [r|] eqn:Hr;
          [|discriminate].
        intros Hrun Hinv. apply (IH _ _ Hrun).
        destruct (success r); cbn [l_totalFiles l_files l_subdirectories];
          [|exact Hinv].
        rewrite recordedIn_app. unfold recordedIn at 2. cbn [map fold_right].
        rewrite <- (Hscan _ _ _ Hr). cbn [l_totalFiles l_files l_subdirectories] in Hinv.
        lia.
      * intros Hrun Hinv. apply (IH _ _ Hrun). exact Hinv.
    + destruct (existsb _ _); intros Hrun Hinv; apply (IH _ _ Hrun); [|exact Hinv].
      cbn [l_totalFiles l_files l_subdirectories]. rewrite length_app. cbn [List.length].
      lia.
    + intros Hrun Hinv. apply (IH _ _ Hrun). exact Hinv.
Qed.

Lemma scanDirectory_fuel_count (fuel : nat) :
  forall directoryPath options r,
    FileSystemService.scanDirectory_fuel fs_readdir fs_stat path_join fuel
      directoryPath options = Some r ->
    totalFiles r = recordedFiles r.
Proof.
  induction fuel as [|fuel IH]; intros directoryPath options r; [discriminate|].
  cbn [FileSystemService.scanDirectory_fuel].
  destruct (maxDepth options <=? currentDepth options); [now intros [= <-]|].
  destruct (fs_readdir directoryPath) as [entries|e]; [|now intros [= <-]].
  destruct (scan_entries fs_stat path_join _ directoryPath options entries _)
    as [[st|e]|] eqn:Hrun; [| |discriminate]; intros [= <-]; [|reflexivity].
  rewrite recordedFiles_ScanOk. cbn [totalFiles].
  apply (scan_entries_count _ directoryPath options IH _ _ _ Hrun). reflexivity.
Qed.

(** [scanDirectory] always returns a result whose [totalFiles] is the number
    of file records found in the result itself and in all the results
    nested in its [subdirectories], at every depth the scan reached. *)
Theorem scanDirectory_totalFiles_counts_the_records
        (directoryPath : string) (options : ScanOptions) :
  exists r,
    FileSystemService.scanDirectory fs_readdir fs_stat path_join directoryPath options
    = Some r
    /\ totalFiles r = recordedFiles r.
Proof.
  destruct (scanDirectory_fuel_total fs_readdir fs_stat path_join
              (depthBudget options) directoryPath options) as [r Hr];
    [unfold depthBudget; lia|].
  exists r. split; [exact Hr|].
  exact (scanDirectory_fuel_count _ _ _ _ Hr).
Qed.

(** Without [recursive] the loop records no sub-result. *)
Lemma scan_entries_flat (scan : string -> ScanOptions -> option ScanResult)
      (directoryPath : string) (options : ScanOptions) :
  recursive options = false ->
  forall entries st st',
    scan_entries fs_stat path_join scan directoryPath options entries st
    = Some (Returns st') ->
    l_subdirectories st' = l_subdirectories st.
Proof.
  intros Hflat entries.
  induction entries as [|entry rest IH]; intros st st';
    cbn [FileSystemService.scan_entries].
  - now intros [= <-].
  - destruct (fs_stat (path_join directoryPath entry)) as [stats|e]; [|discriminate].
    rewrite Hflat. cbn [andb].
    destruct (st_kind stats).
    + intros Hrun. now rewrite (IH _ _ Hrun).
    + destruct (existsb _ _); intros Hrun; now rewrite (IH _ _ Hrun).
    + intros Hrun. now rewrite (IH _ _ Hrun).
Qed.

Lemma fold_plus_undefined (subs : list ScanResult) :
  forall sum,
    fold_left (fun sum sub => plus sum (sub_totalDirectories sub)) subs sum
    = match subs with [] => sum | _ :: _ => NotANumber end.
Proof.
  induction subs as [|sub subs IH]; intros sum; [reflexivity|].
  cbn [fold_left]. rewrite IH.
  destruct subs; [|reflexivity]. now destruct sum.
Qed.

(** [getDirectoryStructure] always returns; when the scan succeeded,
    [totalDirectories] is the number of directories directly inside the
    directory if the scan recorded no sub-result, and is [NaN] as soon as it
    recorded one, because the sub-results carry no [totalDirectories]; a
    scan without [recursive] records none. *)
Theorem getDirectoryStructure_totalDirectories
        (directoryPath : string) (recursive : bool) (maxDepth : Z) :
  exists res,
    getDirectoryStructure fs_readdir fs_stat path_join directoryPath recursive maxDepth
    = Some res
    /\ match res with
       | StructureFailed e =>
         FileSystemService.scanDirectory fs_readdir fs_stat path_join directoryPath
           (mkScanOptions recursive MANIFEST_EXTENSIONS maxDepth 0)
         = Some (ScanFailed e)
       | StructureOk s =>
         s_totalDirectories s
         = match s_subdirectories s with
           | [] => Count (Z.of_nat (List.length (s_directories s)))
           | _ :: _ => NotANumber
           end
         /\ (recursive = false -> s_subdirectories s = [])
       end.
Proof.
  unfold getDirectoryStructure.
  destruct (scanDirectory_fuel_total fs_readdir fs_stat path_join
              (depthBudget (mkScanOptions recursive MANIFEST_EXTENSIONS maxDepth 0))
              directoryPath (mkScanOptions recursive MANIFEST_EXTENSIONS maxDepth 0))
    as [r Hr]; [unfold depthBudget; lia|].
  unfold FileSystemService.scanDirectory. rewrite Hr.
  destruct r as [p fs ds subs total reached|e]; eexists; (split; [reflexivity|]);
    [|reflexivity].
  cbn [s_totalDirectories s_subdirectories s_directories]. split.
  - rewrite fold_plus_undefined. destruct subs; cbn; [|reflexivity].
    now rewrite Z.add_0_r.
  - intros ->. unfold depthBudget in Hr.
    cbn [FileSystemService.scanDirectory_fuel] in Hr.
    destruct (FileSystemService.maxDepth _ <=? _); [now injection Hr as _ _ _ <- _ _|].
    destruct (fs_readdir directoryPath) as [entries|e]; [|discriminate].
    destruct (scan_entries fs_stat path_join _ directoryPath _ entries _)
      as [[st|e]|] eqn:Hrun; [| |discriminate]; [|discriminate].
    injection Hr as _ _ _ <- _ _.
    apply scan_entries_flat in Hrun; [exact Hrun|reflexivity].
Qed.

End ScanCountFacts.

(** ** File System Service: directory statistics *)

Section DirectoryStatsFacts.
Import Js FileSystemService DirectoryReports.

Variable fs_readdir : string -> outcome (list string).
Variable fs_stat : string -> outcome Stats.
Variable path_join : string -> string -> string.

Lemma directoryPaths_failed (e : FsFailure) : directoryPaths (ScanFailed e) = [].
Proof. reflexivity. Qed.

(** The directories one run of the loop records, read off the listing. *)
Lemma scan_entries_directories (scan : string -> ScanOptions -> option ScanResult)
      (directoryPath : string) (options : ScanOptions) :
  forall entries st out,
    scan_entries fs_stat path_join scan directoryPath options entries st = Some out ->
    match statEntries fs_stat path_join directoryPath entries with
    | Throws e => out = Throws e
    | Returns l =>
      exists st',
        out = Returns st'
        /\ map d_path (l_directories st')
           = (map d_path (l_directories st)
              ++ subdirPaths path_join directoryPath l)%list
    end.
Proof.
  intros entries.
  induction entries as [|entry rest IH]; intros st out;
    cbn [FileSystemService.scan_entries FileSystemService.statEntries].
  - intros [= <-]. exists st. cbn. now rewrite app_nil_r.
  - destruct (fs_stat (path_join directoryPath entry)) as [stats|e] eqn:Hstat;
      cbn [bind]; [|now intros [= <-]].
    assert (Hstep :
              forall st1,
                scan_entries fs_stat path_join scan directoryPath options rest st1
                = Some out ->
                map d_path (l_directories st1)
                = (map d_path (l_directories st)
                   ++ (if isDirectoryEntry (entry, stats)
                       then [path_join directoryPath entry] else []))%list ->
                match (let! more := statEntries fs_stat path_join directoryPath rest in
                       Returns ((entry, stats) :: more)) with
                | Throws e => out = Throws e
                | Returns l =>
                  exists st',
                    out = Returns st'
                    /\ map d_path (l_directories st')
                       = (map d_path (l_directories st)
                          ++ subdirPaths path_join directoryPath l)%list
                end).
    { intros st1 Hrun Hdirs. specialize (IH _ _ Hrun).
      destruct (statEntries fs_stat path_join directoryPath rest) as [l|e];
        cbn [bind]; [|exact IH].
      destruct IH as [st' [-> Hst']]. exists st'. split; [reflexivity|].
      rewrite Hst', Hdirs, subdirPaths_cons, <- app_assoc.
      now destruct (isDirectoryEntry (entry, stats)). }
    unfold isDirectoryEntry in Hstep. cbn [snd] in Hstep.
    destruct (st_kind stats).
    + destruct (recursive options && (currentDepth options <? maxDepth options)).
      * destruct (scan (path_join directoryPath entry) (deeper options)) as [r|];
          [|discriminate].
        intros Hrun. apply (Hstep _ Hrun).
        destruct (success r); cbn [l_directories]; rewrite map_app; reflexivity.
      * intros Hrun. apply (Hstep _ Hrun). cbn [l_directories].
        rewrite map_app. reflexivity.
    + destruct (existsb _ _); intros Hrun; apply (Hstep _ Hrun);
        cbn [l_directories]; now rewrite app_nil_r.
    + intros Hrun. apply (Hstep _ Hrun). now rewrite app_nil_r.
Qed.

(** The directories a scan below the ceiling records at its top: those
    directly inside the directory. *)
Lemma level_directories (fuel : nat) (d : string) (options : ScanOptions) :
  currentDepth options < maxDepth options ->
  (Z.to_nat (maxDepth options - currentDepth options) < S fuel)%nat ->
  exists r,
    FileSystemService.scanDirectory_fuel fs_readdir fs_stat path_join (S fuel) d options
    = Some r
    /\ match listing fs_readdir fs_stat path_join d with
       | Throws e => r = ScanFailed (handleFileSystemError e)
       | Returns l => success r = true
                      /\ directoryPaths r = subdirPaths path_join d l
       end.
Proof.
  intros Hdepth Hfuel.
  destruct (scanDirectory_fuel_total fs_readdir fs_stat path_join (S fuel) d options Hfuel)
    as [r Hr].
  exists r. split; [exact Hr|].
  cbn [FileSystemService.scanDirectory_fuel] in Hr.
  replace (maxDepth options <=? currentDepth options) with false in Hr
    by (symmetry; apply Z.leb_gt; lia).
  unfold listing.
  destruct (fs_readdir d) as [entries|e]; cbn [bind]; [|now injection Hr as <-].
  destruct (scan_entries fs_stat path_join _ d options entries _) as [out|] eqn:Hrun;
    [|discriminate].
  apply scan_entries_directories in Hrun.
  destruct (statEntries fs_stat path_join d entries) as [l|e].
  - destruct Hrun as [st' [-> Hdirs]]. injection Hr as <-.
    split; [reflexivity|]. exact Hdirs.
  - subst out. now injection Hr as <-.
Qed.

Lemma fold_left_directory_lengths (subs : list ScanResult) :
  forall sum,
    fold_left (fun sum sub => sum + Z.of_nat (List.length (directories sub))) subs sum
    = sum + Z.of_nat (List.length (flat_map directoryPaths subs)).
Proof.
  induction subs as [|sub subs IH]; intros sum; cbn [fold_left flat_map].
  - cbn. lia.
  - rewrite IH, length_app. unfold directoryPaths at 2. rewrite length_map. lia.
Qed.


End DirectoryStatsFacts.

(** ** File System Service: grouping discovered files by type *)

Section GroupingFacts.
Import Js FileSystemService DirectoryReports.

Lemma group_pushInto_same (type filePath : string) (gs : list (string * list string)) :
  group type (pushInto type filePath gs)
  = Some (default [] (group type gs) ++ [filePath])%list.
Proof.
  induction gs as [|[t paths] rest IH]; cbn.
  - now rewrite String.eqb_refl.
  - destruct (String.eqb t type) eqn:Ht; cbn; now rewrite Ht.
Qed.

Lemma group_pushInto_other (type type' filePath : string)
      (gs : list (string * list string)) :
  type' <> type -> group type (pushInto type' filePath gs) = group type gs.
Proof.
  intros Hne.
  induction gs as [|[t paths] rest IH]; cbn.
  - destruct (String.eqb type' type) eqn:Ht; [|reflexivity].
    apply String.eqb_eq in Ht. congruence.
  - destruct (String.eqb t type') eqn:Ht'; cbn.
    + apply String.eqb_eq in Ht'. subst t.
      destruct (String.eqb type' type) eqn:Ht; [|reflexivity].
      apply String.eqb_eq in Ht. congruence.
    + destruct (String.eqb t type); [reflexivity|exact IH].
Qed.

Lemma group_fold (type : string) (files : list string) :
  forall gs,
    group type
          (fold_left
             (fun groups filePath =>
                match typeOfPath filePath with
                | Some t => pushInto t filePath groups
                | None => groups
                end)
             files gs)
    = match List.filter (hasType type) files with
      | [] => group type gs
      | found => Some (default [] (group type gs) ++ found)%list
      end.
Proof.
  induction files as [|p files IH]; intros gs; cbn [fold_left List.filter];
    [reflexivity|].
  rewrite IH.
  assert (Hp : hasType type p
               = match typeOfPath p with
                 | Some t => String.eqb t type
                 | None => false
                 end) by reflexivity.
  rewrite Hp. clear Hp.
  destruct (typeOfPath p) as [t|]; [|reflexivity].
  destruct (String.eqb t type) eqn:Ht.
  - apply String.eqb_eq in Ht. subst t. rewrite group_pushInto_same. cbn [default].
    destruct (List.filter (hasType type) files) as [|q found].
    + reflexivity.
    + unfold id. now rewrite <- app_assoc.
  - apply String.eqb_neq in Ht. now rewrite (group_pushInto_other type t p gs Ht).
Qed.

(** The loop of [groupManifestFiles] puts every file whose name matches a
    type pattern into the group of the first matching type, in discovery
    order, and a file matching none into no group; a type without files has
    no group. *)
Lemma groupFiles_by_first_type (type : string) (files : list string) :
  group type (groupFiles files)
  = match List.filter (hasType type) files with
    | [] => None
    | found => Some found
    end.
Proof.
  unfold groupFiles. rewrite group_fold. cbn [group default].
  now destruct (List.filter (hasType type) files).
Qed.

Variable fs_readdir : string -> outcome (list string).
Variable fs_stat : string -> outcome Stats.
Variable path_join : string -> string -> string.
Variable Data : Type.
Variable fs_readFile : string -> outcome string.
Variable JSON_parse : string -> outcome Data.
Variable yaml_load : string -> outcome Data.
Variable isObject : Data -> bool.

Lemma discoverManifestFiles_total (directoryPath : string) (options : DiscoverOptions) :
  exists res,
    discoverManifestFiles fs_readdir fs_stat path_join Data fs_readFile JSON_parse
                          yaml_load isObject directoryPath options = Some res.
Proof.
  unfold discoverManifestFiles.
  destruct (scanDirectory_fuel_total fs_readdir fs_stat path_join
              (depthBudget (mkScanOptions (o_recursive options) (o_extensions options) 10 0))
              directoryPath
              (mkScanOptions (o_recursive options) (o_extensions options) 10 0))
    as [r Hr]; [unfold depthBudget; lia|].
  unfold FileSystemService.scanDirectory. rewrite Hr.
  destruct r as [p fs ds subs total reached|e]; cbn [success negb]; [|eauto].
  destruct (o_types options) as [types|]; [|eauto].
  destruct (filterByType types _ []); eauto.
Qed.

(** [groupManifestFiles] always returns; it passes on the failure of the
    discovery, and otherwise the group of each type holds exactly the
    discovered files whose first matching type it is, in discovery order:
    no file is in two groups and a file matching no pattern is in none. *)
Theorem groupManifestFiles_groups_by_first_type (directoryPath : string) :
  exists res,
    groupManifestFiles fs_readdir fs_stat path_join Data fs_readFile JSON_parse
                       yaml_load isObject directoryPath = Some res
    /\ match res with
       | GroupFailed e =>
         discoverManifestFiles fs_readdir fs_stat path_join Data fs_readFile JSON_parse
                               yaml_load isObject directoryPath
                               (mkDiscoverOptions true None false MANIFEST_EXTENSIONS)
         = Some (DiscoverFailed e)
       | GroupOk g =>
         exists d,
           discoverManifestFiles fs_readdir fs_stat path_join Data fs_readFile
                                 JSON_parse yaml_load isObject directoryPath
                                 (mkDiscoverOptions true None false MANIFEST_EXTENSIONS)
           = Some (DiscoverOk d)
           /\ (forall type,
                  group type (groups g)
                  = match List.filter (hasType type) (dv_files d) with
                    | [] => None
                    | found => Some found
                    end)
           /\ (forall type filePath,
                  (exists paths, group type (groups g) = Some paths /\ In filePath paths)
                  <-> In filePath (dv_files d) /\ typeOfPath filePath = Some type)
       end.
Proof.
  unfold groupManifestFiles.
  destruct (discoverManifestFiles_total directoryPath
              (mkDiscoverOptions true None false MANIFEST_EXTENSIONS)) as [res Hres].
  rewrite Hres. destruct res as [d|e]; eexists; (split; [reflexivity|]);
    [|reflexivity].
  exists d. split; [reflexivity|]. cbn [groups]. split.
  - intros type. apply groupFiles_by_first_type.
  - intros type filePath. rewrite groupFiles_by_first_type.
    assert (Hin : In filePath (List.filter (hasType type) (dv_files d))
                  <-> In filePath (dv_files d) /\ typeOfPath filePath = Some type).
    { rewrite filter_In. unfold hasType.
      destruct (typeOfPath filePath) as [t|].
      - split; intros [Hf Ht]; (split; [exact Hf|]).
        + apply String.eqb_eq in Ht. now subst t.
        + injection Ht as ->. apply String.eqb_refl.
      - split; intros [_ Ht]; discriminate. }
    rewrite <- Hin.
    destruct (List.filter (hasType type) (dv_files d)) as [|q found].
    + split; [intros [paths [Hnone _]]; discriminate|intros []].
    + split.
      * intros [paths [[= <-] Hp]]. exact Hp.
      * intros Hp. eauto.
Qed.

End GroupingFacts.

(** For a file name in lower case that does not contain "project", the
    grouping of the File System Service and the schema inference of the
    Manifest Service agree: the inferred schema type is the one of the
    file's group, and [project] when the file is in no group. *)
Theorem grouping_agrees_with_schema_inference (fileName : string) :
  Js.toLowerCase fileName = fileName ->
  Js.includes fileName "project" = false ->
  ManifestService.inferSchemaType fileName
  = DirectoryReports.schemaOfType (DirectoryReports.firstType fileName).
Proof.
  intros Hlower Hproject.
  unfold ManifestService.inferSchemaType, DirectoryReports.firstType,
    FileSystemService.MANIFEST_TYPES.
  cbn [find]. rewrite Hlower, Hproject.
  destruct (Js.includes fileName "strategy"); [reflexivity|].
  destruct (Js.includes fileName "plan"); [reflexivity|].
  destruct (Js.includes fileName "charter"); [reflexivity|].
  destruct (Js.includes fileName "session"); [reflexivity|].
  destruct (Js.includes fileName "report"); [reflexivity|].
  destruct (Js.includes fileName "suite"); [reflexivity|].
  destruct (Js.includes fileName "case"); [reflexivity|].
  destruct (Js.includes fileName "status"); reflexivity.
Qed.

Lemma grouping_agrees_with_schema_inference_witness :
  ManifestService.inferSchemaType "status-report"
  = DirectoryReports.schemaOfType (DirectoryReports.firstType "status-report").
Proof.
  apply (grouping_agrees_with_schema_inference "status-report"); reflexivity.
Defined.

(** With "project" in the name the two disagree as soon as another keyword
    is present: project-plan is grouped under project and validated as a
    test plan. *)
Lemma grouping_and_inference_disagree_on_project_names :
  DirectoryReports.firstType "project-plan" = Some "project"
  /\ ManifestService.inferSchemaType "project-plan" = "test-plan".
Proof. split; reflexivity. Qed.

(** ** The cache over sequences of operations *)

Section CacheRunFacts.
Import Js FileSystemService DirectoryReports.

Variable fs_readdir : string -> outcome (list string).
Variable fs_stat : string -> outcome Stats.
Variable path_join : string -> string -> string.

Lemma optimize_keeps_invariant (elapsed : Z) (directoryPath : string)
      (calls : Z) (st : CacheState) :
  cacheInvariant calls st ->
  exists r st',
    optimizeDirectoryScanning fs_readdir fs_stat path_join elapsed directoryPath st
    = Some (r, st')
    /\ cached r = bool_decide (is_Some (directoryCache st !! ("scan-" ++ directoryPath)))
    /\ cacheInvariant (calls + 1) st'.
Proof.
  intros [Hsize [Hcalls [Hhits Hmiss]]].
  unfold optimizeDirectoryScanning.
  destruct (directoryCache st !! ("scan-" ++ directoryPath)) as [hit|] eqn:Hkey.
  - do 2 eexists. split; [reflexivity|]. split.
    + symmetry. apply bool_decide_eq_true. eauto.
    + unfold cacheInvariant. cbn. repeat split; lia.
  - destruct (scanDirectory_fuel_total fs_readdir fs_stat path_join
                (depthBudget (mkScanOptions true MANIFEST_EXTENSIONS 10 0))
                directoryPath (mkScanOptions true MANIFEST_EXTENSIONS 10 0))
      as [result Hresult]; [unfold depthBudget; lia|].
    unfold FileSystemService.scanDirectory. rewrite Hresult.
    do 2 eexists. split; [reflexivity|]. split.
    + symmetry. apply bool_decide_eq_false. intros [x Hx]. discriminate.
    + unfold cacheInvariant. cbn.
      rewrite map_size_insert_None by exact Hkey. repeat split; lia.
Qed.

Lemma invalidate_keeps_invariant (cacheKey : string) (calls : Z) (st : CacheState) :
  cacheInvariant calls st ->
  cacheInvariant calls (snd (invalidateCache cacheKey st)).
Proof.
  intros [Hsize [Hcalls [Hhits Hmiss]]].
  unfold invalidateCache, cacheInvariant. cbn.
  rewrite map_size_delete.
  destruct (directoryCache st !! cacheKey); cbn; repeat split; lia.
Qed.

Lemma runCache_invariant (ops : list cacheOp) :
  forall calls st,
    cacheInvariant calls st ->
    exists st',
      runCache fs_readdir fs_stat path_join ops st = Some st'
      /\ cacheInvariant (calls + Z.of_nat (List.length (List.filter isOptimize ops))) st'.
Proof.
  induction ops as [|[elapsed directoryPath|cacheKey] ops IH]; intros calls st Hinv;
    cbn [runCache List.filter isOptimize].
  - exists st. split; [reflexivity|]. cbn. now rewrite Z.add_0_r.
  - destruct (optimize_keeps_invariant elapsed directoryPath calls st Hinv)
      as [r [st1 [-> [_ Hinv1]]]].
    destruct (IH _ _ Hinv1) as [st' [Hrun Hinv']].
    exists st'. split; [exact Hrun|].
    cbn [List.length]. replace (calls + Z.of_nat (S _)) with
        (calls + 1 + Z.of_nat (List.length (List.filter isOptimize ops))) by lia.
    exact Hinv'.
  - apply IH. now apply invalidate_keeps_invariant.
Qed.

(** After any sequence of [optimizeDirectoryScanning] and [invalidateCache]
    calls from the empty cache, the recorded [size] is the number of cached
    entries, [hits + misses] is the number of scanning calls, and there are
    at least as many misses as cached entries; and invalidating the key of
    a path makes the next scan of that path a miss again. *)
Theorem cache_counters_track_the_calls (ops : list cacheOp) :
  exists st,
    runCache fs_readdir fs_stat path_join ops emptyCache = Some st
    /\ cs_size (getCacheStats st) = Z.of_nat (size (directoryCache st))
    /\ cs_hits (getCacheStats st) + cs_misses (getCacheStats st)
       = Z.of_nat (List.length (List.filter isOptimize ops))
    /\ 0 <= cs_hits (getCacheStats st)
    /\ cs_size (getCacheStats st) <= cs_misses (getCacheStats st)
    /\ (forall elapsed directoryPath,
           exists r st',
             optimizeDirectoryScanning fs_readdir fs_stat path_join elapsed directoryPath
               (snd (invalidateCache ("scan-" ++ directoryPath) st)) = Some (r, st')
             /\ cached r = false).
Proof.
  destruct (runCache_invariant ops 0 emptyCache) as [st [Hrun Hinv]].
  { unfold cacheInvariant, emptyCache. cbn. rewrite map_size_empty. lia. }
  exists st. split; [exact Hrun|].
  pose proof Hinv as [Hsize [Hcalls [Hhits Hmiss]]].
  cbn [getCacheStats cs_size cs_hits cs_misses].
  repeat split; try lia.
  intros elapsed directoryPath.
  destruct (optimize_keeps_invariant elapsed directoryPath _ _
              (invalidate_keeps_invariant ("scan-" ++ directoryPath) _ _ Hinv))
    as [r [st' [Hopt [Hcached _]]]].
  exists r, st'. split; [exact Hopt|]. rewrite Hcached.
  apply bool_decide_eq_false. unfold invalidateCache. cbn.
  rewrite lookup_delete_eq. intros [x Hx]. discriminate.
Qed.

End CacheRunFacts.

(** ** Watchers *)

Section WatcherFacts.
Import Js FileSystemService DirectoryReports.

(** [stopWatching] removes a watcher only when its [close()] succeeded: an
    unknown id is reported as not found and a watcher whose [close()] fails
    stays registered; after a successful stop the id is unknown, so its
    status is not found and stopping it again fails, while every other
    watcher is untouched.  [cleanupWatchers] forgets every watcher, also
    those it could not close, and counts only the closed ones. *)
Theorem watchers_registry (watchers : gmap string Watcher) (watcherId : string) :
  match watchers !! watcherId with
  | None => stopWatching watcherId watchers = (WatcherNotFound, watchers)
  | Some watcher =>
    match closeError watcher with
    | Some e =>
      stopWatching watcherId watchers = (StopFailed (handleWatchError e), watchers)
    | None =>
      exists remaining,
        stopWatching watcherId watchers = (Stopped watcherId, remaining)
        /\ getWatcherStatus watcherId remaining = StatusNotFound
        /\ fst (stopWatching watcherId remaining) = WatcherNotFound
        /\ (forall other, other <> watcherId ->
                          getWatcherStatus other remaining
                          = getWatcherStatus other watchers)
    end
  end
  /\ getWatcherStatus watcherId (snd (cleanupWatchers watchers)) = StatusNotFound
  /\ 0 <= fst (cleanupWatchers watchers) <= Z.of_nat (size watchers)
  /\ snd (pauseWatching watcherId watchers) = watchers.
Proof.
  split; [|split; [|split]].
  - unfold stopWatching.
    destruct (watchers !! watcherId) as [watcher|] eqn:Hw; [|reflexivity].
    destruct (closeError watcher) as [e|]; [reflexivity|].
    exists (delete watcherId watchers). split; [reflexivity|].
    unfold getWatcherStatus. rewrite lookup_delete_eq.
    split; [reflexivity|]. split; [reflexivity|].
    intros other Hother. now rewrite lookup_delete_ne.
  - unfold getWatcherStatus, cleanupWatchers. cbn [snd]. now rewrite lookup_empty.
  - unfold cleanupWatchers. cbn [fst]. split; [lia|].
    apply inj_le. rewrite <- length_map_to_list.
    apply filter_length_le.
  - reflexivity.
Qed.

End WatcherFacts.


(* ===================================================================== *)
(** ** [diffManifestData] *)

Section DiffFacts.
Import Js FileHelpers JsObject ManifestDiff.
Variable JSON_stringify : json -> string.

#[local] Abbreviation diffEntries' := (diffEntries JSON_stringify).
#[local] Abbreviation changed original key value :=
  (differs (stringifiedAt JSON_stringify key original) (Some (JSON_stringify value))).

Lemma get_assign (key key' : string) (value : json) (obj : list (string * json)) :
  get key (assign key' value obj) =
  if String.eqb key' key && negb (String.eqb key "__proto__")
  then Some value else get key obj.
Proof.
  unfold assign. destruct (String.eqb key' key) eqn:Hk; cbn [andb].
  - apply String.eqb_eq in Hk. subst key'.
    destruct (String.eqb key "__proto__"); cbn [negb]; [reflexivity|].
    apply get_set_same.
  - apply String.eqb_neq in Hk.
    destruct (String.eqb key' "__proto__"); [reflexivity|].
    apply get_set_other. congruence.
Qed.

Lemma get_all_None (obj : list (string * json)) :
  (forall key, get key obj = None) -> obj = [].
Proof.
  destruct obj as [|[k v] rest]; [reflexivity|].
  intros H. specialize (H k). cbn in H. now rewrite String.eqb_refl in H.
Qed.

Lemma get_cons (key k : string) (v : json) (rest : list (string * json)) :
  get key ((k, v) :: rest) = if String.eqb k key then Some v else get key rest.
Proof. reflexivity. Qed.

(** What the first loop leaves at each key. *)
Lemma diffEntries_lookup (originalData entries : list (string * json)) :
  List.NoDup (map fst entries) ->
  forall added modified key,
    get key (fst (diffEntries' originalData entries added modified))
    = match get key entries with
      | Some value =>
        if negb (hasProperty key originalData) && negb (String.eqb key "__proto__")
        then Some value else get key added
      | None => get key added
      end
    /\ get key (snd (diffEntries' originalData entries added modified))
       = match get key entries with
         | Some value =>
           if hasProperty key originalData && changed originalData key value
              && negb (String.eqb key "__proto__")
           then Some value else get key modified
         | None => get key modified
         end.
Proof.
  induction entries as [|[k v] rest IH]; intros Hnodup added modified key.
  - split; reflexivity.
  - cbn [map fst] in Hnodup. apply NoDup_cons_iff in Hnodup as [Hfresh Hnodup].
    cbn [diffEntries]. rewrite get_cons.
    destruct (String.eqb k key) eqn:Hk.
    + apply String.eqb_eq in Hk. subst k.
      pose proof (not_key_get_None key rest Hfresh) as Hrest.
      destruct (hasProperty key originalData) eqn:Hhas; cbn [negb andb].
      * destruct (changed originalData key v) eqn:Hch; cbn [andb].
        -- destruct (IH Hnodup added (assign key v modified) key) as [Ha Hm].
           rewrite Ha, Hm, Hrest. split; [reflexivity|].
           rewrite get_assign, String.eqb_refl. reflexivity.
        -- destruct (IH Hnodup added modified key) as [Ha Hm].
           rewrite Ha, Hm, Hrest. split; reflexivity.
      * destruct (IH Hnodup (assign key v added) modified key) as [Ha Hm].
        rewrite Ha, Hm, Hrest. split; [|reflexivity].
        rewrite get_assign, String.eqb_refl. reflexivity.
    + assert (Hother : forall obj, get key (assign k v obj) = get key obj).
      { intros obj. rewrite get_assign, Hk. reflexivity. }
      destruct (hasProperty k originalData); cbn [negb].
      * destruct (changed originalData k v).
        -- destruct (IH Hnodup added (assign k v modified) key) as [Ha Hm].
           rewrite Ha, Hm, Hother. split; reflexivity.
        -- apply IH. exact Hnodup.
      * destruct (IH Hnodup (assign k v added) modified key) as [Ha Hm].
        rewrite Ha, Hm, Hother. split; reflexivity.
Qed.

(** What the second loop leaves at each key. *)
Lemma diffKeys_lookup (originalData modifiedData entries : list (string * json)) :
  forall removed key,
    get key (diffKeys originalData modifiedData entries removed)
    = match get key entries, get key originalData with
      | Some _, Some original =>
        if negb (hasProperty key modifiedData) && negb (String.eqb key "__proto__")
        then Some original else get key removed
      | _, _ => get key removed
      end.
Proof.
  induction entries as [|[k v] rest IH]; intros removed key; [reflexivity|].
  cbn [diffKeys]. rewrite get_cons.
  destruct (String.eqb k key) eqn:Hk.
  - apply String.eqb_eq in Hk. subst k.
    destruct (hasProperty key modifiedData) eqn:Hhas; cbn [negb andb].
    + rewrite IH, Hhas. cbn [negb andb].
      destruct (get key rest), (get key originalData); reflexivity.
    + rewrite IH, Hhas. cbn [negb andb].
      destruct (get key originalData) as [original|] eqn:Horig.
      * rewrite get_assign, String.eqb_refl. cbn [andb].
        destruct (get key rest); destruct (String.eqb key "__proto__"); reflexivity.
      * destruct (get key rest); reflexivity.
  - destruct (hasProperty k modifiedData); cbn [negb]; rewrite IH; [reflexivity|].
    destruct (get k originalData) as [original|]; [|reflexivity].
    rewrite get_assign, Hk. reflexivity.
Qed.

Lemma inherited_proto : inherited "__proto__" = true.
Proof. reflexivity. Qed.

Lemma hasProperty_proto (obj : list (string * json)) :
  hasProperty "__proto__" obj = true.
Proof. unfold hasProperty. destruct (get "__proto__" obj); reflexivity. Qed.

Lemma differs_same (a : option string) : differs a a = false.
Proof. destruct a; cbn; [now rewrite String.eqb_refl|reflexivity]. Qed.

(** The three parts of a diff, key by key.  A key counts as present in
    an object when it is an own property or a name inherited from
    [Object.prototype]; a key that is present only in the modified data is
    added, one present only in the original data is removed, one present in
    both is modified when the two [JSON.stringify] results differ; and the
    diff of an object with itself is empty. *)
Theorem diffManifestData_splits_the_keys
        (originalData modifiedData : list (string * json)) :
  List.NoDup (map fst modifiedData) ->
  let diff := diffManifestData JSON_stringify originalData modifiedData in
  (forall key,
      get key (added diff)
      = (if hasProperty key originalData then None else get key modifiedData)
      /\ get key (removed diff)
         = (if hasProperty key modifiedData then None else get key originalData)
      /\ get key (modified diff)
         = match get key modifiedData with
           | Some value =>
             if hasProperty key originalData && changed originalData key value
                && negb (String.eqb key "__proto__")
             then Some value else None
           | None => None
           end)
  /\ diffManifestData JSON_stringify modifiedData modifiedData = mkDiff [] [] [].
Proof.
  intros Hnodup diff.
  assert (Hkeys : forall original key,
             let d := diffManifestData JSON_stringify original modifiedData in
             get key (added d)
             = (if hasProperty key original then None else get key modifiedData)
             /\ get key (removed d)
                = (if hasProperty key modifiedData then None else get key original)
             /\ get key (modified d)
                = match get key modifiedData with
                  | Some value =>
                    if hasProperty key original && changed original key value
                       && negb (String.eqb key "__proto__")
                    then Some value else None
                  | None => None
                  end).
  { intros original key. unfold diffManifestData.
    destruct (diffEntries_lookup original modifiedData Hnodup [] [] key) as [Ha Hm].
    destruct (diffEntries' original modifiedData [] []) as [a m].
    cbn [fst snd] in Ha, Hm. cbn [added modified removed ManifestDiff.added
                                   ManifestDiff.modified ManifestDiff.removed].
    repeat split.
    - rewrite Ha. cbn [get].
      destruct (get key modifiedData) as [value|] eqn:Hget.
      + destruct (hasProperty key original) eqn:Hhas; cbn [negb andb]; [reflexivity|].
        destruct (String.eqb key "__proto__") eqn:Hp; [|reflexivity].
        apply String.eqb_eq in Hp. subst key.
        now rewrite hasProperty_proto in Hhas.
      + destruct (hasProperty key original); reflexivity.
    - rewrite diffKeys_lookup. cbn [get].
      destruct (get key original) as [o|] eqn:Hget.
      + destruct (hasProperty key modifiedData) eqn:Hhas; cbn [negb andb];
          [reflexivity|].
        destruct (String.eqb key "__proto__") eqn:Hp; [|reflexivity].
        apply String.eqb_eq in Hp. subst key.
        now rewrite hasProperty_proto in Hhas.
      + destruct (hasProperty key modifiedData); reflexivity.
    - rewrite Hm. cbn [get]. destruct (get key modifiedData); [|reflexivity].
      reflexivity. }
  split; [exact (Hkeys originalData)|].
  assert (Hself : forall key,
             let d := diffManifestData JSON_stringify modifiedData modifiedData in
             get key (added d) = None /\ get key (removed d) = None
             /\ get key (modified d) = None).
  { intros key. destruct (Hkeys modifiedData key) as (Ha & Hr & Hm).
    cbn zeta in *. rewrite Ha, Hr, Hm.
    unfold hasProperty, stringifiedAt.
    destruct (get key modifiedData) as [value|]; [|destruct (inherited key); auto].
    rewrite differs_same. auto. }
  cbn zeta in Hself.
  destruct (diffManifestData JSON_stringify modifiedData modifiedData) as [a m r].
  cbn [ManifestDiff.added ManifestDiff.modified ManifestDiff.removed] in Hself.
  f_equal; apply get_all_None; intros key; apply (Hself key).
Qed.

End DiffFacts.

Lemma diffManifestData_splits_the_keys_witness :
  let diff := ManifestDiff.diffManifestData
                (fun v => match v with FileHelpers.JStr s => s | _ => "" end)
                [("name", FileHelpers.JStr "a"); ("version", FileHelpers.JStr "1")]
                [("name", FileHelpers.JStr "b"); ("constructor", FileHelpers.JStr "c")] in
  ManifestDiff.added diff = []
  /\ ManifestDiff.removed diff = [("version", FileHelpers.JStr "1")]
  /\ FileHelpers.get "constructor" (ManifestDiff.modified diff)
     = Some (FileHelpers.JStr "c").
Proof.
  pose proof (diffManifestData_splits_the_keys
                (fun v => match v with FileHelpers.JStr s => s | _ => "" end)
                [("name", FileHelpers.JStr "a"); ("version", FileHelpers.JStr "1")]
                [("name", FileHelpers.JStr "b"); ("constructor", FileHelpers.JStr "c")])
    as H.
  assert (Hnodup : List.NoDup (map fst [("name", FileHelpers.JStr "b");
                                        ("constructor", FileHelpers.JStr "c")])).
  { cbn. repeat constructor; cbn; intuition discriminate. }
  destruct (H Hnodup) as [Hkeys _].
  destruct (Hkeys "constructor") as (_ & _ & Hm).
  cbv zeta. split; [reflexivity|]. split; [reflexivity|].
  rewrite Hm. reflexivity.
Defined.

(* ===================================================================== *)
(** ** Backup and restore *)

Section BackupFacts.
Import Js ManifestDiff.

Lemma append_not_self (s t : string) : t <> "" -> s ++ t <> s.
Proof.
  intros Ht Heq. apply Ht.
  induction s as [|c s IH]; cbn in Heq; [exact Heq|].
  injection Heq as Heq. exact (IH Heq).
Qed.

(** A backup is a copy beside the file, under another path, and restoring
    it brings the content back whatever was written to the file meanwhile;
    a file that does not exist gives the wrapped error and an unchanged
    disk. *)
Theorem backup_then_restore_brings_back_the_content
        (now filePath : string) (disk : Disk) :
  match disk !! filePath with
  | Some content =>
    exists backupPath disk1,
    backupManifestFile now filePath disk = Returns (backupPath, disk1)
    /\ backupPath = filePath ++ ".backup." ++ dashed now
    /\ backupPath <> filePath
    /\ disk1 !! filePath = Some content
    /\ disk1 !! backupPath = Some content
    /\ forall overwritten,
        exists disk2,
          restoreManifestFile backupPath filePath (<[filePath := overwritten]> disk1)
          = Returns disk2
          /\ disk2 !! filePath = Some content
  | None =>
    exists reason,
    backupManifestFile now filePath disk
    = Throws (Error ("Failed to backup file " ++ filePath ++ ": " ++ reason))
  end.
Proof.
  destruct (disk !! filePath) as [content|] eqn:Hfile.
  - set (backupPath := filePath ++ ".backup." ++ dashed now).
    assert (Hne : backupPath <> filePath).
    { apply append_not_self. discriminate. }
    exists backupPath, (<[backupPath := content]> disk).
    unfold backupManifestFile, fs_copy. rewrite Hfile. cbn.
    repeat split; try assumption.
    + rewrite lookup_insert_ne by exact Hne. exact Hfile.
    + apply lookup_insert_eq.
    + intros overwritten. unfold restoreManifestFile, fs_copy.
      assert (Hcopy : <[filePath := overwritten]> (<[backupPath := content]> disk)
                      !! backupPath = Some content).
      { rewrite lookup_insert_ne by congruence. apply lookup_insert_eq. }
      rewrite Hcopy. cbn.
      eexists. split; [reflexivity|]. apply lookup_insert_eq.
  - eexists. unfold backupManifestFile, fs_copy. rewrite Hfile. cbn. reflexivity.
Qed.

End BackupFacts.

(* ===================================================================== *)
(** ** Schema compatibility *)

Section CompatibilityFacts.
Import Sanitizing.

Lemma includesField_In (fields : list string) (field : string) :
  includesField fields field = true <-> In field fields.
Proof.
  unfold includesField. rewrite existsb_exists. split.
  - intros (x & Hin & Heq). apply String.eqb_eq in Heq. now subst.
  - intros Hin. exists field. split; [exact Hin|apply String.eqb_refl].
Qed.

Lemma missing_nil (here there : list string) :
  List.filter (fun field => negb (includesField there field)) here = []
  <-> (forall field, In field here -> In field there).
Proof.
  induction here as [|f rest IH]; cbn.
  - split; [intros _ field []|reflexivity].
  - destruct (includesField there f) eqn:Hf; cbn [negb].
    + apply includesField_In in Hf. rewrite IH. split.
      * intros H field [<-|Hin]; [exact Hf|now apply H].
      * intros H field Hin. apply H. now right.
    + split; [discriminate|]. intros H.
      assert (Hin : In f there) by (apply H; now left).
      apply includesField_In in Hin. congruence.
Qed.

(** Two schemas are compatible exactly when they require the same
    fields; the verdict does not depend on which schema is the old one,
    and a migration is required exactly when they are not compatible. *)
Theorem validateSchemaCompatibility_same_required_fields
        (oldRequired newRequired : list string) :
  (compatible (validateSchemaCompatibility oldRequired newRequired) = true
   <-> forall field, In field oldRequired <-> In field newRequired)
  /\ compatible (validateSchemaCompatibility oldRequired newRequired)
     = compatible (validateSchemaCompatibility newRequired oldRequired)
  /\ migrationRequired (validateSchemaCompatibility oldRequired newRequired)
     = negb (compatible (validateSchemaCompatibility oldRequired newRequired))
  /\ breakingChanges (validateSchemaCompatibility oldRequired oldRequired) = [].
Proof.
  unfold validateSchemaCompatibility.
  cbn [compatible migrationRequired breakingChanges].
  set (addedFields := List.filter (fun f => negb (includesField oldRequired f)) newRequired).
  set (removedFields := List.filter (fun f => negb (includesField newRequired f)) oldRequired).
  assert (Hnone : (List.length addedFields + List.length removedFields = 0)%nat
                  <-> forall field, In field oldRequired <-> In field newRequired).
  { split.
    - intros H field.
      assert (Ha : addedFields = []) by (apply List.length_zero_iff_nil; lia).
      assert (Hr : removedFields = []) by (apply List.length_zero_iff_nil; lia).
      pose proof (proj1 (missing_nil newRequired oldRequired) Ha).
      pose proof (proj1 (missing_nil oldRequired newRequired) Hr).
      split; auto.
    - intros H.
      assert (Ha : addedFields = [])
        by (apply (proj2 (missing_nil newRequired oldRequired)); intros f; apply H).
      assert (Hr : removedFields = [])
        by (apply (proj2 (missing_nil oldRequired newRequired)); intros f; apply H).
      rewrite Ha, Hr. reflexivity. }
  split; [|split; [|split]].
  - rewrite Nat.eqb_eq, List.length_app, !List.length_map. exact Hnone.
  - rewrite !List.length_app, !List.length_map. f_equal. apply Nat.add_comm.
  - clear Hnone.
    match goal with
    | |- context [List.length (?a ++ ?b)%list] =>
      destruct (List.length (a ++ b)%list); reflexivity
    end.
  - assert (Hs : List.filter (fun f => negb (includesField oldRequired f)) oldRequired = [])
      by (apply (proj2 (missing_nil oldRequired oldRequired)); auto).
    rewrite Hs. reflexivity.
Qed.

End CompatibilityFacts.

(* ===================================================================== *)
(** ** Sanitizing *)

Section SanitizingFacts.
Import Js FileHelpers JsObject Sanitizing.

Lemma containsGt_cons (c : ascii) (s : string) :
  containsGt (String c s) = Ascii.eqb c ">" || containsGt s.
Proof.
  unfold containsGt. cbn [indexOfGt].
  destruct (Ascii.eqb c ">"); [reflexivity|].
  destruct (indexOfGt s); reflexivity.
Qed.

Lemma holdsTag_tail (c : ascii) (s : string) :
  holdsTag (String c s) = false -> holdsTag s = false.
Proof. cbn [holdsTag]. intros H. apply orb_false_iff in H. tauto. Qed.

Lemma stripTags_from_Gt (s : string) :
  forall skip, containsGt (stripTags_from skip s) = true -> containsGt s = true.
Proof.
  induction s as [|c rest IH]; intros skip; [cbn; discriminate|].
  rewrite containsGt_cons. cbn [stripTags_from].
  destruct skip as [|n].
  - destruct (Ascii.eqb c "<") eqn:Hlt.
    + destruct (indexOfGt rest) as [i|] eqn:Hgt.
      * intros _. unfold containsGt. rewrite Hgt. apply orb_true_r.
      * rewrite containsGt_cons. intros H. apply orb_true_iff in H as [H|H].
        -- now rewrite H.
        -- rewrite (IH _ H). apply orb_true_r.
    + rewrite containsGt_cons. intros H. apply orb_true_iff in H as [H|H].
      * now rewrite H.
      * rewrite (IH _ H). apply orb_true_r.
  - intros H. rewrite (IH _ H). apply orb_true_r.
Qed.

Lemma stripTags_from_no_tag (s : string) :
  forall skip, holdsTag (stripTags_from skip s) = false.
Proof.
  induction s as [|c rest IH]; intros skip; [reflexivity|].
  cbn [stripTags_from]. destruct skip as [|n]; [|apply IH].
  destruct (Ascii.eqb c "<") eqn:Hlt.
  - destruct (indexOfGt rest) as [i|] eqn:Hgt; [apply IH|].
    cbn [holdsTag]. rewrite IH, Hlt, orb_false_r. cbn [andb].
    destruct (containsGt (stripTags_from 0 rest)) eqn:Hc; [|reflexivity].
    apply stripTags_from_Gt in Hc. unfold containsGt in Hc.
    now rewrite Hgt in Hc.
  - cbn [holdsTag]. rewrite IH, Hlt. reflexivity.
Qed.

Lemma trimStart_no_tag (s : string) :
  holdsTag s = false -> holdsTag (TestSession.trimStart s) = false.
Proof.
  induction s as [|c rest IH]; [reflexivity|].
  intros H. cbn [TestSession.trimStart].
  destruct (TestSession.isWhiteSpace c); [|exact H].
  apply IH. exact (holdsTag_tail _ _ H).
Qed.

Lemma trimEnd_Gt (s : string) :
  containsGt (trimEnd s) = true -> containsGt s = true.
Proof.
  induction s as [|c rest IH]; [cbn; discriminate|].
  cbn [trimEnd]. rewrite containsGt_cons.
  destruct (trimEnd rest) as [|c' kept] eqn:Hrest.
  - destruct (TestSession.isWhiteSpace c); [cbn; discriminate|].
    rewrite containsGt_cons. intros H. apply orb_true_iff in H as [H|H];
      [now rewrite H|discriminate].
  - rewrite containsGt_cons. intros H. apply orb_true_iff in H as [H|H].
    + now rewrite H.
    + rewrite (IH H). apply orb_true_r.
Qed.

Lemma trimEnd_no_tag (s : string) :
  holdsTag s = false -> holdsTag (trimEnd s) = false.
Proof.
  induction s as [|c rest IH]; [reflexivity|].
  intros H. cbn [holdsTag] in H. apply orb_false_iff in H as [Hc Hrest].
  specialize (IH Hrest). cbn [trimEnd].
  destruct (trimEnd rest) as [|c' kept] eqn:Htrim.
  - destruct (TestSession.isWhiteSpace c); [reflexivity|].
    cbn. now rewrite andb_false_r.
  - cbn [holdsTag]. cbn [holdsTag] in IH. rewrite IH, orb_false_r.
    destruct (Ascii.eqb c "<"); [|reflexivity]. cbn [andb] in *.
    destruct (containsGt (String c' kept)) eqn:Hgt; [|reflexivity].
    rewrite <- Htrim in Hgt. apply trimEnd_Gt in Hgt. congruence.
Qed.

(** Whatever the input, the sanitized string holds no tag: no [<] of the
    result is followed, anywhere later, by a [>]. *)
Theorem sanitizeString_leaves_no_tag (str : string) :
  holdsTag (sanitizeString str) = false.
Proof.
  unfold sanitizeString, trim.
  apply trimEnd_no_tag, trimStart_no_tag, stripTags_from_no_tag.
Qed.

Lemma length_set_fresh (key : string) (value : json) (obj : list (string * json)) :
  get key obj = None -> List.length (set key value obj) = S (List.length obj).
Proof.
  induction obj as [|[k v] rest IH]; cbn; [reflexivity|].
  destruct (String.eqb k key); [discriminate|].
  intros H. cbn. now rewrite IH.
Qed.

(** The loop on entries with distinct ordinary keys. *)
Lemma sanitizeEntries_spec (allowed : list string) (entries : list (string * json)) :
  List.NoDup (map fst entries) ->
  ~ In "__proto__" (map fst entries) ->
  forall kept dropped,
    (forall key, In key (map fst entries) -> get key kept = None) ->
    let result := sanitizeEntries allowed entries kept dropped in
    (forall key,
        get key (fst result)
        = match get key entries with
          | Some value => if includesField allowed key then Some (cleaned value)
                          else get key kept
          | None => get key kept
          end)
    /\ snd result
       = (dropped ++ List.filter (fun key => negb (includesField allowed key))
                                 (map fst entries))%list
    /\ (List.length (fst result) + List.length (snd result)
        = List.length entries + List.length kept + List.length dropped)%nat.
Proof.
  induction entries as [|[k v] rest IH]; intros Hnodup Hproto kept dropped Hfresh.
  - cbn. rewrite app_nil_r. repeat split; lia.
  - cbn [map fst] in Hnodup, Hproto, Hfresh.
    apply NoDup_cons_iff in Hnodup as [Hk Hnodup].
    assert (Hkp : k <> "__proto__") by (intros ->; apply Hproto; now left).
    assert (Hproto' : ~ In "__proto__" (map fst rest))
      by (intros Hin; apply Hproto; now right).
    cbn [sanitizeEntries].
    destruct (includesField allowed k) eqn:Hallowed.
    + assert (Hassign : assign k (cleaned v) kept = set k (cleaned v) kept).
      { unfold assign. apply String.eqb_neq in Hkp. now rewrite Hkp. }
      rewrite Hassign.
      assert (Hfresh' : forall key, In key (map fst rest) ->
                                    get key (set k (cleaned v) kept) = None).
      { intros key Hin. rewrite get_set_other.
        - apply Hfresh. now right.
        - intros ->. contradiction. }
      destruct (IH Hnodup Hproto' (set k (cleaned v) kept) dropped Hfresh')
        as (Hget & Hdropped & Hlen).
      cbn zeta in *. repeat split.
      * intros key. rewrite Hget. cbn [get].
        destruct (String.eqb k key) eqn:Hkey.
        -- apply String.eqb_eq in Hkey. subst key.
           rewrite (not_key_get_None k rest Hk), Hallowed. apply get_set_same.
        -- apply String.eqb_neq in Hkey.
           rewrite get_set_other by congruence. reflexivity.
      * rewrite Hdropped. cbn [List.filter map fst]. rewrite Hallowed. reflexivity.
      * rewrite Hlen, length_set_fresh by (apply Hfresh; now left). cbn. lia.
    + assert (Hfresh' : forall key, In key (map fst rest) -> get key kept = None)
        by (intros key Hin; apply Hfresh; now right).
      destruct (IH Hnodup Hproto' kept (dropped ++ [k])%list Hfresh')
        as (Hget & Hdropped & Hlen).
      cbn zeta in *. repeat split.
      * intros key. rewrite Hget. cbn [get].
        destruct (String.eqb k key) eqn:Hkey; [|reflexivity].
        apply String.eqb_eq in Hkey. subst key.
        rewrite (not_key_get_None k rest Hk), Hallowed. reflexivity.
      * rewrite Hdropped. cbn [List.filter map fst]. rewrite Hallowed. cbn [negb].
        now rewrite <- app_assoc.
      * rewrite Hlen, List.length_app. cbn. lia.
Qed.

(** Sanitizing splits the properties of the data: a property the schema
    declares is kept, with a string value sanitized and any other value as
    it is; every other property is dropped and named, in order, in
    [removedFields]; the two counts add up to the number of properties; and
    a schema without [properties] drops everything. *)
Theorem sanitizeManifestData_splits_the_properties
        (data : list (string * json)) (properties : option (list string)) :
  List.NoDup (map fst data) ->
  ~ In "__proto__" (map fst data) ->
  let result := sanitizeManifestData data properties in
  let allowed := default [] properties in
  (forall key,
      get key (sanitized result)
      = if includesField allowed key then option_map cleaned (get key data) else None)
  /\ removedFields result
     = List.filter (fun key => negb (includesField allowed key)) (map fst data)
  /\ (sanitizedCount result + removedCount result = Z.of_nat (List.length data))%Z
  /\ (properties = None ->
      sanitized result = [] /\ removedFields result = map fst data).
Proof.
  intros Hnodup Hproto result allowed.
  destruct (sanitizeEntries_spec allowed data Hnodup Hproto [] [] (fun _ _ => eq_refl))
    as (Hget & Hdropped & Hlen).
  cbn zeta in *. subst result. unfold sanitizeManifestData. fold allowed.
  destruct (sanitizeEntries allowed data [] []) as [kept dropped].
  cbn [fst snd] in *. cbn [sanitized removedFields sanitizedCount removedCount].
  assert (Hkeys : forall key,
             get key kept
             = if includesField allowed key then option_map cleaned (get key data)
               else None).
  { intros key. rewrite Hget. cbn [get].
    destruct (get key data); destruct (includesField allowed key); reflexivity. }
  repeat split.
  - exact Hkeys.
  - exact Hdropped.
  - cbn in Hlen. lia.
  - apply get_all_None. intros key. rewrite Hkeys. subst allowed. now rewrite H.
  - rewrite Hdropped. subst allowed. rewrite H. cbn.
    clear. induction (map fst data) as [|k rest IH]; cbn; [reflexivity|].
    now rewrite IH.
Qed.

End SanitizingFacts.

Lemma sanitizeManifestData_splits_the_properties_witness :
  let result := Sanitizing.sanitizeManifestData
                  [("name", FileHelpers.JStr " <b>x</b> "); ("evil", FileHelpers.JNull)]
                  (Some ["name"; "version"]) in
  Sanitizing.removedFields result = ["evil"]
  /\ (Sanitizing.sanitizedCount result + Sanitizing.removedCount result = 2)%Z.
Proof.
  assert (Hnodup : List.NoDup (map fst [("name", FileHelpers.JStr " <b>x</b> ");
                                        ("evil", FileHelpers.JNull)])).
  { cbn. repeat constructor; cbn; intuition discriminate. }
  assert (Hproto : ~ In "__proto__" (map fst [("name", FileHelpers.JStr " <b>x</b> ");
                                              ("evil", FileHelpers.JNull)])).
  { cbn. intuition discriminate. }
  destruct (sanitizeManifestData_splits_the_properties
              [("name", FileHelpers.JStr " <b>x</b> "); ("evil", FileHelpers.JNull)]
              (Some ["name"; "version"]) Hnodup Hproto) as (_ & Hr & Hc & _).
  split; [exact Hr|exact Hc].
Defined.


(* ===================================================================== *)
(** ** The models *)

Section BaseModelFacts.
Import Js FileHelpers JsObject BaseModel.

Lemma has_assign (key k : string) (v : json) (data : list (string * json)) :
  has key (assign k v data) = String.eqb k key || has key data.
Proof.
  unfold has, hasProperty. rewrite get_assign.
  destruct (String.eqb k key) eqn:Hk; cbn [andb orb]; [|reflexivity].
  destruct (String.eqb key "__proto__") eqn:Hp; cbn [negb]; [|reflexivity].
  apply String.eqb_eq in Hp. subst key.
  destruct (get "__proto__" data); reflexivity.
Qed.

Lemma has_update (key : string) (updates data : list (string * json)) :
  has key (update updates data)
  = existsb (fun entry => String.eqb (fst entry) key) updates || has key data.
Proof.
  unfold update. revert data.
  induction updates as [|[k v] rest IH]; intros data; [reflexivity|].
  cbn [fold_left existsb fst snd]. rewrite IH, has_assign.
  destruct (String.eqb k key), (existsb _ rest); reflexivity.
Qed.

Lemma get_Some_existsb (key : string) (entries : list (string * json)) :
  get key entries <> None ->
  existsb (fun entry => String.eqb (fst entry) key) entries = true.
Proof.
  induction entries as [|[k v] rest IH]; cbn; [congruence|].
  destruct (String.eqb k key); [reflexivity|exact IH].
Qed.

(** The two readings of the required fields agree: a model has its
    required fields exactly when none is missing; a name every object
    inherits is never missing; and an update that brings every missing
    field (and leaves the prototype of the data alone) makes the model have
    its required fields. *)
Theorem hasRequiredFields_iff_nothing_missing
        (required : option (list string)) (data : list (string * json)) :
  (hasRequiredFields required data = true
   <-> getMissingRequiredFields required data = [])
  /\ (forall field, In field (getMissingRequiredFields required data) ->
                    get field data = None /\ inherited field = false)
  /\ (forall updates,
         get "__proto__" updates = None ->
         (forall field, In field (getMissingRequiredFields required data) ->
                        get field updates <> None) ->
         hasRequiredFields required (update updates data) = true).
Proof.
  destruct required as [fields|]; cbn [hasRequiredFields getMissingRequiredFields].
  2:{ split; [split; reflexivity|]. split; [intros field []|reflexivity]. }
  split; [|split].
  - rewrite forallb_forall. split.
    + intros H. induction fields as [|f rest IH]; [reflexivity|].
      cbn. rewrite (H f) by now left. cbn. apply IH.
      intros x Hx. apply H. now right.
    + intros H x Hx.
      destruct (has x data) eqn:Hhas; [reflexivity|].
      assert (Hin : In x (List.filter (fun field => negb (has field data)) fields)).
      { apply filter_In. split; [exact Hx|now rewrite Hhas]. }
      rewrite H in Hin. destruct Hin.
  - intros field Hin. apply filter_In in Hin as [_ Hmissing].
    unfold has, hasProperty in Hmissing.
    destruct (get field data); [discriminate|].
    destruct (inherited field); [discriminate|]. split; reflexivity.
  - intros updates _ Hbrings. apply forallb_forall. intros field Hin.
    rewrite has_update.
    destruct (has field data) eqn:Hhas; [apply orb_true_r|].
    rewrite get_Some_existsb; [reflexivity|].
    apply Hbrings. apply filter_In. split; [exact Hin|now rewrite Hhas].
Qed.

End BaseModelFacts.

Section TestCharterFacts.
Import Js FileHelpers BaseModel TestCharter.

Lemma getDocumentReferences_set (references : list string) (c : TestCharter.t) :
  getDocumentReferences (setDocumentReferences references c) = references.
Proof. reflexivity. Qed.

Lemma NoDup_snoc (items : list string) (x : string) :
  List.NoDup items -> ~ In x items -> List.NoDup (items ++ [x]).
Proof.
  induction items as [|y rest IH]; cbn; intros Hnodup Hfresh.
  - repeat constructor. intros [].
  - apply NoDup_cons_iff in Hnodup as [Hy Hrest]. constructor.
    + rewrite in_app_iff. cbn. intros [H|[H|[]]]; [contradiction|].
      apply Hfresh. now left.
    + apply IH; [exact Hrest|]. intros H. apply Hfresh. now right.
Qed.

Lemma includesField_app (items : list string) (x y : string) :
  Sanitizing.includesField (items ++ [y]) x
  = Sanitizing.includesField items x || String.eqb x y.
Proof.
  unfold Sanitizing.includesField. rewrite existsb_app. cbn.
  now rewrite orb_false_r.
Qed.

Lemma indexOf_includes (x : string) (items : list string) :
  indexOf x items = None <-> Sanitizing.includesField items x = false.
Proof.
  unfold Sanitizing.includesField.
  induction items as [|y rest IH]; cbn; [tauto|].
  rewrite (String.eqb_sym x y).
  destruct (String.eqb y x); cbn.
  - split; discriminate.
  - rewrite <- IH. destruct (indexOf x rest); cbn; split; congruence.
Qed.

Lemma splice_indexOf (x : string) (items : list string) (index : nat) :
  indexOf x items = Some index -> splice index items = removeFirst x items.
Proof.
  revert index. induction items as [|y rest IH]; intros index; cbn; [discriminate|].
  destruct (String.eqb y x).
  - intros [= <-]. reflexivity.
  - destruct (indexOf x rest) as [i|]; cbn; [|discriminate].
    intros [= <-]. cbn. f_equal. now apply IH.
Qed.

Lemma removeFirst_app_fresh (x : string) (items : list string) :
  Sanitizing.includesField items x = false ->
  removeFirst x (items ++ [x]) = items.
Proof.
  unfold Sanitizing.includesField.
  induction items as [|y rest IH]; cbn.
  - now rewrite String.eqb_refl.
  - rewrite (String.eqb_sym x y). destruct (String.eqb y x); cbn; [discriminate|].
    intros H. f_equal. now apply IH.
Qed.

Lemma removeFirst_In (x y : string) (items : list string) :
  In y (removeFirst x items) -> In y items.
Proof.
  induction items as [|z rest IH]; cbn; [tauto|].
  destruct (String.eqb z x); cbn; [tauto|]. intros [H|H]; [now left|right; auto].
Qed.

Lemma removeFirst_NoDup (x : string) (items : list string) :
  List.NoDup items ->
  List.NoDup (removeFirst x items) /\ ~ In x (removeFirst x items).
Proof.
  induction items as [|y rest IH]; cbn; intros Hnodup.
  - split; [constructor|tauto].
  - apply NoDup_cons_iff in Hnodup as [Hy Hrest].
    destruct (String.eqb y x) eqn:Hyx.
    + apply String.eqb_eq in Hyx. subst y. split; assumption.
    + apply String.eqb_neq in Hyx. destruct (IH Hrest) as [Hn Hx].
      split.
      * constructor; [|exact Hn]. intros Hin. apply Hy.
        exact (removeFirst_In _ _ _ Hin).
      * cbn. intros [H|H]; [congruence|contradiction].
Qed.

Lemma removeFirst_count (x : string) (items : list string) :
  forall y,
    count_occ String.string_dec (removeFirst x items) y
    = if String.eqb y x
      then Nat.pred (count_occ String.string_dec items y)
      else count_occ String.string_dec items y.
Proof.
  intros y. induction items as [|z rest IH]; cbn.
  - now destruct (String.eqb y x).
  - destruct (String.eqb z x) eqn:Hzx.
    + apply String.eqb_eq in Hzx. subst z.
      destruct (String.string_dec x y) as [->|Hne].
      * now rewrite String.eqb_refl.
      * destruct (String.eqb y x) eqn:Hyx; [|reflexivity].
        apply String.eqb_eq in Hyx. congruence.
    + apply String.eqb_neq in Hzx. cbn.
      destruct (String.string_dec z y) as [->|Hne].
      * rewrite IH. destruct (String.eqb y x) eqn:Hyx; [|reflexivity].
        apply String.eqb_eq in Hyx. congruence.
      * exact IH.
Qed.

(** The document references of a charter behave as a set under adding,
    and removing takes one occurrence away.  After adding, the url is
    among the references, and adding it again changes nothing; removing
    takes away the first occurrence of the url and no more; references
    without duplicates stay so, and then the removed url is gone; removing
    a url just added to references that did not hold it gives them back. *)
Theorem document_references_add_and_remove (url : string) (c : TestCharter.t) :
  Sanitizing.includesField (getDocumentReferences (addDocumentReference url c)) url = true
  /\ addDocumentReference url (addDocumentReference url c) = addDocumentReference url c
  /\ (forall other,
         count_occ String.string_dec
                   (getDocumentReferences (removeDocumentReference url c)) other
         = if String.eqb other url
           then Nat.pred (count_occ String.string_dec (getDocumentReferences c) other)
           else count_occ String.string_dec (getDocumentReferences c) other)
  /\ (List.NoDup (getDocumentReferences c) ->
      List.NoDup (getDocumentReferences (addDocumentReference url c))
      /\ List.NoDup (getDocumentReferences (removeDocumentReference url c))
      /\ ~ In url (getDocumentReferences (removeDocumentReference url c)))
  /\ (Sanitizing.includesField (getDocumentReferences c) url = false ->
      getDocumentReferences (removeDocumentReference url (addDocumentReference url c))
      = getDocumentReferences c).
Proof.
  assert (Hadd : Sanitizing.includesField
                   (getDocumentReferences (addDocumentReference url c)) url = true).
  { unfold addDocumentReference.
    destruct (Sanitizing.includesField (getDocumentReferences c) url) eqn:Hin;
      cbn [negb]; [exact Hin|].
    rewrite getDocumentReferences_set.
    rewrite includesField_app, String.eqb_refl. apply orb_true_r. }
  assert (Hremove : getDocumentReferences (removeDocumentReference url c)
                    = removeFirst url (getDocumentReferences c)).
  { unfold removeDocumentReference.
    destruct (indexOf url (getDocumentReferences c)) as [index|] eqn:Hindex.
    - rewrite getDocumentReferences_set. now apply splice_indexOf.
    - apply indexOf_includes in Hindex. symmetry.
      unfold Sanitizing.includesField in Hindex.
      induction (getDocumentReferences c) as [|y rest IH]; [reflexivity|].
      cbn in *. rewrite (String.eqb_sym url y) in Hindex.
      destruct (String.eqb y url); cbn in *; [discriminate|].
      f_equal. now apply IH. }
  split; [exact Hadd|]. split; [|split; [|split]].
  - unfold addDocumentReference at 1. now rewrite Hadd.
  - intros other. rewrite Hremove. apply removeFirst_count.
  - intros Hnodup. split; [|rewrite Hremove; now apply removeFirst_NoDup].
    unfold addDocumentReference.
    destruct (Sanitizing.includesField (getDocumentReferences c) url) eqn:Hin;
      cbn [negb]; [exact Hnodup|].
    rewrite getDocumentReferences_set.
    apply NoDup_snoc; [exact Hnodup|].
    intros Hx. apply includesField_In in Hx. congruence.
  - intros Hfresh.
    assert (Hc : getDocumentReferences (addDocumentReference url c)
                 = (getDocumentReferences c ++ [url])%list).
    { unfold addDocumentReference. rewrite Hfresh. reflexivity. }
    unfold removeDocumentReference.
    destruct (indexOf url (getDocumentReferences (addDocumentReference url c)))
      as [index|] eqn:Hindex.
    + rewrite getDocumentReferences_set.
      rewrite (splice_indexOf _ _ _ Hindex), Hc.
      now apply removeFirst_app_fresh.
    + apply indexOf_includes in Hindex. congruence.
Qed.

(** A charter is ready for execution, read as a condition, exactly when
    nothing is missing; what [isReadyForExecution] returns then is the
    mission itself, so it is the boolean [true] only for a mission that is
    [true]; and a timebox that is not a positive number counts as
    missing. *)
Theorem isReadyForExecution_returns_the_mission (c : TestCharter.t) :
  (truthyProperty (isReadyForExecution c) = true
   <-> getMissingExecutionElements c = [])
  /\ (getMissingExecutionElements c = [] -> isReadyForExecution c = getMission c)
  /\ (isReadyForExecution c = Some (JBool true) -> getMission c = Some (JBool true))
  /\ (In "timebox" (getMissingExecutionElements c)
      <-> match getTimebox c with
          | TestReport.VNumber x => PrimFloat.ltb 0%float x = false
          | _ => True
          end).
Proof.
  assert (Htimebox : hasTimebox c = false
                     <-> match getTimebox c with
                         | TestReport.VNumber x => PrimFloat.ltb 0%float x = false
                         | _ => True
                         end).
  { unfold hasTimebox. destruct (getTimebox c); tauto. }
  unfold isReadyForExecution, getMissingExecutionElements.
  rewrite <- Htimebox. clear Htimebox.
  destruct (hasTester c), (hasTimebox c), (hasScope c);
    destruct (truthyProperty (getMission c)) eqn:Hm; cbn [negb app];
      (split; [|split; [|split]]);
      try rewrite Hm; cbn;
        try (split; intros; try discriminate; try tauto; congruence);
        try (intros; try discriminate; try tauto; congruence);
        try (intuition discriminate).
Qed.

End TestCharterFacts.

Section TestReportFacts.
Import Js FileHelpers BaseModel TestReportFindings.

(** A report is complete, read as a condition, exactly when nothing is
    missing; what [isComplete] returns then is the summary itself, so it
    is the boolean [true] only for a summary that is [true]; a report
    with author and date but no title returns the missing title. *)
Theorem isComplete_returns_the_summary (r : TestReportFindings.t) :
  (truthyProperty (isComplete r) = true <-> getMissingCompletionElements r = [])
  /\ (getMissingCompletionElements r = [] -> isComplete r = getSummary r)
  /\ (isComplete r = Some (JBool true) -> getSummary r = Some (JBool true))
  /\ (hasAuthor r = true -> hasDate r = true ->
      truthyProperty (getTitle r) = false -> isComplete r = getTitle r).
Proof.
  unfold isComplete, getMissingCompletionElements.
  destruct (hasAuthor r), (hasDate r);
    destruct (truthyProperty (getTitle r)) eqn:Ht;
    destruct (truthyProperty (getSummary r)) eqn:Hs;
    cbn; repeat split; try discriminate; try tauto; try congruence;
      try (intros H; rewrite H in Ht; cbn in Ht; congruence).
Qed.

Lemma counter_increment (name key : string) (counts : Counts) :
  counter key (increment name counts)
  = if String.eqb key name then option_map (Z.add 1) (counter key counts)
    else counter key counts.
Proof.
  induction counts as [|[k n] rest IH]; cbn.
  - now destruct (String.eqb key name).
  - destruct (String.eqb k name) eqn:Hkn; cbn.
    + apply String.eqb_eq in Hkn. subst k.
      destruct (String.eqb name key) eqn:Hnk.
      * apply String.eqb_eq in Hnk. subst key. rewrite String.eqb_refl. cbn.
        f_equal. lia.
      * rewrite (String.eqb_sym key name), Hnk. reflexivity.
    + destruct (String.eqb k key) eqn:Hkk.
      * apply String.eqb_eq in Hkk. subst k.
        rewrite Hkn. reflexivity.
      * exact IH.
Qed.

Lemma hasOwnProperty_increment (name : option string) (other : string)
      (counts : Counts) :
  hasOwnProperty name (increment other counts) = hasOwnProperty name counts.
Proof.
  destruct name as [s|]; [|reflexivity]. cbn.
  induction counts as [|[k n] rest IH]; cbn; [reflexivity|].
  destruct (String.eqb k other); cbn; [reflexivity|]. now rewrite IH.
Qed.

Lemma hasOwnProperty_counter (s : string) (counts : Counts) :
  hasOwnProperty (Some s) counts = true <-> counter s counts <> None.
Proof.
  cbn. induction counts as [|[k n] rest IH]; cbn; [split; congruence|].
  destruct (String.eqb k s); cbn; [split; congruence|exact IH].
Qed.

(** The counter of a name after the loop. *)
Lemma countInto_counter (read : Finding -> option string) (name : string)
      (items : list Finding) :
  forall counts,
    counter name (countInto read counts items)
    = option_map
        (Z.add (Z.of_nat (List.length
                            (List.filter (fun finding => sameAs name (read finding)) items))))
        (counter name counts).
Proof.
  unfold countInto.
  induction items as [|finding rest IH]; intros counts.
  - cbn. destruct (counter name counts); reflexivity.
  - cbn [fold_left List.filter]. rewrite IH. clear IH.
    destruct (read finding) as [s|] eqn:Hread; cbn [sameAs];
      [change (default "" (Some s)) with s|].
    + destruct (hasOwnProperty (Some s) counts) eqn:Hown.
      * rewrite counter_increment. rewrite (String.eqb_sym name s).
        destruct (String.eqb s name) eqn:Hsn.
        -- destruct (counter name counts); cbn; [|reflexivity].
           f_equal. lia.
        -- reflexivity.
      * destruct (String.eqb s name) eqn:Hsn; [|reflexivity].
        apply String.eqb_eq in Hsn. subst s.
        destruct (counter name counts) eqn:Hc; [|reflexivity].
        assert (Hown' : hasOwnProperty (Some name) counts = true)
          by (apply hasOwnProperty_counter; congruence).
        congruence.
    + reflexivity.
Qed.

Lemma filter_length_cons {A : Type} (p : A -> bool) (x : A) (items : list A) :
  List.length (List.filter p (x :: items))
  = ((if p x then 1 else 0) + List.length (List.filter p items))%nat.
Proof. cbn. destruct (p x); reflexivity. Qed.

(** A severity is one of the four levels or none of them. *)
Lemma one_severity (level : option string) :
  ((if sameAs "low" level then 1 else 0)
   + (if sameAs "medium" level then 1 else 0)
   + (if sameAs "high" level then 1 else 0)
   + (if sameAs "critical" level then 1 else 0)
   + (if negb (hasOwnProperty level [("low", 0%Z); ("medium", 0%Z); ("high", 0%Z);
                                     ("critical", 0%Z)])
      then 1 else 0) = 1)%nat.
Proof.
  destruct level as [s|]; [|reflexivity].
  cbn [sameAs hasOwnProperty existsb fst].
  destruct (String.eqb s "low") eqn:H1;
    [apply String.eqb_eq in H1; subst s; reflexivity|].
  destruct (String.eqb s "medium") eqn:H2;
    [apply String.eqb_eq in H2; subst s; reflexivity|].
  destruct (String.eqb s "high") eqn:H3;
    [apply String.eqb_eq in H3; subst s; reflexivity|].
  destruct (String.eqb s "critical") eqn:H4;
    [apply String.eqb_eq in H4; subst s; reflexivity|].
  rewrite (String.eqb_sym "low" s), H1, (String.eqb_sym "medium" s), H2,
    (String.eqb_sym "high" s), H3, (String.eqb_sym "critical" s), H4.
  reflexivity.
Qed.

(** Each of the four severity counters is the number of findings
    [getFindingsBySeverity] returns for that level, each of the four
    status counters the number [getFindingsByStatus] returns; no other
    name is counted, so findings of another or of no severity make the
    counters add up to less than the total. *)
Theorem findings_counts_agree_with_the_filters (r : TestReportFindings.t) :
  (forall level,
      counter level (getFindingsCountBySeverity r)
      = if Sanitizing.includesField ["low"; "medium"; "high"; "critical"] level
        then Some (Z.of_nat (List.length (getFindingsBySeverity level r)))
        else None)
  /\ (forall state,
         counter state (getFindingsCountByStatus r)
         = if Sanitizing.includesField ["open"; "closed"; "reopened"; "deferred"] state
           then Some (Z.of_nat (List.length (getFindingsByStatus state r)))
           else None)
  /\ (Z.of_nat (List.length (getFindingsBySeverity "low" r))
      + Z.of_nat (List.length (getFindingsBySeverity "medium" r))
      + Z.of_nat (List.length (getFindingsBySeverity "high" r))
      + Z.of_nat (List.length (getFindingsBySeverity "critical" r))
      = getTotalFindingsCount r
        - Z.of_nat (List.length
                      (List.filter
                         (fun finding =>
                            negb (hasOwnProperty (severity finding)
                                    [("low", 0); ("medium", 0); ("high", 0);
                                     ("critical", 0)]))
                         (getFindings r))))%Z.
Proof.
  split; [|split].
  - intros level. unfold getFindingsCountBySeverity, getFindingsBySeverity.
    rewrite countInto_counter. unfold Sanitizing.includesField.
    cbn [counter existsb]. rewrite !(String.eqb_sym level).
    destruct (String.eqb "low" level); [cbn [orb option_map]; f_equal; lia|].
    destruct (String.eqb "medium" level); [cbn [orb option_map]; f_equal; lia|].
    destruct (String.eqb "high" level); [cbn [orb option_map]; f_equal; lia|].
    destruct (String.eqb "critical" level); [cbn [orb option_map]; f_equal; lia|].
    reflexivity.
  - intros state. unfold getFindingsCountByStatus, getFindingsByStatus.
    rewrite countInto_counter. unfold Sanitizing.includesField.
    cbn [counter existsb]. rewrite !(String.eqb_sym state).
    destruct (String.eqb "open" state); [cbn [orb option_map]; f_equal; lia|].
    destruct (String.eqb "closed" state); [cbn [orb option_map]; f_equal; lia|].
    destruct (String.eqb "reopened" state); [cbn [orb option_map]; f_equal; lia|].
    destruct (String.eqb "deferred" state); [cbn [orb option_map]; f_equal; lia|].
    reflexivity.
  - unfold getFindingsBySeverity, getTotalFindingsCount.
    induction (getFindings r) as [|finding rest IH]; [reflexivity|].
    rewrite !filter_length_cons. cbn [List.length].
    pose proof (one_severity (severity finding)) as Hone. lia.
Qed.

Lemma splice_length_app {A : Type} (items : list A) (x : A) :
  splice (List.length items) (items ++ [x]) = items.
Proof.
  induction items as [|y rest IH]; [reflexivity|]. cbn. now rewrite IH.
Qed.

Lemma splice_length {A : Type} (index : nat) (items : list A) :
  (index < List.length items)%nat ->
  List.length (splice index items) = Nat.pred (List.length items).
Proof.
  revert index. induction items as [|y rest IH]; intros index; cbn; [lia|].
  destruct index as [|i]; [reflexivity|].
  intros H. cbn. rewrite IH by lia. destruct rest; cbn in *; lia.
Qed.

Lemma getFindings_set (items : list Finding) (r : TestReportFindings.t) :
  getFindings (setFindings items r) = items.
Proof. reflexivity. Qed.

(** Adding a finding puts it last and raises the total by one; removing
    at an index outside the findings changes nothing; removing at an index
    within them lowers the total by one; and removing at the old total
    right after adding gives the findings back. *)
Theorem addFinding_removeFinding_round_trip
        (finding : Finding) (r : TestReportFindings.t) :
  getFindings (addFinding finding r) = (getFindings r ++ [finding])%list
  /\ getTotalFindingsCount (addFinding finding r) = getTotalFindingsCount r + 1
  /\ getFindings (removeFinding (getTotalFindingsCount r) (addFinding finding r))
     = getFindings r
  /\ (forall index,
         getTotalFindingsCount (removeFinding index r)
         = if (0 <=? index) && (index <? getTotalFindingsCount r)
           then getTotalFindingsCount r - 1
           else getTotalFindingsCount r)
  /\ (forall index,
         (0 <=? index) && (index <? getTotalFindingsCount r) = false ->
         removeFinding index r = r).
Proof.
  assert (Hadd : getFindings (addFinding finding r)
                 = (getFindings r ++ [finding])%list) by reflexivity.
  split; [exact Hadd|]. split; [|split; [|split]].
  - unfold getTotalFindingsCount. rewrite Hadd, List.length_app. cbn. lia.
  - unfold removeFinding, getTotalFindingsCount. rewrite Hadd, List.length_app.
    cbn [List.length].
    assert (Hrange : (0 <=? Z.of_nat (List.length (getFindings r)))
                     && (Z.of_nat (List.length (getFindings r))
                         <? Z.of_nat (List.length (getFindings r) + 1)) = true).
    { apply andb_true_iff. split; [apply Z.leb_le|apply Z.ltb_lt]; lia. }
    rewrite Hrange, getFindings_set, Nat2Z.id. apply splice_length_app.
  - intros index. unfold removeFinding, getTotalFindingsCount.
    destruct ((0 <=? index) && (index <? Z.of_nat (List.length (getFindings r))))
             eqn:Hrange; [|reflexivity].
    apply andb_true_iff in Hrange as [Hlo Hhi].
    apply Z.leb_le in Hlo. apply Z.ltb_lt in Hhi.
    rewrite getFindings_set, splice_length by lia.
    destruct (getFindings r); cbn [List.length] in *; lia.
  - intros index Hout. unfold removeFinding.
    unfold getTotalFindingsCount in Hout. now rewrite Hout.
Qed.

End TestReportFacts.

Section TestSessionDurationFacts.
Import TestSessionDuration.

Lemma roundToMinutes_positive (diffMs : Z) :
  (0 <? TestSession.roundToMinutes diffMs) = (30000 <=? diffMs).
Proof.
  unfold TestSession.roundToMinutes.
  destruct (30000 <=? diffMs) eqn:H.
  - apply Z.ltb_lt. apply Z.leb_le in H.
    apply Z.div_str_pos. lia.
  - apply Z.ltb_ge. apply Z.leb_gt in H.
    assert ((diffMs + 30000) / 60000 < 1); [|lia].
    apply Z.div_lt_upper_bound; lia.
Qed.

(** After [autoCalculateDuration] a session has a duration exactly when
    both times are read, both dates are valid and the end is at least
    thirty seconds after the start; when a time is not read the stored
    duration is left as it was; and calculating twice is calculating
    once. *)
Theorem autoCalculateDuration_gives_a_duration (today : Z) (s : TestSessionDuration.t) :
  hasDuration (autoCalculateDuration today s)
  = match TestSession.parsedComponents (TestSession.startTime (times s)),
          TestSession.parsedComponents (TestSession.endTime (times s)) with
    | Some start, Some stop =>
      TestSession.validOn today start && TestSession.validOn today stop
      && (30000 <=? TestSession.msOfDay stop - TestSession.msOfDay start)
    | _, _ => hasDuration s
    end
  /\ (TestSession.calculateDurationFromTimes today (times s) = TestSession.Null ->
      autoCalculateDuration today s = s)
  /\ autoCalculateDuration today (autoCalculateDuration today s)
     = autoCalculateDuration today s.
Proof.
  unfold autoCalculateDuration.
  rewrite calculateDurationFromTimes_components.
  destruct (TestSession.parsedComponents (TestSession.startTime (times s)))
    as [start|] eqn:Hstart.
  2:{ cbn. repeat split.
      rewrite calculateDurationFromTimes_components, Hstart. reflexivity. }
  destruct (TestSession.parsedComponents (TestSession.endTime (times s)))
    as [stop|] eqn:Hstop.
  2:{ cbn. repeat split.
      rewrite calculateDurationFromTimes_components, Hstart, Hstop. reflexivity. }
  destruct (TestSession.validOn today start && TestSession.validOn today stop)
           eqn:Hvalid; cbn [notNull andb].
  - split; [|split].
    + unfold hasDuration. cbn. apply roundToMinutes_positive.
    + discriminate.
    + cbn [setDuration times]. rewrite calculateDurationFromTimes_components.
      rewrite Hstart, Hstop, Hvalid. reflexivity.
  - split; [reflexivity|]. split; [discriminate|].
    cbn [setDuration times]. rewrite calculateDurationFromTimes_components.
    rewrite Hstart, Hstop, Hvalid. reflexivity.
Qed.

End TestSessionDurationFacts.


(* ===================================================================== *)
(** ** YAML support: dangerous tags *)

Section YamlSecurityFacts.
Import Js YamlSecurity.

Lemma prefix_cons (a b : ascii) (p s : string) :
  String.prefix (String a p) (String b s) = Ascii.eqb a b && String.prefix p s.
Proof.
  cbn. destruct (ascii_dec a b) as [->|Hne].
  - now rewrite Ascii.eqb_refl.
  - apply Ascii.eqb_neq in Hne. now rewrite Hne.
Qed.

Lemma includes_cons (c : ascii) (s p : string) :
  includes (String c s) p = String.prefix p (String c s) || includes s p.
Proof. reflexivity. Qed.

Lemma includes_tail (c : ascii) (s p : string) :
  includes s (String c p) = true -> includes s p = true.
Proof.
  induction s as [|b s IH].
  - cbn. discriminate.
  - rewrite !includes_cons, prefix_cons. intros H.
    apply orb_true_iff in H as [H|H].
    + apply andb_true_iff in H as [_ H].
      replace (includes s p) with true; [apply orb_true_r|].
      symmetry. clear IH. destruct s as [|d s].
      * destruct p; [reflexivity|discriminate].
      * rewrite includes_cons, H. reflexivity.
    + rewrite (IH H). apply orb_true_r.
Qed.

(** What is left after a match starts with white space, or is empty. *)
Lemma removeTagged_inside (tag s : string) :
  removeTagged tag true s = EmptyString
  \/ exists w t, removeTagged tag true s = String w t /\ isSpace w = true.
Proof.
  induction s as [|c rest IH]; [now left|].
  cbn [removeTagged]. destruct (isSpace c) eqn:Hc; [|exact IH].
  right. eauto.
Qed.

Lemma prefix_of_space (p : string) (w : ascii) (t : string) :
  noSpace p = true -> isSpace w = true ->
  String.prefix p (String w t) = true -> p = EmptyString.
Proof.
  destruct p as [|a p]; [reflexivity|].
  cbn [noSpace]. rewrite prefix_cons. intros Hp Hw H.
  apply andb_true_iff in Hp as [Ha _]. apply andb_true_iff in H as [H _].
  apply Ascii.eqb_eq in H. subst a. rewrite Hw in Ha. discriminate.
Qed.

(** A text without white space that starts the result started the input. *)
Lemma removeTagged_prefix (tag s : string) :
  forall p, noSpace p = true ->
            String.prefix p (removeTagged tag false s) = true ->
            String.prefix p s = true.
Proof.
  induction s as [|c rest IH]; intros p Hp; [exact id|].
  cbn [removeTagged].
  destruct (String.prefix ("!!" ++ tag) (String c rest)) eqn:Hmatch.
  - intros H. destruct (removeTagged_inside tag rest) as [Hempty|(w & t & Hw & Hspace)].
    + rewrite Hempty in H. destruct p; [reflexivity|discriminate].
    + rewrite Hw in H. rewrite (prefix_of_space p w t Hp Hspace H). reflexivity.
  - destruct p as [|a p]; [reflexivity|].
    rewrite !prefix_cons. cbn [noSpace] in Hp.
    apply andb_true_iff in Hp as [_ Hp]. intros H.
    apply andb_true_iff in H as [Ha H]. rewrite Ha. cbn [andb].
    now apply IH.
Qed.

(** Removing creates no occurrence of a text without white space. *)
Lemma removeTagged_nothing_new (tag p : string) :
  noSpace p = true -> p <> EmptyString ->
  forall s inside,
    includes (removeTagged tag inside s) p = true -> includes s p = true.
Proof.
  intros Hp Hne. induction s as [|c rest IH]; intros inside; [exact id|].
  rewrite includes_cons. cbn [removeTagged].
  assert (Hrest : forall inside', includes (removeTagged tag inside' rest) p = true ->
                                  String.prefix p (String c rest) || includes rest p = true).
  { intros inside' H. rewrite (IH _ H). apply orb_true_r. }
  destruct inside.
  - destruct (isSpace c) eqn:Hc; [|apply Hrest].
    rewrite includes_cons. intros H. apply orb_true_iff in H as [H|H].
    + apply (prefix_of_space p c _ Hp Hc) in H. contradiction.
    + exact (Hrest _ H).
  - destruct (String.prefix ("!!" ++ tag) (String c rest)) eqn:Hmatch; [apply Hrest|].
    rewrite includes_cons. intros H. apply orb_true_iff in H as [H|H].
    + assert (Hstart : String.prefix p (removeTagged tag false (String c rest)) = true).
      { cbn [removeTagged]. now rewrite Hmatch. }
      rewrite (removeTagged_prefix tag _ p Hp Hstart). reflexivity.
    + exact (Hrest _ H).
Qed.

Lemma noSpace_marked (tag : string) :
  noSpace tag = true -> noSpace ("!!" ++ tag) = true.
Proof. intros H. cbn. exact H. Qed.

(** Removing leaves no occurrence of the marked tag. *)
Lemma removeTagged_removes (tag : string) :
  noSpace tag = true ->
  forall s inside, includes (removeTagged tag inside s) ("!!" ++ tag) = false.
Proof.
  intros Htag. induction s as [|c rest IH]; intros inside; [reflexivity|].
  cbn [removeTagged]. destruct inside.
  - destruct (isSpace c) eqn:Hc; [|apply IH].
    rewrite includes_cons, IH, orb_false_r.
    destruct (String.prefix ("!!" ++ tag) (String c (removeTagged tag false rest)))
             eqn:H; [|reflexivity].
    apply (prefix_of_space _ c _ (noSpace_marked tag Htag) Hc) in H. discriminate.
  - destruct (String.prefix ("!!" ++ tag) (String c rest)) eqn:Hmatch; [apply IH|].
    rewrite includes_cons, IH, orb_false_r.
    destruct (String.prefix ("!!" ++ tag) (String c (removeTagged tag false rest)))
             eqn:H; [|reflexivity].
    assert (Hstart : String.prefix ("!!" ++ tag)
                                   (removeTagged tag false (String c rest)) = true).
    { cbn [removeTagged]. now rewrite Hmatch. }
    apply (removeTagged_prefix tag _ _ (noSpace_marked tag Htag)) in Hstart.
    congruence.
Qed.

Lemma sanitizeTags_nothing_new (content p : string) :
  noSpace p = true -> p <> EmptyString ->
  forall tags text removed,
    includes (fst (sanitizeTags content tags text removed)) p = true ->
    includes text p = true.
Proof.
  intros Hp Hne. induction tags as [|tag rest IH]; intros text removed; [exact id|].
  cbn [sanitizeTags]. destruct (includes content tag).
  - intros H. apply IH in H.
    exact (removeTagged_nothing_new tag p Hp Hne _ _ H).
  - apply IH.
Qed.

Lemma sanitizeTags_removes (content tag : string) :
  noSpace tag = true -> includes content tag = true ->
  forall tags text removed,
    In tag tags ->
    includes (fst (sanitizeTags content tags text removed)) ("!!" ++ tag) = false.
Proof.
  intros Htag Hfound. induction tags as [|t rest IH]; intros text removed; [intros []|].
  intros [->|Hin]; cbn [sanitizeTags].
  - rewrite Hfound.
    destruct (includes (fst (sanitizeTags content rest (removeTagged tag false text)
                                          (removed ++ [tag])%list)) ("!!" ++ tag))
             eqn:H; [|reflexivity].
    apply sanitizeTags_nothing_new in H;
      [|exact (noSpace_marked tag Htag)|discriminate].
    now rewrite removeTagged_removes in H.
  - destruct (includes content t); now apply IH.
Qed.

Lemma sanitizeTags_removed (content : string) :
  forall tags text removed,
    snd (sanitizeTags content tags text removed)
    = (removed ++ List.filter (includes content) tags)%list.
Proof.
  induction tags as [|tag rest IH]; intros text removed; cbn [sanitizeTags List.filter].
  - now rewrite app_nil_r.
  - destruct (includes content tag); rewrite IH; [|reflexivity].
    now rewrite <- app_assoc.
Qed.

Lemma sanitizeTags_untouched (content : string) :
  forall tags text removed,
    List.filter (includes content) tags = [] ->
    fst (sanitizeTags content tags text removed) = text.
Proof.
  induction tags as [|tag rest IH]; intros text removed; cbn [sanitizeTags List.filter];
    [reflexivity|].
  destruct (includes content tag); [discriminate|]. apply IH.
Qed.

(** After [sanitizeYamlContent] no dangerous tag is left in the text: for
    each of the seven names, [!!name] does not occur in the result.  The
    tags reported as removed are the names [validateYamlSecurity] reports
    as unsafe, whether or not they carried the [!!] mark; content that is
    safe comes back unchanged; and no text without white space occurs in
    the result that did not occur in the content. *)
Theorem sanitizeYamlContent_leaves_no_dangerous_tag (content : string) :
  (forall tag, In tag dangerousTags ->
               includes (sanitized (sanitizeYamlContent content)) ("!!" ++ tag) = false)
  /\ removedTags (sanitizeYamlContent content)
     = unsafeTags (validateYamlSecurity content)
  /\ (isSafe (validateYamlSecurity content) = true ->
      sanitizeYamlContent content = mkSanitization content [])
  /\ (forall text, noSpace text = true -> text <> EmptyString ->
                   includes (sanitized (sanitizeYamlContent content)) text = true ->
                   includes content text = true).
Proof.
  unfold sanitizeYamlContent, validateYamlSecurity.
  pose proof (sanitizeTags_removed content dangerousTags content []) as Hremoved.
  pose proof (sanitizeTags_untouched content dangerousTags content []) as Hsame.
  assert (Hnew : forall text, noSpace text = true -> text <> EmptyString ->
                   includes (fst (sanitizeTags content dangerousTags content [])) text
                   = true ->
                   includes content text = true).
  { intros text Htext Hne. apply sanitizeTags_nothing_new; assumption. }
  assert (Hgone : forall tag, In tag dangerousTags ->
                    includes (fst (sanitizeTags content dangerousTags content []))
                             ("!!" ++ tag) = false).
  { intros tag Hin.
    assert (Htag : noSpace tag = true).
    { cbn in Hin. repeat (destruct Hin as [<-|Hin]; [reflexivity|]). destruct Hin. }
    destruct (includes content tag) eqn:Hfound.
    - now apply sanitizeTags_removes.
    - destruct (includes (fst (sanitizeTags content dangerousTags content []))
                         ("!!" ++ tag)) eqn:H; [|reflexivity].
      apply Hnew in H; [|exact (noSpace_marked tag Htag)|discriminate].
      apply includes_tail, includes_tail in H. congruence. }
  destruct (sanitizeTags content dangerousTags content []) as [text removed].
  cbn [fst snd] in *. cbn [sanitized removedTags isSafe unsafeTags].
  split; [exact Hgone|]. split; [exact Hremoved|]. split; [|exact Hnew].
  intros Hsafe. apply Nat.eqb_eq in Hsafe. apply List.length_zero_iff_nil in Hsafe.
  rewrite Hremoved, Hsafe, (Hsame Hsafe). reflexivity.
Qed.

End YamlSecurityFacts.


(* ===================================================================== *)
(** ** The recursive walk of the file helpers on a directory tree *)

Section ManifestTreeFacts.
Import Js ManifestWalk ManifestTree.

Variable fs_readdir : string -> outcome (list Dirent).
Variable path_join : string -> string -> string.

#[local] Abbreviation childFiles directoryPath :=
  (fun child =>
     match child with
     | TFile entry =>
       if isManifestFile (path_join directoryPath entry)
       then [path_join directoryPath entry] else []
     | TDir entry _ => manifestsIn path_join (path_join directoryPath entry) child
     | TOther _ => []
     end).

(** The loop over the entries of a directory whose sub-directories the
    recursive call walks completely. *)
Lemma walk_items_children (walk : string -> option (outcome (list string)))
      (directoryPath : string) (children : list Tree) :
  (forall entry grandchildren,
      In (TDir entry grandchildren) children ->
      walk (path_join directoryPath entry)
      = Some (Returns (manifestsIn path_join (path_join directoryPath entry)
                                   (TDir entry grandchildren)))) ->
  forall manifestFiles,
    walk_items path_join isManifestFile walk directoryPath true
               (map dirent children) manifestFiles
    = Some (Returns (manifestFiles ++ flat_map (childFiles directoryPath) children)%list).
Proof.
  induction children as [|child rest IH]; intros Hwalk manifestFiles.
  - cbn. now rewrite app_nil_r.
  - assert (Hrest : forall entry grandchildren,
               In (TDir entry grandchildren) rest ->
               walk (path_join directoryPath entry)
               = Some (Returns (manifestsIn path_join (path_join directoryPath entry)
                                            (TDir entry grandchildren)))).
    { intros entry grandchildren Hin. apply Hwalk. now right. }
    cbn [map flat_map walk_items].
    destruct child as [entry|entry grandchildren|entry]; cbn [dirent isFile isDirectory name].
    + rewrite (IH Hrest).
      destruct (isManifestFile (path_join directoryPath entry));
        [now rewrite <- app_assoc|reflexivity].
    + cbn [andb]. rewrite (Hwalk entry grandchildren) by now left.
      rewrite (IH Hrest). now rewrite <- app_assoc.
    + cbn [andb]. apply IH. exact Hrest.
Qed.

Lemma laidOut_child (directoryPath entry : string) (grandchildren children : list Tree) :
  fold_right
    (fun child others =>
       match child with
       | TDir entry _ => laidOut fs_readdir path_join (path_join directoryPath entry) child
       | _ => True
       end /\ others)
    True children ->
  In (TDir entry grandchildren) children ->
  laidOut fs_readdir path_join (path_join directoryPath entry) (TDir entry grandchildren).
Proof.
  induction children as [|child rest IH]; [intros _ []|].
  cbn [fold_right]. intros [Hchild Hothers] [->|Hin]; [exact Hchild|].
  now apply IH.
Qed.

Lemma levels_child (child : Tree) (children : list Tree) :
  In child children ->
  (levels child
   <= fold_right (fun child deepest => Nat.max (levels child) deepest) 0 children)%nat.
Proof.
  induction children as [|c rest IH]; [intros []|].
  cbn [fold_right]. intros [->|Hin]; [lia|].
  specialize (IH Hin). lia.
Qed.

(** The recursive walk of the file helpers is complete at every depth: on a
    disk that holds a directory tree, [findManifestFiles] with [recursive]
    returns every manifest file of the tree, however deep, each directory
    in the order of its entries; as many nested invocations as the tree has
    levels suffice. *)
Theorem findManifestFiles_finds_every_manifest
        (fuel : nat) (entry : string) (children : list Tree) (directoryPath : string) :
  laidOut fs_readdir path_join directoryPath (TDir entry children) ->
  (levels (TDir entry children) <= fuel)%nat ->
  findManifestFiles_fuel fs_readdir path_join fuel directoryPath true
  = Some (Returns (manifestsIn path_join directoryPath (TDir entry children))).
Proof.
  revert entry children directoryPath.
  induction fuel as [|fuel IH]; intros entry children directoryPath Hlaid Hlevels.
  - cbn in Hlevels. lia.
  - cbn [laidOut] in Hlaid. destruct Hlaid as [Hread Hchildren].
    cbn [findManifestFiles_fuel]. rewrite Hread.
    rewrite (walk_items_children _ directoryPath children); [reflexivity|].
    intros e grandchildren Hin. apply IH.
    + exact (laidOut_child directoryPath e grandchildren children Hchildren Hin).
    + cbn [levels] in Hlevels. pose proof (levels_child _ _ Hin) as Hle. lia.
Qed.

End ManifestTreeFacts.

Lemma findManifestFiles_finds_every_manifest_witness :
  ManifestWalk.findManifestFiles_fuel ManifestTree.nested_readdir
    FileSystemService.demo_join 4 "/r" true
  = Some (Js.Returns ["/r/a/b/deep.json"; "/r/a/b/c/deeper.yml"]).
Proof.
  refine (eq_trans
            (findManifestFiles_finds_every_manifest
               ManifestTree.nested_readdir FileSystemService.demo_join 4 "r"
               [ManifestTree.TDir "a"
                  [ManifestTree.TFile "x.txt";
                   ManifestTree.TDir "b"
                     [ManifestTree.TFile "deep.json";
                      ManifestTree.TDir "c" [ManifestTree.TFile "deeper.yml"]]]]
               "/r" _ _) _).
  - cbn. repeat split; reflexivity.
  - cbn. lia.
  - vm_compute. reflexivity.
Defined.


(* ===================================================================== *)
(** ** The context of a parse error *)

Section ErrorContextFacts.
Import Js ErrorContext.

Lemma parseDigits_nonnegative (s : string) :
  forall acc n,
    (forall a, acc = Some a -> 0 <= a) ->
    TestSession.parseDigits s acc = Some n -> 0 <= n.
Proof.
  induction s as [|c rest IH]; intros acc n Hacc; cbn [TestSession.parseDigits].
  - intros H. now apply Hacc.
  - destruct (TestSession.digitValue c) as [d|] eqn:Hd; [|intros H; now apply Hacc].
    apply IH. intros a [= <-].
    assert (0 <= d).
    { unfold TestSession.digitValue in Hd.
      destruct ((48 <=? nat_of_ascii c)%nat && (nat_of_ascii c <=? 57)%nat) eqn:Hc;
        [|discriminate].
      injection Hd as <-. apply andb_true_iff in Hc as [Hlo _].
      apply Nat.leb_le in Hlo. lia. }
    destruct acc as [a|]; cbn.
    + specialize (Hacc a eq_refl). lia.
    + lia.
Qed.

Lemma extractLineNumber_nonnegative (errorMessage : string) (n : Z) :
  extractLineNumber errorMessage = Some n -> 0 <= n.
Proof.
  induction errorMessage as [|c rest IH]; cbn [extractLineNumber]; [discriminate|].
  destruct (String.prefix "line " (String c rest)); [|exact IH].
  destruct (TestSession.parseDigits (dropChars 5 (String c rest)) None) as [m|] eqn:Hm;
    [|exact IH].
  intros [= <-].
  apply (parseDigits_nonnegative (dropChars 5 (String c rest)) None m);
    [discriminate|exact Hm].
Qed.

(** The lines a slice takes are the lines of the list at the same places. *)
Lemma sliceLines_nth_error (items : list string) (start stop : Z) (i : nat) :
  0 <= start ->
  (i < Z.to_nat (stop - start))%nat ->
  nth_error (sliceLines items start stop) i = nth_error items (Z.to_nat start + i).
Proof.
  intros Hstart Hi. unfold sliceLines.
  rewrite nth_error_firstn.
  destruct (Nat.ltb_spec i (Z.to_nat (stop - start))) as [_|Hge]; [|lia].
  apply nth_error_skipn.
Qed.

(** The context of a parse error is [null] exactly when the message names
    no line, line 0 or a line beyond the content; otherwise the line number
    is the one the message names, [line] is that line of the content, and
    [surroundingLines] is the window of the content from two lines before
    it (or the first line) up to two lines after it (or the last line): it
    holds [line] and has at most five lines, all of them consecutive lines
    of the content. *)
Theorem getErrorContext_window (content errorMessage : string) :
  match getErrorContext content errorMessage with
  | None =>
    match extractLineNumber errorMessage with
    | None => True
    | Some n => n = 0 \/ Z.of_nat (List.length (linesOf content)) < n
    end
  | Some context =>
    extractLineNumber errorMessage = Some (lineNumber context)
    /\ 1 <= lineNumber context <= Z.of_nat (List.length (linesOf content))
    /\ nth_error (linesOf content) (Z.to_nat (lineNumber context - 1))
       = Some (line context)
    /\ In (line context) (surroundingLines context)
    /\ (List.length (surroundingLines context) <= 5)%nat
    /\ exists before after,
        linesOf content = (before ++ surroundingLines context ++ after)%list
        /\ Z.of_nat (List.length before) = Z.max 0 (lineNumber context - 3)
        /\ (List.length after
            = List.length (linesOf content)
              - Z.to_nat (lineNumber context + 2))%nat
  end.
Proof.
  unfold getErrorContext.
  destruct (extractLineNumber errorMessage) as [n|] eqn:Hn; [|exact I].
  pose proof (extractLineNumber_nonnegative _ _ Hn) as Hnonneg.
  set (lines := linesOf content).
  destruct (negb (n =? 0) && (n <=? Z.of_nat (List.length lines))) eqn:Hrange.
  2:{ apply andb_false_iff in Hrange as [Hzero|Hlong].
      - left. apply negb_false_iff in Hzero. now apply Z.eqb_eq in Hzero.
      - right. now apply Z.leb_gt in Hlong. }
  apply andb_true_iff in Hrange as [Hzero Hlong].
  apply negb_true_iff, Z.eqb_neq in Hzero. apply Z.leb_le in Hlong.
  cbn [lineNumber line surroundingLines].
  assert (Hline : nth_error lines (Z.to_nat (n - 1))
                  = Some (nth (Z.to_nat (n - 1)) lines EmptyString)).
  { apply nth_error_nth'. lia. }
  split; [reflexivity|]. split; [lia|]. split; [exact Hline|].
  split; [|split].
  - apply (nth_error_In _ (Z.to_nat (n - 1) - Z.to_nat (Z.max 0 (n - 3)))).
    rewrite sliceLines_nth_error by lia.
    rewrite <- Hline. f_equal. lia.
  - unfold sliceLines. rewrite List.length_firstn. lia.
  - exists (firstn (Z.to_nat (Z.max 0 (n - 3))) lines),
           (skipn (Z.to_nat (n + 2 - Z.max 0 (n - 3)))
                  (skipn (Z.to_nat (Z.max 0 (n - 3))) lines)).
    unfold sliceLines. split; [|split].
    + now rewrite !firstn_skipn.
    + rewrite List.length_firstn. lia.
    + rewrite !List.length_skipn. lia.
Qed.

End ErrorContextFacts.
